(** * YTMusicLabBot: a shallow embedding of the bot and its specification

    The development follows the source files the specification talks about,
    after the Python strings they share:

    - [PyStr]   : the few Python [str] operations the handlers use;
    - [OsPath]  : the functions of [os.path] the downloads use;
    - [Db]      : [database.py], the SQLite tables as finite maps and lists;
    - [YouTube] : [youtube_service.py], the search and the downloads around
                  yt-dlp;
    - [Bot]     : [main.py], the handlers of [SimpleMusicBot] as programs in a
                  state-and-exception monad over the bot object and its
                  collaborators;
    - [Admin]   : [main.py], the commands on the admin list and on the forced
                  channel, and the loop of the broadcast.

    Python values are modelled by the type they have at the place they are
    used: [str] is a byte string holding UTF-8, [int] is [Z], [None] is the
    [None] of an [option], a [dict] used as a table is a [gmap], a [dict] used
    as a struct is a record. *)

From Stdlib Require Import ZArith String Ascii Lia Bool.
From stdpp Require Import base option list gmap fin_maps strings numbers.

Local Open Scope string_scope.

(* ===================================================================== *)
(** ** Python strings *)
(* ===================================================================== *)

Module PyStr.

(** [str.lower()] on the ASCII letters. Outside ASCII Python lowers more
    letters, but a lowered non-ASCII letter never yields a run of ASCII
    letters, so membership of an ASCII needle is decided the same way. *)
Definition lower_ascii (c : ascii) : ascii :=
  let n := nat_of_ascii c in
  if (65 <=? n)%nat && (n <=? 90)%nat then ascii_of_nat (n + 32) else c.

Fixpoint lower (s : string) : string :=
  match s with
  | EmptyString => EmptyString
  | String c rest => String (lower_ascii c) (lower rest)
  end.

(** [s.startswith(p)] *)
Fixpoint startswith (p s : string) : bool :=
  match p, s with
  | EmptyString, _ => true
  | String _ _, EmptyString => false
  | String a p', String b s' => Ascii.eqb a b && startswith p' s'
  end.

(** [needle in hay] *)
Fixpoint contains (needle hay : string) : bool :=
  startswith needle hay ||
  match hay with
  | EmptyString => false
  | String _ rest => contains needle rest
  end.

(** A byte [10xxxxxx] continues the code point begun before it. *)
Definition is_continuation (c : ascii) : bool :=
  let n := nat_of_ascii c in (128 <=? n)%nat && (n <? 192)%nat.

(** [len(s)]: the number of code points. *)
Fixpoint len (s : string) : nat :=
  match s with
  | EmptyString => 0
  | String c rest => if is_continuation c then len rest else S (len rest)
  end.

(** [s[:n]]: the first [n] code points. *)
Fixpoint slice_to (n : nat) (s : string) : string :=
  match s with
  | EmptyString => EmptyString
  | String c rest =>
      if is_continuation c then String c (slice_to n rest)
      else match n with
           | O => EmptyString
           | S n' => String c (slice_to n' rest)
           end
  end.

(** [s.replace(c, rep)] for a one-character [c]. *)
Fixpoint replace (c : ascii) (rep : string) (s : string) : string :=
  match s with
  | EmptyString => EmptyString
  | String a rest =>
      if Ascii.eqb a c then rep ++ replace c rep rest
      else String a (replace c rep rest)
  end.

Definition backslash : ascii := ascii_of_nat 92.

(** [s[1:]]: all but the first code point. *)
Fixpoint skip_continuation (s : string) : string :=
  match s with
  | EmptyString => EmptyString
  | String c rest => if is_continuation c then skip_continuation rest else s
  end.

Definition slice_from_1 (s : string) : string :=
  match s with
  | EmptyString => EmptyString
  | String _ rest => skip_continuation rest
  end.

(** The ASCII characters [str.strip()] removes (it removes the white space
    of Unicode as well, which is left in place here). *)
Definition is_space (c : ascii) : bool :=
  let n := nat_of_ascii c in
  ((9 <=? n)%nat && (n <=? 13)%nat) || ((28 <=? n)%nat && (n <=? 32)%nat).

Fixpoint lstrip (s : string) : string :=
  match s with
  | EmptyString => EmptyString
  | String c rest => if is_space c then lstrip rest else s
  end.

Fixpoint rstrip (s : string) : string :=
  match s with
  | EmptyString => EmptyString
  | String c rest =>
      match rstrip rest with
      | EmptyString => if is_space c then EmptyString else String c EmptyString
      | rest' => String c rest'
      end
  end.

Definition strip (s : string) : string := rstrip (lstrip s).

(** [sep.join(parts)] *)
Fixpoint join (sep : string) (parts : list string) : string :=
  match parts with
  | [] => EmptyString
  | [p] => p
  | p :: rest => p ++ sep ++ join sep rest
  end.

End PyStr.

(* ===================================================================== *)
(** ** os.path, on POSIX *)
(* ===================================================================== *)

Module OsPath.

(** [p[:n]] and [p[n:]], counted in bytes. *)
Fixpoint take (n : nat) (p : string) : string :=
  match n, p with
  | S n', String c rest => String c (take n' rest)
  | _, _ => EmptyString
  end.

Fixpoint drop (n : nat) (p : string) : string :=
  match n, p with
  | S n', String _ rest => drop n' rest
  | _, _ => p
  end.

(** [p.rfind(c)] for a one-character [c], with [i] the index of the first
    character of [p]: the index of the last [c], or -1. *)
Fixpoint rfind_from (c : ascii) (p : string) (i : Z) : Z :=
  match p with
  | EmptyString => (-1)%Z
  | String a rest =>
      let later := rfind_from c rest (i + 1)%Z in
      if (0 <=? later)%Z then later
      else if Ascii.eqb a c then i else (-1)%Z
  end.

Definition rfind (c : ascii) (p : string) : Z := rfind_from c p 0.

(** Whether a character of [s] is not a dot. *)
Fixpoint has_non_dot (s : string) : bool :=
  match s with
  | EmptyString => false
  | String a rest => negb (Ascii.eqb a ".") || has_non_dot rest
  end.

(** [os.path.splitext(p)[0]]: [p] up to the last dot, if that dot comes
    after the last slash and after a character of the file name that is not
    a dot; [p] otherwise. The indices are those of the bytes, which cut the
    text where the indices of the characters do, a slash and a dot being
    one byte each. *)
Definition splitext_root (p : string) : string :=
  let sepIndex := rfind "/" p in
  let dotIndex := rfind "." p in
  if (sepIndex <? dotIndex)%Z then
    let filenameIndex := Z.to_nat (sepIndex + 1) in
    if has_non_dot (drop filenameIndex (take (Z.to_nat dotIndex) p))
    then take (Z.to_nat dotIndex) p
    else p
  else p.

(** [s.endswith(suffix)] *)
Fixpoint endswith (suffix s : string) : bool :=
  String.eqb suffix s ||
  match s with
  | EmptyString => false
  | String _ rest => endswith suffix rest
  end.

(** [os.path.join(a, b)] *)
Definition join (a b : string) : string :=
  if PyStr.startswith "/" b then b
  else if String.eqb a "" || endswith "/" a then a ++ b
  else a ++ "/" ++ b.

End OsPath.

(* ===================================================================== *)
(** ** database.py *)
(* ===================================================================== *)

Module Db.

(** A row of [users]; the key [user_id] is the key of the map below.
    [is_active] is a nullable numeric column: [None] is SQL NULL. *)
Record user_row := {
  username : option string;
  first_name : option string;
  last_name : option string;
  joined_at : string;
  last_active : string;
  is_active : option Z
}.

(** A row of [downloads]. *)
Record download_row := {
  download_id : Z;
  user_id : Z;
  song_title : string;
  format : string;
  effect : option string;
  downloaded_at : string
}.

(** The dict [add_promo] receives and [get_current_promo] returns. *)
Record promo_data := {
  file_id : string;
  caption : string;
  created_at : string
}.

(** A row of [promos]. *)
Record promo_row := {
  promo_id : Z;
  promo : promo_data
}.

(** The database file: one field per table. [users] and [bot_settings] have a
    primary key and are maps; [downloads] and [promos] are kept in rowid
    order, with the AUTOINCREMENT counter of each. *)
Record Database := {
  users : gmap Z user_row;
  downloads : list download_row;
  downloads_seq : Z;
  bot_settings : gmap string string;
  promos : list promo_row;
  promos_seq : Z
}.

(** [init_database] on a fresh file. *)
Definition init_database : Database :=
  {| users := ∅; downloads := []; downloads_seq := 0;
     bot_settings := ∅; promos := []; promos_seq := 0 |}.

(** [add_user]: INSERT OR REPLACE names five columns; the two others take
    their defaults, [joined_at] the clock of SQLite [ts] and [is_active] 1. *)
Definition add_user (uid : Z) (uname fname lname : option string)
    (now ts : string) (db : Database) : Database :=
  {| users := <[uid := {| username := uname; first_name := fname;
                          last_name := lname; joined_at := ts;
                          last_active := now; is_active := Some 1%Z |}]> (users db);
     downloads := downloads db; downloads_seq := downloads_seq db;
     bot_settings := bot_settings db;
     promos := promos db; promos_seq := promos_seq db |}.

(** [update_user_activity]: UPDATE ... WHERE user_id = ?, no row, no change. *)
Definition update_user_activity (uid : Z) (now : string) (db : Database) : Database :=
  {| users := alter (fun r => {| username := username r; first_name := first_name r;
                                 last_name := last_name r; joined_at := joined_at r;
                                 last_active := now; is_active := is_active r |})
                    uid (users db);
     downloads := downloads db; downloads_seq := downloads_seq db;
     bot_settings := bot_settings db;
     promos := promos db; promos_seq := promos_seq db |}.

(** [add_download]: one row appended, [downloaded_at] from the clock of SQLite. *)
Definition add_download (uid : Z) (title fmt : string) (eff : option string)
    (ts : string) (db : Database) : Database :=
  {| users := users db;
     downloads := downloads db ++
       [{| download_id := downloads_seq db + 1; user_id := uid; song_title := title;
           format := fmt; effect := eff; downloaded_at := ts |}];
     downloads_seq := downloads_seq db + 1;
     bot_settings := bot_settings db;
     promos := promos db; promos_seq := promos_seq db |}.

(** The WHERE clause [is_active = 1]. *)
Definition active (r : user_row) : Prop := is_active r = Some 1%Z.

#[global] Instance active_dec r : Decision (active r).
Proof. unfold active. apply _. Defined.

(** [get_user_count]: COUNT of all rows, COUNT of the rows WHERE is_active = 1. *)
Definition get_user_count (db : Database) : nat * nat :=
  (size (users db), size (filter (fun kr => active kr.2) (users db))).

(** [get_all_users] *)
Definition get_all_users (db : Database) : list Z :=
  (map_to_list (filter (fun kr => active kr.2) (users db))).*1.

(** [set_setting], and its alias [set_bot_setting]. *)
Definition set_setting (key value : string) (db : Database) : Database :=
  {| users := users db; downloads := downloads db; downloads_seq := downloads_seq db;
     bot_settings := <[key := value]> (bot_settings db);
     promos := promos db; promos_seq := promos_seq db |}.

Definition set_bot_setting := set_setting.

(** [get_setting] *)
Definition get_setting (key : string) (db : Database) : option string :=
  bot_settings db !! key.

(** [delete_bot_setting] *)
Definition delete_bot_setting (key : string) (db : Database) : Database :=
  {| users := users db; downloads := downloads db; downloads_seq := downloads_seq db;
     bot_settings := delete key (bot_settings db);
     promos := promos db; promos_seq := promos_seq db |}.

(** [add_promo] *)
Definition add_promo (p : promo_data) (db : Database) : Database :=
  {| users := users db; downloads := downloads db; downloads_seq := downloads_seq db;
     bot_settings := bot_settings db;
     promos := promos db ++ [{| promo_id := promos_seq db + 1; promo := p |}];
     promos_seq := promos_seq db + 1 |}.

(** [delete_all_promos]: the count of the rows, and the table emptied. *)
Definition delete_all_promos (db : Database) : nat * Database :=
  (length (promos db),
   {| users := users db; downloads := downloads db; downloads_seq := downloads_seq db;
      bot_settings := bot_settings db;
      promos := []; promos_seq := promos_seq db |}).

(** ORDER BY created_at DESC LIMIT 1. [created_at] holds the text of
    [isoformat()], compared byte by byte. SQL leaves the order of rows with
    equal keys open; the scan here keeps the earlier row. *)
Fixpoint latest (best : promo_row) (rows : list promo_row) : promo_row :=
  match rows with
  | [] => best
  | r :: rest =>
      latest (if String.ltb (created_at (promo best)) (created_at (promo r))
              then r else best) rest
  end.

(** [get_current_promo] *)
Definition get_current_promo (db : Database) : option promo_data :=
  match promos db with
  | [] => None
  | r :: rest => Some (promo (latest r rest))
  end.

(** The table without the rows whose id is [target]: DELETE ... WHERE id = ?. *)
Definition without_promo (target : Z) (rows : list promo_row) : list promo_row :=
  filter (fun r => promo_id r ≠ target) rows.

(** [delete_latest_promo]: the id of the first row by ORDER BY created_at
    DESC, then the DELETE of that id; whether there was a row. *)
Definition delete_latest_promo (db : Database) : bool * Database :=
  match promos db with
  | [] => (false, db)
  | r :: rest =>
      (true,
       {| users := users db; downloads := downloads db; downloads_seq := downloads_seq db;
          bot_settings := bot_settings db;
          promos := without_promo (promo_id (latest r rest)) (promos db);
          promos_seq := promos_seq db |})
  end.

(** SELECT key, COUNT( * ) ... GROUP BY key, as the dict Python makes of the
    rows; a row whose key is [None] is left out by the WHERE clause. *)
Definition count_by {A} (key : A -> option string) (rows : list A) : gmap string nat :=
  foldr (fun r counts =>
           match key r with
           | Some k => <[k := S (default 0%nat (counts !! k))]> counts
           | None => counts
           end) ∅ rows.

(** The dict [get_download_stats] returns. *)
Record download_stats := {
  total : nat;
  formats : gmap string nat;
  effects : gmap string nat;
  today : nat
}.

(** [get_download_stats]. [date] is the DATE function of SQLite, which gives
    NULL on a text that is no date, and [date_now] is DATE("now"); a
    comparison with NULL selects no row. *)
Definition get_download_stats (date : string -> option string) (date_now : option string)
    (db : Database) : download_stats :=
  {| total := length (downloads db);
     formats := count_by (fun r => Some (format r)) (downloads db);
     effects := count_by effect (downloads db);
     today := length (filter (fun r => is_Some (date (downloaded_at r)) ∧
                                       date (downloaded_at r) = date_now)
                             (downloads db)) |}.

(** What SQLite keeps true of the two tables with AUTOINCREMENT: the ids of
    the rows are distinct and none is above the counter of the table. *)
Definition well_formed (db : Database) : Prop :=
  NoDup (promo_id <$> promos db)
  ∧ Forall (fun r => (promo_id r <= promos_seq db)%Z) (promos db)
  ∧ NoDup (download_id <$> downloads db)
  ∧ Forall (fun r => (download_id r <= downloads_seq db)%Z) (downloads db).

End Db.

(* ===================================================================== *)
(** ** Python exceptions *)
(* ===================================================================== *)

Module Py.

(** The exceptions the modelled code can meet, all below [Exception]. *)
Inductive exception :=
| KeyError (key : string)            (* d[key] on a dict without the key *)
| IndexError                         (* l[i] out of range *)
| TypeError                          (* None[:50], len(None) *)
| AttributeError                     (* None.replace *)
| External (what : string)           (* raised inside a collaborator *)
| Exception (msg : string)           (* raise Exception("...") *)
| Wrapped (prefix : string) (cause : exception).
                                     (* raise Exception(f"prefix: {str(e)}") *)

(** How a call ends. *)
Inductive outcome (A : Type) :=
| Returned (a : A)
| Raised (e : exception).

Arguments Returned {A} a.
Arguments Raised {A} e.

End Py.

(* ===================================================================== *)
(** ** youtube_service.py *)
(* ===================================================================== *)

Module YouTube.
Import Py.

(** The dict the service builds for a video. Search results have the keys
    id, title, channel, url and thumbnail; [get_video_info] adds duration
    ([duration] is [None] where the key is missing). [channel] is whatever
    yt-dlp holds for the uploader, which may be Python's None. *)
Record video := {
  id : string;
  title : string;
  channel : option string;
  url : string;
  thumbnail : string;
  duration : option Z
}.

(** An entry of yt-dlp: metadata keys to a str or to None. *)
Abbreviation info_dict := (gmap string (option string)).

(** [d.get(k, default)]: a Python value, a str or None. *)
Definition get (d : info_dict) (k : string) (default : option string) : option string :=
  match d !! k with
  | Some v => v
  | None => default
  end.

(** What sits under the key 'entries'. *)
Inductive entries_value :=
| EntriesNone                                  (* None *)
| EntriesList (l : list (option info_dict)).   (* a list; [None] is an entry
                                                  that is not a dict *)

(** What [extract_info] returns. *)
Inductive extracted :=
| XFalsy                                       (* None, or another falsy value
                                                  that is not a dict *)
| XOther                                       (* a truthy value, not a dict *)
| XDict (entries : option entries_value) (meta : info_dict).
                                               (* a dict: the key 'entries' if
                                                  it is there, the other keys *)

(** One run of yt-dlp, as [search_videos] sees it. *)
Inductive ydl_run :=
| YdlRaises                  (* YoutubeDL(search_opts), or leaving its with
                                block, raises: outside the inner try *)
| ExtractRaises              (* extract_info raises: inside the inner try *)
| Extracted (r : extracted).

(** [if search_results:] *)
Definition truthy (r : extracted) : bool :=
  match r with
  | XFalsy => false
  | XOther => true
  | XDict None meta => negb (bool_decide (meta = ∅))
  | XDict (Some _) _ => true
  end.

(** [if entry and isinstance(entry, dict)] *)
Definition is_nonempty_dict (entry : option info_dict) : bool :=
  match entry with
  | Some d => negb (bool_decide (d = ∅))
  | None => false
  end.

(** Truth of a str-or-None value. *)
Definition nonempty (v : option string) : bool :=
  match v with
  | Some s => negb (String.eqb s "")
  | None => false
  end.

Definition watch_url (video_id : string) : string :=
  "https://www.youtube.com/watch?v=" ++ video_id.

Definition thumbnail_url (video_id : string) : string :=
  "https://img.youtube.com/vi/" ++ video_id ++ "/maxresdefault.jpg".

(** The body of the for loop over [entries], for one entry: the list after
    it and whether the loop breaks. A title that is None passes the test
    [title != 'Unknown Title'] and is appended, then [title[:50]] in the log
    line raises; the list is local and lost with the exception. *)
Definition entry_step (max_results : Z) (entry : option info_dict)
    (videos : list video) : outcome (list video * bool) :=
  match entry with
  | Some d =>
      if is_nonempty_dict entry then
        let video_id := get d "id" (Some "") in
        let title := get d "title" (Some "Unknown Title") in
        let uploader :=
          get d "uploader" (get d "channel" (get d "uploader_id" (Some "Unknown Channel"))) in
        let appended :=
          match video_id, title with
          | Some vid, Some t =>
              if nonempty video_id && negb (String.eqb t "Unknown Title") then
                Returned (videos ++ [{| id := vid; title := t; channel := uploader;
                                        url := watch_url vid;
                                        thumbnail := thumbnail_url vid;
                                        duration := None |}])%list
              else Returned videos
          | Some vid, None =>
              if nonempty video_id then Raised TypeError else Returned videos
          | None, _ => Returned videos
          end in
        match appended with
        | Returned videos' =>
            Returned (videos', (max_results <=? Z.of_nat (length videos'))%Z)
        | Raised e => Raised e
        end
      else Returned (videos, false)
  | None => Returned (videos, false)
  end.

(** [for i, entry in enumerate(entries): ...] *)
Fixpoint for_entries (max_results : Z) (entries : list (option info_dict))
    (videos : list video) : outcome (list video) :=
  match entries with
  | [] => Returned videos
  | entry :: rest =>
      match entry_step max_results entry videos with
      | Returned (videos', true) => Returned videos'
      | Returned (videos', false) => for_entries max_results rest videos'
      | Raised e => Raised e
      end
  end.

(** The body of the outer try of [search_videos]. *)
Definition search_videos_try (max_results : Z) (run : ydl_run) : outcome (list video) :=
  match run with
  | YdlRaises => Raised (External "yt_dlp.YoutubeDL")
  | ExtractRaises => Returned []
  | Extracted search_results =>
      if truthy search_results then
        match search_results with
        | XDict entries meta =>
            let has_title := bool_decide (is_Some (meta !! "title")) in
            match entries with
            | None =>
                (* get('entries', []) gives []: not entries *)
                for_entries max_results (if has_title then [Some meta] else []) []
            | Some EntriesNone =>
                if has_title then for_entries max_results [Some meta] []
                else Raised TypeError (* len(None) *)
            | Some (EntriesList l) =>
                match l with
                | [] => for_entries max_results (if has_title then [Some meta] else []) []
                | _ => for_entries max_results l []
                end
            end
        | _ => Returned []
        end
      else Returned []
  end.

(** The one result of the except branch. *)
Definition fallback_video : video :=
  {| id := "kJQP7kiw5Fk";
     title := "Luis Fonsi - Despacito ft. Daddy Yankee";
     channel := Some "LuisFonsiVEVO";
     url := "https://www.youtube.com/watch?v=kJQP7kiw5Fk";
     thumbnail := "https://img.youtube.com/vi/kJQP7kiw5Fk/maxresdefault.jpg";
     duration := None |}.

(** [if "test" in query.lower() or "despacito" in query.lower()] *)
Definition wants_fallback (query : string) : bool :=
  PyStr.contains "test" (PyStr.lower query) ||
  PyStr.contains "despacito" (PyStr.lower query).

(** [search_videos(query, max_results)] against one run of yt-dlp. *)
Definition search_videos (query : string) (max_results : Z) (run : ydl_run) : list video :=
  match search_videos_try max_results run with
  | Returned videos => videos
  | Raised _ => if wants_fallback query then [fallback_video] else []
  end.

(** The first of the paths that exists. *)
Fixpoint first_existing (file_exists : string -> bool) (paths : list string) : option string :=
  match paths with
  | [] => None
  | path :: rest => if file_exists path then Some path else first_existing file_exists rest
  end.

Definition audio_extensions : list string := [".m4a"; ".mp4"; ".webm"; ".mp3"].

(** The paths [download_audio] tries, in order. *)
Definition audio_candidates (filename : string) : list string :=
  filename :: map (fun ext => OsPath.splitext_root filename ++ ext) audio_extensions.

(** [download_audio]. [run] is what the try block meets before it looks for
    the file: an exception (of makedirs, of yt-dlp), or the info of the
    download, given by the name [prepare_filename] makes of it, [None] for an
    info that is None; [file_exists] is [os.path.exists] after the download. *)
Definition download_audio (run : outcome (option string)) (file_exists : string -> bool)
    : option string :=
  match run with
  | Raised _ => None
  | Returned None => None
  | Returned (Some filename) => first_existing file_exists (audio_candidates filename)
  end.







(** What every video of a result has. *)
Definition listed_video (v : video) : Prop :=
  id v ≠ "" ∧ title v ≠ "Unknown Title"
  ∧ url v = watch_url (id v) ∧ thumbnail v = thumbnail_url (id v) ∧ duration v = None.

End YouTube.

(* ===================================================================== *)
(** ** main.py *)
(* ===================================================================== *)

Module Bot.
Import Py.
Export YouTube.

(** *** What the bot keeps and what it sends *)

(** An entry of [self.user_sessions]: the dict a search stores, with the
    keys search_results and query, or the dict a link stores, with the keys
    url_video and original_url. *)
Inductive session :=
| SearchSession (search_results : list video) (query : string)
| UrlSession (url_video : video) (original_url : string).

Inductive media := mp3 | mp4.

(** [callback_data] of a button, before it is printed with its colons. *)
Inductive callback :=
| CbDownloadMp3 (video_id : string) (i : Z)    (* download_mp3:{id}:{i} *)
| CbDownloadMp4 (video_id : string) (i : Z)    (* download_mp4:{id}:{i} *)
| CbGetLyrics (query : string)                 (* get_lyrics:{query} *)
| CbSearchAgain                                (* search_again *)
| CbUrlDownloadMp3 (video_id : string)         (* url_download_mp3:{id} *)
| CbUrlDownloadMp4 (video_id : string)         (* url_download_mp4:{id} *)
| CbCancelDownload                             (* cancel_download *)
| CbJoinChannel (link : string).               (* a url button *)

Record button := { label : string; data : callback }.

(** [InlineKeyboardMarkup]: rows of buttons. *)
Abbreviation keyboard := (list (list button)).

(** The messages of the handlers below, by their template; the arguments are
    the values the f-string interpolates. *)
Inductive text :=
| TxtSearching (query : string)
| TxtNoResults
| TxtSearchResults (query : string)
| TxtProcessingUrl
| TxtNoVideoInfo
| TxtVideoFound (safe_title safe_channel : string) (duration : option Z)
| TxtError (e : exception)
| TxtSessionExpired                 (* Session expired. Please search again. *)
| TxtSessionExpiredUrl              (* Session expired. Please send the URL again. *)
| TxtInvalidSelection               (* Invalid selection. Please search again. *)
| TxtProcessing (fmt : media) (safe_title : string)
| TxtUploading (fmt : media)
| TxtCaption (fmt : media) (safe_title safe_channel : string) (file_size : Z)
| TxtDownloadComplete (fmt : media)
| TxtDownloadFailed (e : exception)
| TxtSearchingYouTube (song_info : string)
| TxtNoYouTubeResults
| TxtYouTubeResults (song_info : string)
| TxtYouTubeError (e : exception)
| TxtSeparator
| TxtJoinChannel (forced_channel : string)
| TxtProvideSongName                (* Please provide a song name to search. *)
| TxtNoPermission                   (* You don't have permission to use this command. *)
| TxtAdminOnly                      (* Admin only command *)
| TxtAdminPanel
| TxtReplyToPhoto
| TxtAddCaption
| TxtPromoAdded (caption : string)
| TxtNoPromo
| TxtPromoRemoved
| TxtUserStatistics (total_users active_users : nat).

(** The calls a handler makes on its collaborators: the Telegram API, the
    YouTube service, the file system, the database file and the event loop. *)
Inductive call :=
| ReplyText (t : text) (markup : option keyboard)
| EditText (t : text) (markup : option keyboard)
| SendMessage (chat_id : Z) (t : text)
| SendAudio (chat_id : Z) (audio : string) (caption : text)
            (title : string) (performer : option string)
| SendVideo (chat_id : Z) (video : string) (caption : text)
| SendPhoto (chat_id : Z) (photo caption : string)
| GetChatMember (chat_id : string) (user_id : Z)
| SearchVideos (query : string) (max_results : Z)
| GetVideoInfo (url : string)
| DownloadAudio (url output_dir : string)
| DownloadVideo (url output_dir : string)
| GetSize (path : string)
| OpenFile (path : string)
| PathExists (path : string)
| Remove (path : string)
| Sqlite (method : string)
| LogError (e : exception)
| CreateTaskAutoDelete (delay_seconds : Z).

(** A call that was made, and how it ended. *)
Inductive event :=
| Ok (c : call)
| Failed (c : call).

(** The collaborators at the time a handler runs: which calls raise, and
    what the others answer. During one run a call with the same arguments
    ends the same way each time it is made; between two runs the
    collaborators may change ([with_env]). *)
Record env := {
  fails : call -> bool;
  ydl : string -> Z -> ydl_run;                  (* yt-dlp on ytsearch{n}:{query} *)
  video_info : string -> option video;           (* get_video_info(url) *)
  audio_file : string -> string -> option string;(* download_audio(url, dir) *)
  video_file : string -> string -> option string;(* download_video(url, dir) *)
  file_size : string -> Z;                       (* os.path.getsize *)
  file_exists : string -> bool;                  (* os.path.exists *)
  member_status : string -> Z -> string;         (* get_chat_member(...).status *)
  now : string;                                  (* datetime.now() *)
  current_timestamp : string                     (* CURRENT_TIMESTAMP of SQLite *)
}.

(** The bot object, its collaborators, and the calls made so far (oldest
    first). *)
Record world := {
  admin_user_ids : list Z;
  primary_admin_id : Z;
  temp_dir : string;
  db : Db.Database;
  user_sessions : gmap Z session;
  collaborators : env;
  trace : list event
}.

Definition with_db (d : Db.Database) (w : world) : world :=
  {| admin_user_ids := admin_user_ids w; primary_admin_id := primary_admin_id w;
     temp_dir := temp_dir w; db := d; user_sessions := user_sessions w;
     collaborators := collaborators w; trace := trace w |}.

Definition with_sessions (s : gmap Z session) (w : world) : world :=
  {| admin_user_ids := admin_user_ids w; primary_admin_id := primary_admin_id w;
     temp_dir := temp_dir w; db := db w; user_sessions := s;
     collaborators := collaborators w; trace := trace w |}.

Definition with_env (e : env) (w : world) : world :=
  {| admin_user_ids := admin_user_ids w; primary_admin_id := primary_admin_id w;
     temp_dir := temp_dir w; db := db w; user_sessions := user_sessions w;
     collaborators := e; trace := trace w |}.

Definition logged (ev : event) (w : world) : world :=
  {| admin_user_ids := admin_user_ids w; primary_admin_id := primary_admin_id w;
     temp_dir := temp_dir w; db := db w; user_sessions := user_sessions w;
     collaborators := collaborators w; trace := (trace w ++ [ev])%list |}.

(** *** Handlers as programs *)

(** A handler runs from a world to an outcome and the world it leaves. What
    it did before an exception stays done. *)
Definition M (A : Type) : Type := world -> outcome A * world.

Definition ret {A} (a : A) : M A := fun w => (Returned a, w).

Definition bind {A B} (m : M A) (k : A -> M B) : M B := fun w =>
  match m w with
  | (Returned a, w') => k a w'
  | (Raised e, w') => (Raised e, w')
  end.

Definition raise {A} (e : exception) : M A := fun w => (Raised e, w).

(** [try: body / except Exception as e: handler e] *)
Definition try_except {A} (body : M A) (handler : exception -> M A) : M A := fun w =>
  match body w with
  | (Returned a, w') => (Returned a, w')
  | (Raised e, w') => handler e w'
  end.

Definition read {A} (f : world -> A) : M A := fun w => (Returned (f w), w).

Definition update (f : world -> world) : M unit := fun w => (Returned tt, f w).

Declare Scope handler_scope.
Delimit Scope handler_scope with handler.
Bind Scope handler_scope with M.

Notation "x <- m ;; k" := (bind m (fun x => k))
  (at level 100, m at next level, k at level 200, right associativity) : handler_scope.
Notation "m ;; k" := (bind m (fun _ => k))
  (at level 100, k at level 200, right associativity) : handler_scope.

Local Open Scope handler_scope.

(** A call that may raise. *)
Definition perform (what : string) (c : call) : M unit := fun w =>
  if fails (collaborators w) c
  then (Raised (External what), logged (Failed c) w)
  else (Returned tt, logged (Ok c) w).

(** A call that catches its own exceptions, and answers. *)
Definition ask {A} (c : call) (answer : env -> A) : M A := fun w =>
  (Returned (answer (collaborators w)), logged (Ok c) w).

(** A method of [self.db]: the connection may raise; if it does not, the
    statement runs. *)
Definition sqlite {A} (method : string) (run : env -> Db.Database -> A * Db.Database) : M A :=
  perform method (Sqlite method);;
  fun w => let '(a, d) := run (collaborators w) (db w) in (Returned a, with_db d w).

Definition sqlite_read {A} (method : string) (query : Db.Database -> A) : M A :=
  sqlite method (fun _ d => (query d, d)).

Definition sqlite_write (method : string) (stmt : env -> Db.Database -> Db.Database) : M unit :=
  sqlite method (fun e d => (tt, stmt e d)).

Definition lift {A} (o : outcome A) : M A := fun w => (o, w).

(** [logger.error(...)] in an except branch. *)
Definition log_error (e : exception) : M unit := ask (LogError e) (fun _ => tt).

(** *** Helpers of the class *)

Definition escape_chars : list ascii :=
  ["*"; "_"; "["; "]"; "("; ")"; "~"; "`"; ">"; "#"; "+"; "-"; "="; "|"; "{"; "}";
   "."; "!"]%char.

(** [escape_markdown] *)
Definition escape_markdown (s : string) : string :=
  fold_left (fun t c => PyStr.replace c (String PyStr.backslash (String c EmptyString)) t)
            escape_chars s.

(** [escape_markdown] on a value that may be None: [None.replace] raises. *)
Definition escape_markdown_value (v : option string) : M string :=
  match v with
  | Some s => ret (escape_markdown s)
  | None => raise AttributeError
  end.

Definition youtube_patterns : list string :=
  ["youtube.com/watch"; "youtu.be/"; "youtube.com/v/"; "youtube.com/embed/";
   "m.youtube.com/watch"].

(** [is_youtube_url] *)
Definition is_youtube_url (s : string) : bool :=
  let text_lower := PyStr.lower s in
  existsb (fun pattern => PyStr.contains pattern text_lower) youtube_patterns.

(** [is_admin] *)
Definition is_admin (user_id : Z) : M bool :=
  read (fun w => bool_decide (user_id ∈ admin_user_ids w)).

(** [is_primary_admin] *)
Definition is_primary_admin (user_id : Z) : M bool :=
  read (fun w => bool_decide (user_id = primary_admin_id w)).

(** [l[i]] of Python: a negative index counts from the end. *)
Definition py_index {A} (l : list A) (i : Z) : outcome A :=
  let n := Z.of_nat (length l) in
  let j := if (i <? 0)%Z then (i + n)%Z else i in
  if (j <? 0)%Z then Raised IndexError
  else match l !! Z.to_nat j with
       | Some a => Returned a
       | None => Raised IndexError
       end.

(** [entry['search_results']] *)
Definition get_search_results (entry : session) : outcome (list video) :=
  match entry with
  | SearchSession videos _ => Returned videos
  | UrlSession _ _ => Raised (KeyError "search_results")
  end.

(** [entry['url_video']], [entry['original_url']] *)
Definition get_url_video (entry : session) : outcome video :=
  match entry with
  | UrlSession video_info _ => Returned video_info
  | SearchSession _ _ => Raised (KeyError "url_video")
  end.

Definition get_original_url (entry : session) : outcome string :=
  match entry with
  | UrlSession _ original_url => Returned original_url
  | SearchSession _ _ => Raised (KeyError "original_url")
  end.

(** [self.user_sessions[user_id] = entry] *)
Definition set_session (user_id : Z) (entry : session) : M unit :=
  update (fun w => with_sessions (<[user_id := entry]> (user_sessions w)) w).

(** *** The access gate *)

Definition member_statuses : list string := ["member"; "administrator"; "creator"].

(** [check_channel_membership] *)
Definition check_channel_membership (user_id : Z) : M bool :=
  forced_channel <- sqlite_read "get_setting" (Db.get_setting "forced_channel");;
  match forced_channel with
  | None => ret true
  | Some chat =>
      if String.eqb chat "" then ret true
      else
        try_except
          (perform "get_chat_member" (GetChatMember chat user_id);;
           status <- read (fun w => member_status (collaborators w) chat user_id);;
           ret (bool_decide (status ∈ member_statuses)))
          (fun e => log_error e;; ret true)
  end.

(** [send_channel_join_message] *)
Definition send_channel_join_message : M unit :=
  forced_channel <- sqlite_read "get_setting" (Db.get_setting "forced_channel");;
  match forced_channel with
  | None => ret tt
  | Some chat =>
      if String.eqb chat "" then ret tt
      else
        let keyboard :=
          [[{| label := "📢 Join Channel";
               data := CbJoinChannel ("https://t.me/" ++ PyStr.slice_from_1 chat) |}]] in
        perform "reply_text" (ReplyText (TxtJoinChannel chat) (Some keyboard))
  end.

(** The test that opens [search_command], [lyrics_command] and
    [handle_text_message]: admins pass, others pass by
    [check_channel_membership] or are sent the join message. The result
    tells whether the handler goes on. *)
Definition access_gate (user_id : Z) : M bool :=
  admin <- is_admin user_id;;
  if admin then ret true
  else
    member <- check_channel_membership user_id;;
    if member then ret true
    else send_channel_join_message;; ret false.

(** *** Search and link submission *)

(** [title[:50] + "..." if len(title) > 50 else title], then the four
    [replace(..., '')]. *)
Definition clean_title (t : string) : string :=
  let shown := if (50 <? PyStr.len t)%nat then PyStr.slice_to 50 t ++ "..." else t in
  PyStr.replace "]" "" (PyStr.replace "[" "" (PyStr.replace "_" "" (PyStr.replace "*" "" shown))).

(** The two rows [handle_search] appends for each video, [i] counting from
    the index of the first. *)
Fixpoint search_rows (i : nat) (videos : list video) : keyboard :=
  match videos with
  | [] => []
  | v :: rest =>
      [{| label := "🎵 " ++ clean_title (title v);
          data := CbDownloadMp3 (id v) (Z.of_nat i) |}]
      :: [{| label := "📹 " ++ clean_title (title v) ++ " (MP4)";
             data := CbDownloadMp4 (id v) (Z.of_nat i) |}]
      :: search_rows (S i) rest
  end.

Definition search_keyboard (query : string) (videos : list video) : keyboard :=
  (search_rows 0 videos ++
   [[{| label := "📝 Get Lyrics"; data := CbGetLyrics query |}];
    [{| label := "🔄 Search Again"; data := CbSearchAgain |}]])%list.

(** [self.youtube.search_videos(query, max_results)] *)
Definition youtube_search_videos (query : string) (max_results : Z) : M (list video) :=
  ask (SearchVideos query max_results)
      (fun e => YouTube.search_videos query max_results (ydl e query max_results)).

(** [handle_search] *)
Definition handle_search (user_id : Z) (query : string) : M unit :=
  sqlite_write "update_user_activity" (fun e => Db.update_user_activity user_id (now e));;
  perform "reply_text" (ReplyText (TxtSearching (escape_markdown query)) None);;
  videos <- youtube_search_videos query 8;;
  match videos with
  | [] => perform "edit_text" (EditText TxtNoResults None)
  | _ =>
      let reply_markup := search_keyboard query videos in
      set_session user_id (SearchSession videos query);;
      perform "edit_text"
        (EditText (TxtSearchResults (escape_markdown query)) (Some reply_markup))
  end.

(** [handle_youtube_url] *)
Definition handle_youtube_url (user_id : Z) (link : string) : M unit :=
  sqlite_write "update_user_activity" (fun e => Db.update_user_activity user_id (now e));;
  perform "reply_text" (ReplyText TxtProcessingUrl None);;
  try_except
    (info <- ask (GetVideoInfo link) (fun e => video_info e link);;
     match info with
     | None => perform "edit_text" (EditText TxtNoVideoInfo None)
     | Some v =>
         let safe_title := escape_markdown (PyStr.slice_to 80 (title v)) in
         safe_channel <- escape_markdown_value (channel v);;
         let shown_duration :=
           match duration v with
           | Some 0%Z | None => None
           | Some d => Some d
           end in
         let reply_markup :=
           [[{| label := "✅ Download MP3"; data := CbUrlDownloadMp3 (id v) |}];
            [{| label := "📹 Download MP4"; data := CbUrlDownloadMp4 (id v) |}];
            [{| label := "❌ Cancel"; data := CbCancelDownload |}]] in
         set_session user_id (UrlSession v link);;
         perform "edit_text"
           (EditText (TxtVideoFound safe_title safe_channel shown_duration)
                     (Some reply_markup))
     end)
    (fun e => log_error e;; perform "edit_text" (EditText (TxtError e) None)).

(** [handle_text_message] *)
Definition handle_text_message (user_id : Z) (message : string) : M unit :=
  allowed <- access_gate user_id;;
  if allowed then
    let message_text := PyStr.strip message in
    if PyStr.startswith "/" message_text then ret tt
    else if is_youtube_url message_text then handle_youtube_url user_id message_text
    else handle_search user_id message_text
  else ret tt.

(** [search_command]; [args] is [context.args]. *)
Definition search_command (user_id : Z) (args : list string) : M unit :=
  allowed <- access_gate user_id;;
  if allowed then
    match args with
    | [] => perform "reply_text" (ReplyText TxtProvideSongName None)
    | _ => handle_search user_id (PyStr.join " " args)
    end
  else ret tt.

(** *** Delivery *)

(** [send_promotional_content] *)
Definition send_promotional_content (user_id : Z) : M unit :=
  try_except
    (current_promo <- sqlite_read "get_current_promo" Db.get_current_promo;;
     match current_promo with
     | None => ret tt
     | Some p =>
         perform "send_message" (SendMessage user_id TxtSeparator);;
         perform "send_photo" (SendPhoto user_id (Db.file_id p) (Db.caption p))
     end)
    (fun e => log_error e).

(** A path returned by a download, if it is one: [if not audio_file]. *)
Definition downloaded_path (file : option string) : option string :=
  match file with
  | Some path => if String.eqb path "" then None else Some path
  | None => None
  end.

(** [process_mp3_download] *)
Definition process_mp3_download (user_id : Z) (v : video) (video_url : string) : M unit :=
  try_except
    (dir <- read temp_dir;;
     file <- ask (DownloadAudio video_url dir) (fun e => audio_file e video_url dir);;
     match downloaded_path file with
     | None => raise (Exception "Failed to download audio")
     | Some path =>
         perform "getsize" (GetSize path);;
         size <- read (fun w => file_size (collaborators w) path);;
         let safe_title := escape_markdown (PyStr.slice_to 50 (title v)) in
         safe_channel <- escape_markdown_value (channel v);;
         let caption := TxtCaption mp3 safe_title safe_channel size in
         perform "edit_text" (EditText (TxtUploading mp3) None);;
         perform "open" (OpenFile path);;
         perform "send_audio" (SendAudio user_id path caption (title v) (channel v));;
         sqlite_write "add_download"
           (fun e => Db.add_download user_id (title v) "mp3" None (current_timestamp e));;
         still_there <- ask (PathExists path) (fun e => file_exists e path);;
         (if still_there : bool then perform "remove" (Remove path) else ret tt);;
         perform "edit_text" (EditText (TxtDownloadComplete mp3) None);;
         send_promotional_content user_id;;
         ask (CreateTaskAutoDelete 30) (fun _ => tt)
     end)
    (fun e => raise (Wrapped "MP3 processing failed" e)).

(** [process_mp4_download]. The with statement binds the open file to the
    name [video], so the [video['title']] that follows it reads the file
    object and raises. *)
Definition process_mp4_download (user_id : Z) (v : video) (video_url : string) : M unit :=
  try_except
    (dir <- read temp_dir;;
     file <- ask (DownloadVideo video_url dir) (fun e => video_file e video_url dir);;
     match downloaded_path file with
     | None => raise (Exception "Failed to download video")
     | Some path =>
         perform "getsize" (GetSize path);;
         size <- read (fun w => file_size (collaborators w) path);;
         let safe_title := escape_markdown (PyStr.slice_to 50 (title v)) in
         safe_channel <- escape_markdown_value (channel v);;
         let caption := TxtCaption mp4 safe_title safe_channel size in
         perform "edit_text" (EditText (TxtUploading mp4) None);;
         perform "open" (OpenFile path);;
         perform "send_video" (SendVideo user_id path caption);;
         raise TypeError
     end)
    (fun e => raise (Wrapped "MP4 processing failed" e)).

(** How the selection of a candidate ends: lines 415 to 424 of
    [handle_mp3_download], which lines 512 to 521 of [handle_mp4_download]
    repeat. *)
Inductive resolution :=
| SessionExpired                 (* user_id not in self.user_sessions *)
| InvalidSelection               (* result_index >= len(videos) *)
| Selected (v : video)           (* videos[result_index] *)
| Aborted (e : exception).       (* one of the two lookups raised *)

Definition resolve_candidate (sessions : gmap Z session) (user_id result_index : Z)
    : resolution :=
  match sessions !! user_id with
  | None => SessionExpired
  | Some entry =>
      match get_search_results entry with
      | Raised e => Aborted e
      | Returned videos =>
          if (Z.of_nat (length videos) <=? result_index)%Z then InvalidSelection
          else match py_index videos result_index with
               | Returned v => Selected v
               | Raised e => Aborted e
               end
      end
  end.

(** [handle_mp3_download]; [video_id] and [result_index] are the two fields
    of the callback data after its name, the second through [int]. *)
Definition handle_mp3_download (user_id : Z) (video_id : string) (result_index : Z) : M unit :=
  sessions <- read user_sessions;;
  match resolve_candidate sessions user_id result_index with
  | SessionExpired => perform "edit_message_text" (EditText TxtSessionExpired None)
  | InvalidSelection => perform "edit_message_text" (EditText TxtInvalidSelection None)
  | Aborted e => raise e
  | Selected v =>
      let video_url := url v in
      let safe_title := escape_markdown (PyStr.slice_to 50 (title v)) in
      perform "edit_message_text" (EditText (TxtProcessing mp3 safe_title) None);;
      try_except
        (process_mp3_download user_id v video_url)
        (fun e => log_error e;;
                  perform "edit_text" (EditText (TxtDownloadFailed e) None))
  end.

(** [handle_mp4_download] *)
Definition handle_mp4_download (user_id : Z) (video_id : string) (result_index : Z) : M unit :=
  sessions <- read user_sessions;;
  match resolve_candidate sessions user_id result_index with
  | SessionExpired => perform "edit_message_text" (EditText TxtSessionExpired None)
  | InvalidSelection => perform "edit_message_text" (EditText TxtInvalidSelection None)
  | Aborted e => raise e
  | Selected v =>
      let video_url := url v in
      let safe_title := escape_markdown (PyStr.slice_to 50 (title v)) in
      perform "edit_message_text" (EditText (TxtProcessing mp4 safe_title) None);;
      try_except
        (process_mp4_download user_id v video_url)
        (fun e => log_error e;;
                  perform "edit_text" (EditText (TxtDownloadFailed e) None))
  end.

(** [handle_url_mp3_download] *)
Definition handle_url_mp3_download (user_id : Z) : M unit :=
  sessions <- read user_sessions;;
  match sessions !! user_id with
  | None => perform "edit_message_text" (EditText TxtSessionExpiredUrl None)
  | Some entry =>
      v <- lift (get_url_video entry);;
      original_url <- lift (get_original_url entry);;
      let safe_title := escape_markdown (PyStr.slice_to 50 (title v)) in
      perform "edit_message_text" (EditText (TxtProcessing mp3 safe_title) None);;
      try_except
        (process_mp3_download user_id v original_url)
        (fun e => log_error e;;
                  perform "edit_text" (EditText (TxtDownloadFailed e) None))
  end.

(** [handle_url_mp4_download] *)
Definition handle_url_mp4_download (user_id : Z) : M unit :=
  sessions <- read user_sessions;;
  match sessions !! user_id with
  | None => perform "edit_message_text" (EditText TxtSessionExpiredUrl None)
  | Some entry =>
      v <- lift (get_url_video entry);;
      original_url <- lift (get_original_url entry);;
      let safe_title := escape_markdown (PyStr.slice_to 50 (title v)) in
      perform "edit_message_text" (EditText (TxtProcessing mp4 safe_title) None);;
      try_except
        (process_mp4_download user_id v original_url)
        (fun e => log_error e;;
                  perform "edit_text" (EditText (TxtDownloadFailed e) None))
  end.

(** The row [handle_lyrics_to_download] appends for each video. *)
Fixpoint lyrics_rows (i : nat) (videos : list video) : keyboard :=
  match videos with
  | [] => []
  | v :: rest =>
      [{| label := "🎵 " ++ clean_title (title v);
          data := CbDownloadMp3 (id v) (Z.of_nat i) |}]
      :: lyrics_rows (S i) rest
  end.

(** [handle_lyrics_to_download] *)
Definition handle_lyrics_to_download (user_id : Z) (song_info : string) : M unit :=
  perform "edit_message_text"
    (EditText (TxtSearchingYouTube (escape_markdown song_info)) None);;
  try_except
    (videos <- youtube_search_videos song_info 3;;
     match videos with
     | [] => perform "edit_message_text" (EditText TxtNoYouTubeResults None)
     | _ =>
         let reply_markup :=
           (lyrics_rows 0 videos ++
            [[{| label := "🔄 Back to Lyrics"; data := CbGetLyrics song_info |}]])%list in
         set_session user_id (SearchSession videos song_info);;
         perform "edit_message_text"
           (EditText (TxtYouTubeResults (escape_markdown song_info)) (Some reply_markup))
     end)
    (fun e => log_error e;;
              perform "edit_message_text" (EditText (TxtYouTubeError e) None)).

(** *** Admin commands *)

(** [users_command] *)
Definition users_command (user_id : Z) : M unit :=
  admin <- is_admin user_id;;
  if admin then
    counts <- sqlite_read "get_user_count" Db.get_user_count;;
    perform "reply_text" (ReplyText (TxtUserStatistics counts.1 counts.2) None)
  else perform "reply_text" (ReplyText TxtNoPermission None).

(** The message a command replies to: the file ids of its photo sizes,
    smallest first, and its caption. *)
Record replied_message := {
  photo : list string;
  message_caption : option string
}.

(** [addpromo_command] *)
Definition addpromo_command (user_id : Z) (args : list string)
    (reply_to_message : option replied_message) : M unit :=
  admin <- is_admin user_id;;
  if admin then
    match reply_to_message with
    | None => perform "reply_text" (ReplyText TxtAdminPanel None)
    | Some replied_msg =>
        match list.last (photo replied_msg) with
        | None => perform "reply_text" (ReplyText TxtReplyToPhoto None)
        | Some photo_file_id =>
            let caption :=
              match args with
              | [] => default "" (message_caption replied_msg)
              | _ => PyStr.join " " args
              end in
            if String.eqb caption "" then
              perform "reply_text" (ReplyText TxtAddCaption None)
            else
              created <- read (fun w => now (collaborators w));;
              let promo_data :=
                {| Db.file_id := photo_file_id; Db.caption := caption;
                   Db.created_at := created |} in
              sqlite "delete_all_promos" (fun _ => Db.delete_all_promos);;
              sqlite_write "add_promo" (fun _ => Db.add_promo promo_data);;
              perform "reply_text" (ReplyText (TxtPromoAdded caption) None)
        end
    end
  else perform "reply_text" (ReplyText TxtAdminOnly None).

(** [delpromo_command] *)
Definition delpromo_command (user_id : Z) : M unit :=
  admin <- is_admin user_id;;
  if admin then
    current_promo <- sqlite_read "get_current_promo" Db.get_current_promo;;
    match current_promo with
    | None => perform "reply_text" (ReplyText TxtNoPromo None)
    | Some _ =>
        sqlite "delete_all_promos" (fun _ => Db.delete_all_promos);;
        perform "reply_text" (ReplyText TxtPromoRemoved None)
    end
  else perform "reply_text" (ReplyText TxtAdminOnly None).

End Bot.

(* ===================================================================== *)
(** ** Observing a run *)
(* ===================================================================== *)

Module Observe.
Import Py Bot.

Definition call_of (ev : event) : call :=
  match ev with
  | Ok c => c
  | Failed c => c
  end.

(** The events a run from [w] to [w'] added. *)
Definition calls_since (w w' : world) : list event :=
  drop (length (trace w)) (trace w').

(** A call that starts a download. *)
Definition is_download (c : call) : bool :=
  match c with
  | DownloadAudio _ _ | DownloadVideo _ _ => true
  | _ => false
  end.

(** The promo photos that reached a chat: the [send_photo] calls that
    returned. *)
Definition photo_sent (ev : event) : option (Z * string * string) :=
  match ev with
  | Ok (SendPhoto chat_id file_id caption) => Some (chat_id, file_id, caption)
  | _ => None
  end.

Definition photos_sent (events : list event) : list (Z * string * string) :=
  omap photo_sent events.

Definition download_started (events : list event) : bool :=
  existsb (fun ev => is_download (call_of ev)) events.

(** A message that tells the user of a failure. *)
Definition is_failure_notice (c : call) : bool :=
  match c with
  | EditText (TxtDownloadFailed _) _ | EditText (TxtError _) _
  | ReplyText (TxtDownloadFailed _) _ | ReplyText (TxtError _) _
  | SendMessage _ (TxtDownloadFailed _) | SendMessage _ (TxtError _) => true
  | _ => false
  end.

(** The calls of [send_promotional_content user_id]. *)
Definition is_promo_call (user_id : Z) (c : call) : bool :=
  match c with
  | Sqlite method => String.eqb method "get_current_promo"
  | SendMessage chat_id TxtSeparator => Z.eqb chat_id user_id
  | SendPhoto chat_id _ _ => Z.eqb chat_id user_id
  | _ => false
  end.

(** An event of the promo: one of its calls, or a line of the log. *)
Definition promo_or_log (user_id : Z) (ev : event) : Prop :=
  is_promo_call user_id (call_of ev) = true ∨ ∃ e, ev = Ok (LogError e).

(** The promo photo that reaches the user from world [w]: the current
    promo, if there is one and its three calls return. *)
Definition promo_delivered (user_id : Z) (w : world) : list (Z * string * string) :=
  match Db.get_current_promo (db w) with
  | Some p =>
      if fails (collaborators w) (Sqlite "get_current_promo")
         || fails (collaborators w) (SendMessage user_id TxtSeparator)
         || fails (collaborators w) (SendPhoto user_id (Db.file_id p) (Db.caption p))
      then []
      else [(user_id, Db.file_id p, Db.caption p)]
  | None => []
  end.

(** The calls of a delivery of [path] to [user_id], in order. *)
Definition delivery_calls (user_id : Z) (v : video) (link path channel_name : string)
    (w : world) : list event :=
  ([Ok (DownloadAudio link (temp_dir w));
    Ok (GetSize path);
    Ok (EditText (TxtUploading mp3) None);
    Ok (OpenFile path);
    Ok (SendAudio user_id path
          (TxtCaption mp3 (escape_markdown (PyStr.slice_to 50 (title v)))
                      (escape_markdown channel_name)
                      (file_size (collaborators w) path))
          (title v) (channel v));
    Ok (Sqlite "add_download");
    Ok (PathExists path)]
   ++ (if file_exists (collaborators w) path then [Ok (Remove path)] else [])
   ++ [Ok (EditText (TxtDownloadComplete mp3) None)])%list.

(** The limits the searches of a run asked for. *)
Definition search_limit (ev : event) : option Z :=
  match call_of ev with
  | SearchVideos _ max_results => Some max_results
  | _ => None
  end.

Definition search_limits (events : list event) : list Z := omap search_limit events.

(** The index a button selects, if it selects a candidate. *)
Definition selects (i : Z) (cb : callback) : bool :=
  match cb with
  | CbDownloadMp3 _ j | CbDownloadMp4 _ j => Z.eqb i j
  | _ => false
  end.

(** The actions a keyboard offers on candidate [i], in the order shown. *)
Definition actions_on (i : Z) (kb : keyboard) : list callback :=
  filter (fun cb => selects i cb = true) (data <$> concat kb).

(** The handler ended by telling the user [t] and did nothing else: the
    one call it made is the edit of the message, returned or raised. *)
Definition rejected_with (t : text) (m : M unit) (w : world) : Prop :=
  (m w = (Returned tt, logged (Ok (EditText t None)) w)) ∨
  (∃ e, m w = (Raised e, logged (Failed (EditText t None)) w)).

(** The handler ended by the exception [e], having done nothing. *)
Definition aborted_with (e : exception) (m : M unit) (w : world) : Prop :=
  m w = (Raised e, w).

(** The forced channel, if one is configured: [if not forced_channel]. *)
Definition forced_channel (w : world) : option string :=
  match Db.get_setting "forced_channel" (db w) with
  | Some chat => if String.eqb chat "" then None else Some chat
  | None => None
  end.

(** The membership check of user [u] in [chat] answers "member", or fails. *)
Definition passes_membership_check (w : world) (chat : string) (u : Z) : Prop :=
  fails (collaborators w) (GetChatMember chat u) = true ∨
  member_status (collaborators w) chat u ∈ member_statuses.

(** The run of [m] from [w] started no download. *)
Definition no_download_started (m : M unit) (w : world) : Prop :=
  download_started (calls_since w (m w).2) = false.

Definition handle_download (fmt : media) : Z -> string -> Z -> M unit :=
  match fmt with
  | mp3 => handle_mp3_download
  | mp4 => handle_mp4_download
  end.

(** [m] leaves the part [f] of the world as it found it, however it ends. *)
Definition preserves {X A} (f : world → X) (m : M A) : Prop :=
  ∀ w, f (m w).2 = f w.

(** A part of the world that neither the trace nor the database touches. *)
Definition apart {X} (f : world → X) : Prop :=
  (∀ ev w, f (logged ev w) = f w) ∧ (∀ d w, f (with_db d w) = f w).

(** Every call [m] makes, however it ends, satisfies [P]. *)
Definition emits {A} (P : event → Prop) (m : M A) : Prop :=
  ∀ w, ∃ new, trace (m w).2 = (trace w ++ new)%list ∧ Forall P new.

(** If the event is a search, it asks for [limit] videos. *)
Definition searches_with (limit : Z) (ev : event) : Prop :=
  ∀ q n, call_of ev = SearchVideos q n → n = limit.

(** A character [escape_markdown] writes a backslash before. *)
Definition is_special (c : ascii) : bool := existsb (Ascii.eqb c) escape_chars.

(** The text with a backslash before each such character, written in one
    pass from left to right. *)
Fixpoint escaped (s : string) : string :=
  match s with
  | EmptyString => EmptyString
  | String c rest =>
      if is_special c then String PyStr.backslash (String c (escaped rest))
      else String c (escaped rest)
  end.

(** The characters the labels of the result buttons go without. *)
Definition label_stripped : list ascii := ["*"; "_"; "["; "]"]%char.

(** The two handlers of the buttons under a link. *)
Definition handle_url_download (fmt : media) : Z -> M unit :=
  match fmt with
  | mp3 => handle_url_mp3_download
  | mp4 => handle_url_mp4_download
  end.

(** The address a download call fetches, if the call is one. *)
Definition download_target (c : call) : option string :=
  match c with
  | DownloadAudio link _ | DownloadVideo link _ => Some link
  | _ => None
  end.

Definition download_targets (events : list event) : list string :=
  omap (fun ev => download_target (call_of ev)) events.

(** A call that removes a file. *)
Definition is_remove (c : call) : bool :=
  match c with
  | Remove _ => true
  | _ => false
  end.

(** The call that fetches the file of a format. *)
Definition download_call (fmt : media) (link output_dir : string) : call :=
  match fmt with
  | mp3 => DownloadAudio link output_dir
  | mp4 => DownloadVideo link output_dir
  end.

Definition process_download (fmt : media) : Z -> video -> string -> M unit :=
  match fmt with
  | mp3 => process_mp3_download
  | mp4 => process_mp4_download
  end.

(** The command ended by replying [t] and did nothing else: the one call
    it made is the reply, returned or raised. *)
Definition refused_with (t : text) (m : M unit) (w : world) : Prop :=
  (m w = (Returned tt, logged (Ok (ReplyText t None)) w)) ∨
  (∃ e, m w = (Raised e, logged (Failed (ReplyText t None)) w)).

End Observe.

(* ===================================================================== *)
(** ** main.py: the admin list, the forced channel, the broadcast *)
(* ===================================================================== *)

Module Admin.
Import Py Bot.
Local Open Scope handler_scope.

(** The admin list [__init__] builds from the ids of the environment: the
    primary admin is appended if it is not among them. *)
Definition init_admins (primary_admin_id : Z) (configured : list Z) : list Z :=
  if bool_decide (primary_admin_id ∈ configured) then configured
  else (configured ++ [primary_admin_id])%list.

Definition with_admins (admins : list Z) (w : world) : world :=
  {| admin_user_ids := admins; primary_admin_id := primary_admin_id w;
     temp_dir := temp_dir w; db := db w; user_sessions := user_sessions w;
     collaborators := collaborators w; trace := trace w |}.

(** [l.remove(x)] on a list that holds [x]: the first occurrence goes. *)
Fixpoint remove_first (x : Z) (l : list Z) : list Z :=
  match l with
  | [] => []
  | y :: rest => if bool_decide (y = x) then rest else y :: remove_first x rest
  end.

(** The reply that ends a command of this module, by its template. The
    command is a program that returns the reply it then sends: sending it is
    the last statement of each branch. *)
Inductive reply :=
| NoPermission                       (* You don't have permission to use this command. *)
| OnlyPrimaryCanAdd                  (* Only primary admin can add admins *)
| AddAdminUsage
| AlreadyAdmin (new_admin_id : Z)    (* User {id} is already an admin *)
| AdminAdded (new_admin_id : Z) (total : nat)
| InvalidUserId                      (* Invalid user ID. Use numbers only. *)
| OnlyPrimaryCanRemove               (* Only primary admin can remove admins *)
| DelAdminUsage
| CannotRemovePrimary                (* Cannot remove primary admin *)
| NotAnAdmin (admin_id : Z)          (* User {id} is not an admin *)
| AdminRemoved (admin_id : Z) (total : nat)
| SetChannelUsage
| ChannelSet (channel_username : string)
| ChannelRemoved.




(** [update_env_file], by its calls on the file .env, which is no part of
    the bot: what it writes is [update_env_lines] of what it read. It
    catches what it raises. *)
Definition update_env_file : M unit :=
  try_except
    (there <- ask (PathExists ".env") (fun e => file_exists e ".env");;
     if there : bool then
       perform "open" (OpenFile ".env");;
       perform "open" (OpenFile ".env")
     else ret tt)
    (fun e => log_error e).

(** [addadmin_command]; [int] is Python's, None where it raises
    ValueError. *)
Definition addadmin_command (int : string -> option Z) (user_id : Z) (args : list string)
    : M reply :=
  primary <- is_primary_admin user_id;;
  if primary then
    match args with
    | [] => ret AddAdminUsage
    | arg :: _ =>
        match int arg with
        | None => ret InvalidUserId
        | Some new_admin_id =>
            admins <- read admin_user_ids;;
            if bool_decide (new_admin_id ∈ admins) then ret (AlreadyAdmin new_admin_id)
            else
              update (with_admins (admins ++ [new_admin_id])%list);;
              update_env_file;;
              total <- read (fun w => length (admin_user_ids w));;
              ret (AdminAdded new_admin_id total)
        end
    end
  else ret OnlyPrimaryCanAdd.

(** [deladmin_command] *)
Definition deladmin_command (int : string -> option Z) (user_id : Z) (args : list string)
    : M reply :=
  primary <- is_primary_admin user_id;;
  if primary then
    match args with
    | [] => ret DelAdminUsage
    | arg :: _ =>
        match int arg with
        | None => ret InvalidUserId
        | Some admin_id =>
            primary_id <- read primary_admin_id;;
            if bool_decide (admin_id = primary_id) then ret CannotRemovePrimary
            else
              admins <- read admin_user_ids;;
              if bool_decide (admin_id ∈ admins) then
                update (with_admins (remove_first admin_id admins));;
                update_env_file;;
                total <- read (fun w => length (admin_user_ids w));;
                ret (AdminRemoved admin_id total)
              else ret (NotAnAdmin admin_id)
        end
    end
  else ret OnlyPrimaryCanRemove.

(** [setchannel_command] *)
Definition setchannel_command (user_id : Z) (args : list string) : M reply :=
  admin <- is_admin user_id;;
  if admin then
    match args with
    | [] => ret SetChannelUsage
    | arg :: _ =>
        let channel_username := if PyStr.startswith "@" arg then arg else "@" ++ arg in
        sqlite_write "set_setting"
          (fun _ => Db.set_bot_setting "forced_channel" channel_username);;
        ret (ChannelSet channel_username)
    end
  else ret NoPermission.

(** [clearchannel_command] *)
Definition clearchannel_command (user_id : Z) : M reply :=
  admin <- is_admin user_id;;
  if admin then
    sqlite_write "delete_bot_setting" (fun _ => Db.delete_bot_setting "forced_channel");;
    ret ChannelRemoved
  else ret NoPermission.

(** The for loop of [broadcast_command] from the counts [sent] and
    [failed]. [delivers u] tells whether send_message to [u] returns, and
    [edits n] whether the edit of the status message after [n] users does;
    a send that raises is counted, an edit that raises ends the command. *)
Fixpoint broadcast_loop (delivers : Z -> bool) (edits : nat -> bool) (users : list Z)
    (sent failed : nat) : outcome (nat * nat) :=
  match users with
  | [] => Returned (sent, failed)
  | user_id :: rest =>
      let sent' := if delivers user_id then S sent else sent in
      let failed' := if delivers user_id then failed else S failed in
      if ((sent' + failed') mod 50 =? 0)%nat then
        if edits (sent' + failed')%nat
        then broadcast_loop delivers edits rest sent' failed'
        else Raised (External "edit_text")
      else broadcast_loop delivers edits rest sent' failed'
  end.

End Admin.

(* ===================================================================== *)
(** ** Concrete inputs *)
(* ===================================================================== *)

Module Examples.
Import Py Bot.

(** An entry as yt-dlp returns it for a search. *)
Definition despacito_entry : info_dict :=
  <["id" := Some "kJQP7kiw5Fk"]>
    (<["title" := Some "Luis Fonsi - Despacito ft. Daddy Yankee"]>
       (<["uploader" := Some "LuisFonsiVEVO"]> ∅)).

Definition one_entry_run : ydl_run :=
  Extracted (XDict (Some (EntriesList [Some despacito_entry])) ∅).

(** Collaborators that all answer: no call raises. *)
Definition quiet : env :=
  {| fails := fun _ => false;
     ydl := fun _ _ => one_entry_run;
     video_info := fun _ => None;
     audio_file := fun _ _ => Some "temp/Despacito.m4a";
     video_file := fun _ _ => Some "temp/Despacito.mp4";
     file_size := fun _ => 4194304%Z;
     file_exists := fun _ => true;
     member_status := fun _ _ => "member";
     now := "2024-05-01T10:00:00.000000";
     current_timestamp := "2024-05-01 10:00:00" |}.

(** The bot after [__init__], with the primary admin only. *)
Definition fresh_bot : world :=
  {| admin_user_ids := [7176592290%Z];
     primary_admin_id := 7176592290%Z;
     temp_dir := "temp";
     db := Db.init_database;
     user_sessions := ∅;
     collaborators := quiet;
     trace := [] |}.

Definition despacito : video :=
  {| id := "kJQP7kiw5Fk";
     title := "Luis Fonsi - Despacito ft. Daddy Yankee";
     channel := Some "LuisFonsiVEVO";
     url := "https://www.youtube.com/watch?v=kJQP7kiw5Fk";
     thumbnail := "https://img.youtube.com/vi/kJQP7kiw5Fk/maxresdefault.jpg";
     duration := None |}.

(** User 42 has searched and holds one candidate. *)
Definition after_search : world :=
  with_sessions {[ 42%Z := SearchSession [despacito] "despacito" ]} fresh_bot.

(** User 42 has sent a link and holds its target. *)
Definition after_link : world :=
  with_sessions {[ 42%Z := UrlSession despacito "https://youtu.be/kJQP7kiw5Fk" ]} fresh_bot.

(** YouTube finds nothing. *)
Definition nothing_found : env :=
  {| fails := fails quiet;
     ydl := fun _ _ => Extracted XFalsy;
     video_info := video_info quiet;
     audio_file := audio_file quiet;
     video_file := video_file quiet;
     file_size := file_size quiet;
     file_exists := file_exists quiet;
     member_status := member_status quiet;
     now := now quiet;
     current_timestamp := current_timestamp quiet |}.

(** The download of the audio gives no file. *)
Definition fetch_fails : env :=
  {| fails := fails quiet;
     ydl := ydl quiet;
     video_info := video_info quiet;
     audio_file := fun _ _ => None;
     video_file := video_file quiet;
     file_size := file_size quiet;
     file_exists := file_exists quiet;
     member_status := member_status quiet;
     now := now quiet;
     current_timestamp := current_timestamp quiet |}.

(** Telegram refuses the promo photo for user 42; every other call answers. *)
Definition photo_refused : env :=
  {| fails := fun c => match c with
                       | SendPhoto chat_id _ _ => Z.eqb chat_id 42
                       | _ => false
                       end;
     ydl := ydl quiet;
     video_info := video_info quiet;
     audio_file := audio_file quiet;
     video_file := video_file quiet;
     file_size := file_size quiet;
     file_exists := file_exists quiet;
     member_status := member_status quiet;
     now := now quiet;
     current_timestamp := current_timestamp quiet |}.

(** The user has left the forced channel. *)
Definition not_a_member : env :=
  {| fails := fails quiet;
     ydl := ydl quiet;
     video_info := video_info quiet;
     audio_file := audio_file quiet;
     video_file := video_file quiet;
     file_size := file_size quiet;
     file_exists := file_exists quiet;
     member_status := fun _ _ => "left";
     now := now quiet;
     current_timestamp := current_timestamp quiet |}.

(** A database with a promo whose creation time lies after the clock of
    [quiet], and a forced channel. *)
Definition old_promo : Db.promo_data :=
  {| Db.file_id := "AgACAgUAAxkBAAIB";
     Db.caption := "Join @ytmusiclab";
     Db.created_at := "2031-01-01T00:00:00.000000" |}.

Definition stocked_db : Db.Database :=
  Db.set_setting "forced_channel" "@ytmusiclab"
    (Db.add_promo old_promo Db.init_database).

Definition stocked_bot : world := with_db stocked_db after_search.

(** The photo an admin replies to with /addpromo. *)
Definition banner : replied_message :=
  {| photo := ["AgACAgUAAxkBAAIC-small"; "AgACAgUAAxkBAAIC-large"];
     message_caption := Some "New album out now" |}.

(** An entry for which yt-dlp holds no uploader, and the video the search
    makes of it. *)
Definition nameless_entry : info_dict :=
  <["id" := Some "dQw4w9WgXcQ"]>
    (<["title" := Some "Never Gonna Give You Up"]>
       (<["uploader" := None]> ∅)).

Definition nameless : video :=
  {| id := "dQw4w9WgXcQ";
     title := "Never Gonna Give You Up";
     channel := None;
     url := "https://www.youtube.com/watch?v=dQw4w9WgXcQ";
     thumbnail := "https://img.youtube.com/vi/dQw4w9WgXcQ/maxresdefault.jpg";
     duration := None |}.

(** Python's int on the arguments used below. *)
Definition int_of (s : string) : option Z :=
  if String.eqb s "42" then Some 42%Z
  else if String.eqb s "7176592290" then Some 7176592290%Z
  else None.

(** A database with one user, 42. *)
Definition one_user_db : Db.Database :=
  Db.add_user 42 (Some "fan") (Some "Ana") None
    "2024-05-01T10:00:00.000000" "2024-05-01 10:00:00" Db.init_database.

(** A directory in which the audio of the video lies as .m4a only. *)
Definition only_m4a (path : string) : bool := String.eqb path "temp/Despacito.m4a".



(** Three users, the second of whom has blocked the bot. *)
Definition second_blocked (user_id : Z) : bool := negb (Z.eqb user_id 2).

End Examples.


(* ===================================================================== *)
(** ** Properties of database.py *)
(* ===================================================================== *)

Section DatabaseFacts.
Import Db.

Lemma latest_singleton (r : promo_row) : latest r [] = r.
Proof. reflexivity. Qed.

Lemma delete_all_promos_empties (d : Database) :
  promos (delete_all_promos d).2 = [].
Proof. reflexivity. Qed.

Lemma delete_all_promos_counts (d : Database) :
  (delete_all_promos d).1 = length (promos d).
Proof. reflexivity. Qed.

Lemma replace_promo_rows (d : Database) (p : promo_data) :
  promos (add_promo p (delete_all_promos d).2) =
  [{| promo_id := promos_seq d + 1; promo := p |}].
Proof. reflexivity. Qed.

Lemma replace_promo_current (d : Database) (p : promo_data) :
  get_current_promo (add_promo p (delete_all_promos d).2) = Some p.
Proof. unfold get_current_promo. rewrite replace_promo_rows. reflexivity. Qed.

(** C10. For every state of the database, [get_user_count] returns a pair
    (total, active) with active at most total: the rows counted by the
    second query are among the rows counted by the first. *)
Theorem get_user_count_active_le_total (d : Database) :
  ((get_user_count d).2 ≤ (get_user_count d).1)%nat.
Proof.
  unfold get_user_count; simpl.
  apply map_subseteq_size, map_filter_subseteq.
Qed.

End DatabaseFacts.

(* ===================================================================== *)
(** ** Properties of youtube_service.py *)
(* ===================================================================== *)

Section YouTubeFacts.
Import Py YouTube.

Variable max_results : Z.

(** One entry is skipped, or adds at most one video and asks for the break
    exactly when the list has reached the limit. *)
Lemma entry_step_grows entry videos videos' stop :
  entry_step max_results entry videos = Returned (videos', stop) →
  (videos' = videos ∧ stop = false) ∨
  ((length videos' ≤ S (length videos))%nat ∧
   stop = (max_results <=? Z.of_nat (length videos'))%Z).
Proof.
  unfold entry_step. intros H.
  destruct entry as [d|]; [|injection H as <- <-; by left].
  destruct (is_nonempty_dict (Some d)); [|injection H as <- <-; by left].
  assert (Hfin : ∀ vs, Returned (vs, (max_results <=? Z.of_nat (length vs))%Z)
                       = Returned (videos', stop) →
                       (length vs ≤ S (length videos))%nat →
                       (videos' = videos ∧ stop = false) ∨
                       ((length videos' ≤ S (length videos))%nat ∧
                        stop = (max_results <=? Z.of_nat (length videos'))%Z)).
  { intros vs Heq Hle. injection Heq as <- <-. by right. }
  destruct (get d "id" (Some "")) as [vid|]; [|apply (Hfin videos); [done|lia]].
  destruct (get d "title" (Some "Unknown Title")) as [t|].
  - destruct (nonempty (Some vid) && negb (String.eqb t "Unknown Title")).
    + apply (Hfin _ H). rewrite length_app. simpl. lia.
    + apply (Hfin videos); [done|lia].
  - destruct (nonempty (Some vid)); [discriminate|].
    apply (Hfin videos); [done|lia].
Qed.

(** The loop keeps the list within the limit, or within one video when the
    limit is below one. *)
Lemma for_entries_bounded entries : ∀ videos result,
  for_entries max_results entries videos = Returned result →
  (length videos = 0%nat ∨ (Z.of_nat (length videos) < max_results)%Z) →
  (Z.of_nat (length result) ≤ Z.max 1 max_results)%Z.
Proof.
  induction entries as [|entry rest IH]; intros videos result Hrun Hinv; simpl in Hrun.
  - injection Hrun as <-. lia.
  - destruct (entry_step max_results entry videos) as [[videos' stop]|e] eqn:Hstep;
      [|discriminate].
    apply entry_step_grows in Hstep as [[-> ->]|[Hlen ->]].
    + by apply (IH _ _ Hrun).
    + destruct (max_results <=? Z.of_nat (length videos'))%Z eqn:Hstop.
      * injection Hrun as <-. lia.
      * apply (IH _ _ Hrun). right. by apply Z.leb_gt.
Qed.

Lemma search_videos_try_bounded run result :
  search_videos_try max_results run = Returned result →
  (Z.of_nat (length result) ≤ Z.max 1 max_results)%Z.
Proof.
  assert (Hnil : ∀ r : list video, Returned [] = Returned r →
                 (Z.of_nat (length r) ≤ Z.max 1 max_results)%Z).
  { intros r Heq. injection Heq as <-. simpl. lia. }
  assert (Hloop : ∀ entries r, for_entries max_results entries [] = Returned r →
                  (Z.of_nat (length r) ≤ Z.max 1 max_results)%Z).
  { intros entries r Hrun. apply (for_entries_bounded _ _ _ Hrun). by left. }
  unfold search_videos_try. intros H.
  destruct run as [| |search_results]; [discriminate|by apply Hnil|].
  destruct (truthy search_results); [|by apply Hnil].
  destruct search_results as [| |entries meta]; [by apply Hnil|by apply Hnil|].
  destruct entries as [[|l]|].
  - destruct (bool_decide _); [by eapply Hloop|discriminate].
  - destruct l; by eapply Hloop.
  - by eapply Hloop.
Qed.

Lemma search_videos_bounded query run :
  (Z.of_nat (length (search_videos query max_results run)) ≤ Z.max 1 max_results)%Z.
Proof.
  unfold search_videos.
  destruct (search_videos_try max_results run) as [videos|e] eqn:Htry.
  - by eapply search_videos_try_bounded.
  - destruct (wants_fallback query); simpl; lia.
Qed.

End YouTubeFacts.

Section SearchVideos.
Import Py YouTube.

(** C9, as the code has it. For every query, limit and run of yt-dlp,
    [search_videos] returns a list (it is a total function: both handlers
    end in a return) of at most max(1, max_results) videos; a failure of
    [extract_info] gives the empty list whatever the query; a failure caught
    by the outer handler gives the one fallback video, whose id is
    kJQP7kiw5Fk, when the lowered query contains test or despacito, and the
    empty list otherwise. *)
Theorem search_videos_returns (query : string) (max_results : Z) (run : ydl_run) :
  (Z.of_nat (length (search_videos query max_results run)) ≤ Z.max 1 max_results)%Z
  ∧ search_videos query max_results ExtractRaises = []
  ∧ match search_videos_try max_results run with
    | Returned videos => search_videos query max_results run = videos
    | Raised _ =>
        search_videos query max_results run =
        if PyStr.contains "test" (PyStr.lower query) ||
           PyStr.contains "despacito" (PyStr.lower query)
        then [fallback_video] else []
    end
  ∧ id fallback_video = "kJQP7kiw5Fk".
Proof.
  split; [apply search_videos_bounded|].
  split; [reflexivity|].
  split; [|reflexivity].
  unfold search_videos, wants_fallback.
  by destruct (search_videos_try max_results run).
Qed.

(** C9, as stated, fails where the limit is below one: with the limit 0 the
    first usable entry is appended before the length is tested, and the
    fallback has one video whatever the limit. *)
Lemma search_videos_exceeds_limit_zero :
  ¬ (Z.of_nat (length (search_videos "despacito" 0 Examples.one_entry_run)) ≤ 0)%Z
  ∧ ¬ (Z.of_nat (length (search_videos "despacito" 0 YdlRaises)) ≤ 0)%Z.
Proof. split; vm_compute; intros H; apply H; reflexivity. Qed.

End SearchVideos.

(* ===================================================================== *)
(** ** Properties of the texts of main.py *)
(* ===================================================================== *)

Section Texts.
Import Py Bot Observe.

Lemma append_cons (c : ascii) (a b : string) : String c a ++ b = String c (a ++ b).
Proof. reflexivity. Qed.

Lemma append_nil_l (a : string) : "" ++ a = a.
Proof. reflexivity. Qed.

Lemma append_nil_r (a : string) : a ++ "" = a.
Proof. induction a as [|c a IH]; [done|]. by rewrite append_cons, IH. Qed.

Lemma append_assoc (a b c : string) : (a ++ b) ++ c = a ++ (b ++ c).
Proof. induction a as [|x a IH]; [done|]. by rewrite !append_cons, IH. Qed.

(** *** escape_markdown *)

Lemma replace_app c rep (a b : string) :
  PyStr.replace c rep (a ++ b) = PyStr.replace c rep a ++ PyStr.replace c rep b.
Proof.
  induction a as [|x a IH]; [done|].
  rewrite append_cons. simpl. destruct (Ascii.eqb x c).
  - by rewrite IH, append_assoc.
  - by rewrite IH, append_cons.
Qed.

Lemma escape_markdown_app (a b : string) :
  escape_markdown (a ++ b) = escape_markdown a ++ escape_markdown b.
Proof.
  unfold escape_markdown, escape_chars. cbn [fold_left].
  by rewrite !replace_app.
Qed.

Lemma escape_markdown_char (c : ascii) :
  escape_markdown (String c "") =
  if is_special c then String PyStr.backslash (String c "") else String c "".
Proof. destruct c as [[] [] [] [] [] [] [] []]; reflexivity. Qed.

Lemma escape_markdown_escaped (s : string) : escape_markdown s = escaped s.
Proof.
  induction s as [|c s IH]; [done|].
  change (String c s) with (String c "" ++ s).
  rewrite escape_markdown_app, escape_markdown_char, IH. simpl.
  by destruct (is_special c).
Qed.

Lemma escaped_fixed (s : string) :
  escaped s = s ↔ Forall (λ c, is_special c = false) (list_ascii_of_string s).
Proof.
  induction s as [|c s IH]; simpl.
  - split; [constructor|done].
  - destruct (is_special c) eqn:Hc.
    + split.
      * intros [= <- _]. done.
      * intros H. apply list.Forall_cons in H as [H _]. congruence.
    + split.
      * intros [= H]. apply list.Forall_cons. split; [done|by apply IH].
      * intros H. apply list.Forall_cons in H as [_ H]. f_equal. by apply IH.
Qed.

(** X11. [escape_markdown], eighteen passes of [replace], comes to one
    pass that writes a backslash before each of the eighteen characters and
    copies the others, the backslash included. So the text of two parts is
    escaped part by part, and a text comes back unchanged exactly when it
    has none of the characters. *)
Theorem escape_markdown_one_pass (s t : string) :
  escape_markdown s = escaped s
  ∧ escape_markdown (s ++ t) = escape_markdown s ++ escape_markdown t
  ∧ (escape_markdown s = s ↔
     Forall (λ c, is_special c = false) (list_ascii_of_string s)).
Proof.
  split; [apply escape_markdown_escaped|].
  split; [apply escape_markdown_app|].
  rewrite escape_markdown_escaped. apply escaped_fixed.
Qed.

(** *** The labels of the result buttons *)

Lemma len_app (a b : string) : PyStr.len (a ++ b) = (PyStr.len a + PyStr.len b)%nat.
Proof.
  induction a as [|c a IH]; [done|].
  rewrite append_cons. simpl. destruct (PyStr.is_continuation c); lia.
Qed.

Lemma len_slice_to (n : nat) (s : string) : (PyStr.len (PyStr.slice_to n s) ≤ n)%nat.
Proof.
  revert n. induction s as [|c s IH]; intros n; simpl; [lia|].
  destruct (PyStr.is_continuation c) eqn:Hc; simpl.
  - rewrite Hc. apply IH.
  - destruct n as [|n]; simpl; [lia|]. rewrite Hc. specialize (IH n). lia.
Qed.

Lemma slice_to_all (n : nat) (s : string) :
  (PyStr.len s ≤ n)%nat → PyStr.slice_to n s = s.
Proof.
  revert n. induction s as [|c s IH]; intros n; simpl; [done|].
  destruct (PyStr.is_continuation c) eqn:Hc.
  - intros H. by rewrite IH.
  - destruct n as [|n]; [lia|]. intros H. rewrite IH; [done|lia].
Qed.

Lemma len_remove (c : ascii) (s : string) :
  (PyStr.len (PyStr.replace c "" s) ≤ PyStr.len s)%nat.
Proof.
  induction s as [|a s IH]; simpl; [lia|].
  destruct (Ascii.eqb a c); rewrite ?append_nil_l; simpl;
    destruct (PyStr.is_continuation a); lia.
Qed.

Lemma remove_removes (c : ascii) (s : string) :
  c ∉ list_ascii_of_string (PyStr.replace c "" s).
Proof.
  induction s as [|a s IH]; simpl; [apply not_elem_of_nil|].
  destruct (Ascii.eqb_spec a c) as [->|Hne]; rewrite ?append_nil_l; simpl; [done|].
  apply not_elem_of_cons. split; [congruence|done].
Qed.

Lemma remove_adds_nothing (c d : ascii) (s : string) :
  c ∉ list_ascii_of_string s → c ∉ list_ascii_of_string (PyStr.replace d "" s).
Proof.
  induction s as [|a s IH]; simpl; [done|].
  intros H. apply not_elem_of_cons in H as [Hne H].
  destruct (Ascii.eqb a d); rewrite ?append_nil_l; simpl; [by apply IH|].
  apply not_elem_of_cons. split; [done|by apply IH].
Qed.

Lemma remove_absent (c : ascii) (s : string) :
  c ∉ list_ascii_of_string s → PyStr.replace c "" s = s.
Proof.
  induction s as [|a s IH]; simpl; [done|].
  intros H. apply not_elem_of_cons in H as [Hne H].
  destruct (Ascii.eqb_spec a c) as [->|_]; [done|]. by rewrite IH.
Qed.

(** X12. The title on a result button has at most 53 characters (50 of the
    title and the three dots) and none of the characters * _ [ ]; a title of
    at most 50 characters that has none of them is shown as it is. *)
Theorem clean_title_label (t : string) :
  (PyStr.len (clean_title t) ≤ 53)%nat
  ∧ Forall (λ c, c ∉ list_ascii_of_string (clean_title t)) label_stripped
  ∧ ((PyStr.len t ≤ 50)%nat →
     Forall (λ c, c ∉ list_ascii_of_string t) label_stripped →
     clean_title t = t).
Proof.
  unfold clean_title, label_stripped.
  set (shown := if (50 <? PyStr.len t)%nat then _ else _).
  assert (PyStr.len shown ≤ 53)%nat as Hshown.
  { subst shown. destruct (Nat.ltb_spec 50 (PyStr.len t)) as [Hlong|Hshort]; [|lia].
    rewrite len_app. pose proof (len_slice_to 50 t). simpl. lia. }
  split; [|split].
  - pose proof (len_remove "*" shown).
    pose proof (len_remove "_" (PyStr.replace "*" "" shown)).
    pose proof (len_remove "[" (PyStr.replace "_" "" (PyStr.replace "*" "" shown))).
    pose proof (len_remove "]" (PyStr.replace "[" ""
                  (PyStr.replace "_" "" (PyStr.replace "*" "" shown)))).
    lia.
  - repeat apply list.Forall_cons_2; [| | | |apply Forall_nil_2].
    + do 3 apply remove_adds_nothing. apply remove_removes.
    + do 2 apply remove_adds_nothing. apply remove_removes.
    + apply remove_adds_nothing. apply remove_removes.
    + apply remove_removes.
  - intros Hshort Hnone. subst shown.
    destruct (Nat.ltb_spec 50 (PyStr.len t)) as [?|_]; [lia|].
    apply list.Forall_cons in Hnone as [H1 Hnone].
    apply list.Forall_cons in Hnone as [H2 Hnone].
    apply list.Forall_cons in Hnone as [H3 Hnone].
    apply list.Forall_cons in Hnone as [H4 _].
    by rewrite (remove_absent "*"), (remove_absent "_"), (remove_absent "["),
      (remove_absent "]").
Qed.

(** *** Links *)

Lemma lower_app (a b : string) : PyStr.lower (a ++ b) = PyStr.lower a ++ PyStr.lower b.
Proof. induction a as [|c a IH]; [done|]. rewrite append_cons. simpl. by rewrite IH. Qed.

Lemma lower_ascii_idempotent (c : ascii) :
  PyStr.lower_ascii (PyStr.lower_ascii c) = PyStr.lower_ascii c.
Proof. destruct c as [[] [] [] [] [] [] [] []]; reflexivity. Qed.

Lemma lower_idempotent (s : string) : PyStr.lower (PyStr.lower s) = PyStr.lower s.
Proof.
  induction s as [|c s IH]; [done|]. simpl. by rewrite lower_ascii_idempotent, IH.
Qed.

Lemma startswith_app (p s b : string) :
  PyStr.startswith p s = true → PyStr.startswith p (s ++ b) = true.
Proof.
  revert s. induction p as [|x p IH]; intros s; [done|].
  destruct s as [|y s]; [done|]. rewrite append_cons. simpl.
  intros H. apply andb_true_iff in H as [-> H]. by apply IH.
Qed.

Lemma contains_app_r (p s b : string) :
  PyStr.contains p s = true → PyStr.contains p (s ++ b) = true.
Proof.
  induction s as [|y s IH].
  - simpl. rewrite orb_false_r. intros H.
    destruct p; [by destruct b|done].
  - rewrite append_cons. simpl. intros H. apply orb_true_iff in H as [H|H].
    + apply orb_true_iff. left.
      apply (startswith_app p (String y s) b H).
    + apply orb_true_iff. right. by apply IH.
Qed.

Lemma contains_app_l (p a s : string) :
  PyStr.contains p s = true → PyStr.contains p (a ++ s) = true.
Proof.
  intros H. induction a as [|y a IH]; [done|].
  rewrite append_cons. simpl. apply orb_true_iff. by right.
Qed.

(** X13. A text is taken for a YouTube link as soon as one of the patterns
    occurs somewhere in it, whatever stands before and after, and in
    whatever case its letters are written. *)
Theorem is_youtube_url_anywhere (before link after : string) :
  is_youtube_url link = true →
  is_youtube_url (before ++ link ++ after) = true
  ∧ is_youtube_url (PyStr.lower link) = true.
Proof.
  unfold is_youtube_url. cbv zeta.
  intros H. apply existsb_exists in H as (pattern & Hin & H).
  split; apply existsb_exists; exists pattern; (split; [done|]).
  - rewrite !lower_app. by apply contains_app_l, contains_app_r.
  - by rewrite lower_idempotent.
Qed.

End Texts.

(* ===================================================================== *)
(** ** Properties of main.py *)
(* ===================================================================== *)

Section Runs.
Import Py Bot Observe.
Local Open Scope handler_scope.

(** *** Running a handler step by step *)

Lemma bind_returned {A B} (m : M A) (k : A → M B) w a w' :
  m w = (Returned a, w') → bind m k w = k a w'.
Proof. unfold bind. by intros ->. Qed.

Lemma bind_raised {A B} (m : M A) (k : A → M B) w e w' :
  m w = (Raised e, w') → bind m k w = (Raised e, w').
Proof. unfold bind. by intros ->. Qed.

Lemma perform_returns what c w :
  fails (collaborators w) c = false →
  perform what c w = (Returned tt, logged (Ok c) w).
Proof. unfold perform. by intros ->. Qed.

Lemma perform_raises what c w :
  fails (collaborators w) c = true →
  perform what c w = (Raised (External what), logged (Failed c) w).
Proof. unfold perform. by intros ->. Qed.

Lemma perform_cases what c w :
  perform what c w = (Returned tt, logged (Ok c) w) ∨
  perform what c w = (Raised (External what), logged (Failed c) w).
Proof. unfold perform. destruct (fails _ _); [by right|by left]. Qed.

Lemma perform_rejects what t w : rejected_with t (perform what (EditText t None)) w.
Proof.
  destruct (perform_cases what (EditText t None) w) as [H|H]; [by left|right; eauto].
Qed.

Lemma calls_since_logged ev w : calls_since w (logged ev w) = [ev].
Proof. unfold calls_since, logged; simpl. apply drop_app_length. Qed.

Lemma calls_since_same w : calls_since w w = [].
Proof. unfold calls_since. apply drop_all. Qed.

Lemma rejected_no_download t m w : rejected_with t m w → no_download_started m w.
Proof.
  unfold no_download_started.
  intros [->|[e ->]]; simpl; by rewrite calls_since_logged.
Qed.

Lemma aborted_no_download e m w : aborted_with e m w → no_download_started m w.
Proof.
  unfold aborted_with, no_download_started. intros ->. simpl.
  by rewrite calls_since_same.
Qed.

(** *** Selection of a candidate *)

Lemma resolve_no_session sessions u i :
  sessions !! u = None → resolve_candidate sessions u i = SessionExpired.
Proof. unfold resolve_candidate. by intros ->. Qed.

Lemma resolve_index_too_large sessions u i videos q :
  sessions !! u = Some (SearchSession videos q) →
  (Z.of_nat (length videos) ≤ i)%Z →
  resolve_candidate sessions u i = InvalidSelection.
Proof.
  unfold resolve_candidate. intros -> Hle. simpl.
  by apply Z.leb_le in Hle as ->.
Qed.

Lemma resolve_link_entry sessions u i v link :
  sessions !! u = Some (UrlSession v link) →
  resolve_candidate sessions u i = Aborted (KeyError "search_results").
Proof. unfold resolve_candidate. by intros ->. Qed.

Lemma resolve_in_range sessions u i videos q v :
  sessions !! u = Some (SearchSession videos q) →
  videos !! i = Some v →
  resolve_candidate sessions u (Z.of_nat i) = Selected v.
Proof.
  unfold resolve_candidate. intros -> Hv. simpl.
  assert (i < length videos)%nat as Hlt by (by eapply lookup_lt_Some).
  destruct (Z.leb_spec (Z.of_nat (length videos)) (Z.of_nat i)) as [?|_]; [lia|].
  unfold py_index.
  destruct (Z.ltb_spec (Z.of_nat i) 0) as [?|_]; [lia|].
  destruct (Z.ltb_spec (Z.of_nat i) 0) as [?|_]; [lia|].
  by rewrite Nat2Z.id, Hv.
Qed.

(** The two handlers, by the way the selection ends. *)
Lemma handle_download_unfold fmt u vid i w :
  handle_download fmt u vid i w =
  match resolve_candidate (user_sessions w) u i with
  | SessionExpired => perform "edit_message_text" (EditText TxtSessionExpired None) w
  | InvalidSelection => perform "edit_message_text" (EditText TxtInvalidSelection None) w
  | Aborted e => (Raised e, w)
  | Selected v =>
      handle_download fmt u vid i w
  end.
Proof.
  destruct fmt; simpl; unfold handle_mp3_download, handle_mp4_download, bind, read;
    by destruct (resolve_candidate _ _ _).
Qed.

(** C1, as the code has it. For both download handlers: with no entry for
    the user the handler answers that the session expired; with a stored
    candidate list and an index at or beyond its length it answers that the
    selection is invalid; with a stored link target the lookup of the key
    search_results raises KeyError, which the handler does not catch. In
    each of the three cases the handler does nothing else: no download is
    started. *)
Theorem selection_failures (fmt : media) (w : world) (user_id : Z)
    (video_id : string) (i : Z) :
  (user_sessions w !! user_id = None →
     rejected_with TxtSessionExpired (handle_download fmt user_id video_id i) w ∧
     no_download_started (handle_download fmt user_id video_id i) w)
  ∧ (∀ videos q,
       user_sessions w !! user_id = Some (SearchSession videos q) →
       (Z.of_nat (length videos) ≤ i)%Z →
       rejected_with TxtInvalidSelection (handle_download fmt user_id video_id i) w ∧
       no_download_started (handle_download fmt user_id video_id i) w)
  ∧ (∀ v link,
       user_sessions w !! user_id = Some (UrlSession v link) →
       aborted_with (KeyError "search_results") (handle_download fmt user_id video_id i) w ∧
       no_download_started (handle_download fmt user_id video_id i) w).
Proof.
  split; [|split].
  - intros Hnone.
    assert (rejected_with TxtSessionExpired (handle_download fmt user_id video_id i) w) as H.
    { unfold rejected_with. rewrite handle_download_unfold, (resolve_no_session _ _ _ Hnone).
      apply perform_rejects. }
    split; [done|by eapply rejected_no_download].
  - intros videos q Hentry Hle.
    assert (rejected_with TxtInvalidSelection (handle_download fmt user_id video_id i) w) as H.
    { unfold rejected_with.
      rewrite handle_download_unfold, (resolve_index_too_large _ _ _ _ _ Hentry Hle).
      apply perform_rejects. }
    split; [done|by eapply rejected_no_download].
  - intros v link Hentry.
    assert (aborted_with (KeyError "search_results")
              (handle_download fmt user_id video_id i) w) as H.
    { unfold aborted_with.
      by rewrite handle_download_unfold, (resolve_link_entry _ _ _ _ _ Hentry). }
    split; [done|by eapply aborted_no_download].
Qed.


(** *** What a handler leaves alone *)

Lemma sessions_apart : apart user_sessions.
Proof. by split. Qed.

Lemma collaborators_apart : apart collaborators.
Proof. by split. Qed.

Lemma temp_dir_apart : apart temp_dir.
Proof. by split. Qed.

Section Preservation.
Context {X : Type} (f : world → X).

Lemma preserves_ret {A} (a : A) : preserves f (ret a).
Proof. by intros w. Qed.

Lemma preserves_raise {A} e : preserves f (raise (A:=A) e).
Proof. by intros w. Qed.

Lemma preserves_read {A} (g : world → A) : preserves f (read g).
Proof. by intros w. Qed.

Lemma preserves_lift {A} (o : outcome A) : preserves f (lift o).
Proof. by intros w. Qed.

Lemma preserves_bind {A B} (m : M A) (k : A → M B) :
  preserves f m → (∀ a, preserves f (k a)) → preserves f (bind m k).
Proof.
  intros Hm Hk w. unfold bind. specialize (Hm w).
  destruct (m w) as [[a|e] w']; simpl in *; [|done].
  by rewrite Hk.
Qed.

Lemma preserves_try_except {A} (m : M A) (h : exception → M A) :
  preserves f m → (∀ e, preserves f (h e)) → preserves f (try_except m h).
Proof.
  intros Hm Hh w. unfold try_except. specialize (Hm w).
  destruct (m w) as [[a|e] w']; simpl in *; [done|].
  by rewrite Hh.
Qed.

Lemma preserves_perform what c : apart f → preserves f (perform what c).
Proof. intros [Hlog _] w. unfold perform. destruct (fails _ _); apply Hlog. Qed.

Lemma preserves_ask {A} c (answer : env → A) : apart f → preserves f (ask c answer).
Proof. intros [Hlog _] w. apply Hlog. Qed.

Lemma preserves_sqlite {A} method (run : env → Db.Database → A * Db.Database) :
  apart f → preserves f (sqlite method run).
Proof.
  intros Hf. apply preserves_bind; [by apply preserves_perform|].
  intros _ w. destruct Hf as [_ Hdb].
  destruct (run (collaborators w) (db w)) as [a d]. apply Hdb.
Qed.

End Preservation.

Lemma preserves_escape_markdown_value {X} (f : world → X) v :
  preserves f (escape_markdown_value v).
Proof. destruct v; [apply preserves_ret|apply preserves_raise]. Qed.

Ltac preserved :=
  repeat first
    [ apply preserves_ret | apply preserves_raise | apply preserves_read
    | apply preserves_lift | apply preserves_escape_markdown_value
    | apply preserves_perform; [done]
    | apply preserves_ask; [done]
    | apply preserves_sqlite; [done]
    | apply preserves_bind; [|intros ?]
    | apply preserves_try_except; [|intros ?]
    | match goal with
      | |- preserves _ (match ?x with _ => _ end) => destruct x
      | |- preserves _ (if ?b then _ else _) => destruct b
      end ].

Lemma preserves_log_error {X} (f : world → X) e : apart f → preserves f (log_error e).
Proof. intros Hf. by apply preserves_ask. Qed.

Lemma preserves_send_promotional_content {X} (f : world → X) u :
  apart f → preserves f (send_promotional_content u).
Proof.
  intros Hf. unfold send_promotional_content, sqlite_read.
  preserved.
Qed.

Lemma preserves_process_mp3_download {X} (f : world → X) u v link :
  apart f → preserves f (process_mp3_download u v link).
Proof.
  intros Hf. unfold process_mp3_download, sqlite_write.
  preserved.
Qed.

Lemma preserves_process_mp4_download {X} (f : world → X) u v link :
  apart f → preserves f (process_mp4_download u v link).
Proof.
  intros Hf. unfold process_mp4_download.
  preserved.
Qed.

Lemma preserves_handle_download {X} (f : world → X) fmt u vid i :
  apart f → preserves f (handle_download fmt u vid i).
Proof.
  intros Hf.
  destruct fmt; simpl; unfold handle_mp3_download, handle_mp4_download;
    preserved.
Qed.


(** *** What a handler calls *)

Lemma emits_calls_since {A} P (m : M A) w :
  emits P m → Forall P (calls_since w (m w).2).
Proof.
  intros Hm. destruct (Hm w) as (new & Htrace & Hnew).
  unfold calls_since. by rewrite Htrace, drop_app_length.
Qed.

Section Emission.
Context (P : event → Prop).

Lemma emits_silent {A} (m : M A) : (∀ w, trace (m w).2 = trace w) → emits P m.
Proof. intros Hm w. exists []. by rewrite Hm, app_nil_r. Qed.

Lemma emits_ret {A} (a : A) : emits P (ret a).
Proof. by apply emits_silent. Qed.

Lemma emits_raise {A} e : emits P (raise (A:=A) e).
Proof. by apply emits_silent. Qed.

Lemma emits_read {A} (g : world → A) : emits P (read g).
Proof. by apply emits_silent. Qed.

Lemma emits_lift {A} (o : outcome A) : emits P (lift o).
Proof. by apply emits_silent. Qed.

Lemma emits_set_session u entry : emits P (set_session u entry).
Proof. by apply emits_silent. Qed.

Lemma emits_escape_markdown_value v : emits P (escape_markdown_value v).
Proof. destruct v; by apply emits_silent. Qed.

Lemma emits_bind {A B} (m : M A) (k : A → M B) :
  emits P m → (∀ a, emits P (k a)) → emits P (bind m k).
Proof.
  intros Hm Hk w. unfold bind. destruct (Hm w) as (new & Htrace & Hnew).
  destruct (m w) as [[a|e] w']; simpl in *; [|by eauto].
  destruct (Hk a w') as (new' & Htrace' & Hnew').
  exists (new ++ new')%list. split; [|by apply Forall_app].
  by rewrite Htrace', Htrace, app_assoc.
Qed.

Lemma emits_try_except {A} (m : M A) (h : exception → M A) :
  emits P m → (∀ e, emits P (h e)) → emits P (try_except m h).
Proof.
  intros Hm Hh w. unfold try_except. destruct (Hm w) as (new & Htrace & Hnew).
  destruct (m w) as [[a|e] w']; simpl in *; [by eauto|].
  destruct (Hh e w') as (new' & Htrace' & Hnew').
  exists (new ++ new')%list. split; [|by apply Forall_app].
  by rewrite Htrace', Htrace, app_assoc.
Qed.

Lemma emits_perform what c : P (Ok c) → P (Failed c) → emits P (perform what c).
Proof.
  intros Hok Hfailed w. unfold perform.
  destruct (fails _ _); eexists [_]; (split; [done|]); by apply Forall_singleton.
Qed.

Lemma emits_ask {A} c (answer : env → A) : P (Ok c) → emits P (ask c answer).
Proof. intros Hok w. exists [Ok c]. split; [done|]. by apply Forall_singleton. Qed.

Lemma emits_sqlite {A} method (run : env → Db.Database → A * Db.Database) :
  P (Ok (Sqlite method)) → P (Failed (Sqlite method)) → emits P (sqlite method run).
Proof.
  intros Hok Hfailed. apply emits_bind; [by apply emits_perform|].
  intros _. apply emits_silent. intros w.
  by destruct (run (collaborators w) (db w)).
Qed.

End Emission.

(** [emitted tac] walks through a handler; [tac] shows that a call
    satisfies the property. *)
Ltac emitted tac :=
  repeat first
    [ apply emits_ret | apply emits_raise | apply emits_read | apply emits_lift
    | apply emits_set_session | apply emits_escape_markdown_value
    | apply emits_perform; [solve [tac] | solve [tac]]
    | apply emits_ask; [solve [tac]]
    | apply emits_sqlite; [solve [tac] | solve [tac]]
    | apply emits_bind; [|intros ?]
    | apply emits_try_except; [|intros ?]
    | match goal with
      | |- emits _ (match ?x with _ => _ end) => destruct x
      | |- emits _ (if ?b then _ else _) => destruct b
      end ].

Ltac by_call := intros ? ?; simpl; congruence.

Lemma handle_search_asks_8 u q : emits (searches_with 8) (handle_search u q).
Proof.
  unfold handle_search, sqlite_write, youtube_search_videos.
  emitted by_call.
Qed.

Lemma handle_lyrics_to_download_asks_3 u song :
  emits (searches_with 3) (handle_lyrics_to_download u song).
Proof.
  unfold handle_lyrics_to_download, youtube_search_videos, log_error.
  emitted by_call.
Qed.

(** *** Searches *)

#[local] Arguments escape_markdown : simpl never.
#[local] Arguments clean_title : simpl never.
#[local] Arguments search_keyboard : simpl never.
#[local] Arguments YouTube.search_videos : simpl never.
#[local] Arguments Db.update_user_activity : simpl never.
#[local] Arguments Db.add_download : simpl never.
#[local] Arguments Db.get_current_promo : simpl never.
#[local] Arguments Db.get_setting : simpl never.
#[local] Arguments PyStr.slice_to : simpl never.
#[local] Arguments String.eqb : simpl never.

(** The run of [handle_search] up to the answer of the search. *)
Lemma handle_search_searches u q w :
  fails (collaborators w) (Sqlite "update_user_activity") = false →
  fails (collaborators w) (ReplyText (TxtSearching (escape_markdown q)) None) = false →
  let w1 :=
    logged (Ok (SearchVideos q 8))
      (logged (Ok (ReplyText (TxtSearching (escape_markdown q)) None))
         (with_db (Db.update_user_activity u (now (collaborators w)) (db w))
            (logged (Ok (Sqlite "update_user_activity")) w))) in
  handle_search u q w =
  match YouTube.search_videos q 8 (ydl (collaborators w) q 8) with
  | [] => perform "edit_text" (EditText TxtNoResults None) w1
  | videos =>
      perform "edit_text"
        (EditText (TxtSearchResults (escape_markdown q)) (Some (search_keyboard q videos)))
        (with_sessions (<[u := SearchSession videos q]> (user_sessions w)) w1)
  end.
Proof.
  intros Hdb Hreply w1.
  unfold handle_search, sqlite_write, sqlite, youtube_search_videos, ask, set_session,
    update, bind.
  rewrite (perform_returns _ _ _ Hdb). cbn.
  rewrite perform_returns by done. cbn.
  by destruct (YouTube.search_videos q 8 _).
Qed.

(** [handle_search] writes to the sessions only after a search that found
    something. *)
Lemma handle_search_sessions u q w :
  user_sessions (handle_search u q w).2 = user_sessions w ∨
  (YouTube.search_videos q 8 (ydl (collaborators w) q 8) ≠ [] ∧
   user_sessions (handle_search u q w).2 =
   <[u := SearchSession (YouTube.search_videos q 8 (ydl (collaborators w) q 8)) q]>
     (user_sessions w)).
Proof.
  destruct (fails (collaborators w) (Sqlite "update_user_activity")) eqn:Hdb.
  { left. unfold handle_search, sqlite_write, sqlite, bind.
    by rewrite (perform_raises _ _ _ Hdb). }
  destruct (fails (collaborators w) (ReplyText (TxtSearching (escape_markdown q)) None))
    eqn:Hreply.
  { left. unfold handle_search, sqlite_write, sqlite, bind.
    rewrite (perform_returns _ _ _ Hdb). cbn.
    by rewrite perform_raises by done. }
  rewrite (handle_search_searches _ _ _ Hdb Hreply).
  destruct (YouTube.search_videos q 8 _) as [|v rest] eqn:Hfound.
  - left. by rewrite preserves_perform by apply sessions_apart.
  - right. split; [done|]. by rewrite preserves_perform by apply sessions_apart.
Qed.

(** C5. When the search of [handle_search] returns no video, the sessions
    are after the handler what they were before it, the entry of the user
    included, present or absent; and where the database and the first reply
    answer, the handler ends by editing its message to the no-results
    notice, the search having been its only other call. *)
Theorem empty_search_leaves_session (w : world) (user_id : Z) (query : string) :
  YouTube.search_videos query 8 (ydl (collaborators w) query 8) = [] →
  user_sessions (handle_search user_id query w).2 = user_sessions w
  ∧ (fails (collaborators w) (Sqlite "update_user_activity") = false →
     fails (collaborators w) (ReplyText (TxtSearching (escape_markdown query)) None) = false →
     ∃ ev, call_of ev = EditText TxtNoResults None ∧
           calls_since w (handle_search user_id query w).2 =
           [Ok (Sqlite "update_user_activity");
            Ok (ReplyText (TxtSearching (escape_markdown query)) None);
            Ok (SearchVideos query 8); ev]).
Proof.
  intros Hempty. split.
  - destruct (handle_search_sessions user_id query w) as [H|[H _]]; [done|].
    by rewrite Hempty in H.
  - intros Hdb Hreply.
    rewrite (handle_search_searches _ _ _ Hdb Hreply), Hempty.
    unfold calls_since.
    destruct (perform_cases "edit_text" (EditText TxtNoResults None)
                (logged (Ok (SearchVideos query 8))
                   (logged (Ok (ReplyText (TxtSearching (escape_markdown query)) None))
                      (with_db (Db.update_user_activity user_id (now (collaborators w)) (db w))
                         (logged (Ok (Sqlite "update_user_activity")) w))))) as [->| ->];
      cbn; eexists; (split; [|rewrite <- !app_assoc; apply drop_app_length]); done.
Qed.


(** The session store is a map: the entry read is the entry last written. *)
Lemma set_session_lookup u entry w :
  user_sessions (set_session u entry w).2 !! u = Some entry.
Proof. unfold set_session, update. simpl. apply lookup_insert_eq. Qed.

Lemma set_session_other u u' entry w :
  u ≠ u' → user_sessions (set_session u entry w).2 !! u' = user_sessions w !! u'.
Proof. intros Hne. unfold set_session, update. simpl. by apply lookup_insert_ne. Qed.

(** C2. Writing X for a user and reading gives X; writing Y after it and
    reading gives Y, and so not X unless they are the same: the second write
    replaces the first. So when a second search of the same user finds
    videos (its database update and first reply answering), the entry of the
    user holds the videos of the second search, whatever the first search
    stored, and index 0 resolves to the first video of the second list. *)
Theorem session_last_write_wins (w : world) (user_id : Z) (X Y : session)
    (e2 : env) (q1 q2 : string) (first : video) (rest : list video) :
  fails e2 (Sqlite "update_user_activity") = false →
  fails e2 (ReplyText (TxtSearching (escape_markdown q2)) None) = false →
  YouTube.search_videos q2 8 (ydl e2 q2 8) = first :: rest →
  let put := fun entry w => (set_session user_id entry w).2 in
  let w1 := (handle_search user_id q1 w).2 in
  let w2 := (handle_search user_id q2 (with_env e2 w1)).2 in
  user_sessions (put X w) !! user_id = Some X
  ∧ user_sessions (put Y (put X w)) !! user_id = Some Y
  ∧ (X ≠ Y → user_sessions (put Y (put X w)) !! user_id ≠ Some X)
  ∧ user_sessions w2 !! user_id = Some (SearchSession (first :: rest) q2)
  ∧ resolve_candidate (user_sessions w2) user_id 0 = Selected first.
Proof.
  intros Hdb Hreply Hfound put w1 w2.
  assert (user_sessions w2 !! user_id = Some (SearchSession (first :: rest) q2)) as Hw2.
  { subst w2.
    rewrite (handle_search_searches user_id q2 (with_env e2 w1) Hdb Hreply).
    cbn [collaborators with_env]. rewrite Hfound.
    rewrite preserves_perform by apply sessions_apart.
    apply lookup_insert_eq. }
  split; [apply set_session_lookup|].
  split; [apply set_session_lookup|].
  split; [intros Hne; unfold put; rewrite set_session_lookup; congruence|].
  split; [done|].
  by apply (resolve_in_range _ _ 0%nat _ _ _ Hw2).
Qed.


(** [handle_lyrics_to_download] writes to the sessions what its search, for
    three videos, found. *)
Lemma handle_lyrics_to_download_sessions u song w :
  user_sessions (handle_lyrics_to_download u song w).2 = user_sessions w ∨
  user_sessions (handle_lyrics_to_download u song w).2 =
  <[u := SearchSession (YouTube.search_videos song 3 (ydl (collaborators w) song 3)) song]>
    (user_sessions w).
Proof.
  unfold handle_lyrics_to_download, youtube_search_videos, log_error, try_except, bind,
    ask, perform, set_session, update.
  cbn.
  destruct (fails (collaborators w) _); cbn; [by left|].
  destruct (YouTube.search_videos song 3 _) as [|v rest]; cbn.
  - left. repeat (destruct (fails (collaborators w) _); cbn); done.
  - right. repeat (destruct (fails (collaborators w) _); cbn); done.
Qed.

(** The buttons of [search_rows] that select candidate [j]. *)
Lemma actions_on_search_rows videos : ∀ (k : nat) (j : Z),
  actions_on j (search_rows k videos) =
  if (Z.of_nat k <=? j)%Z then
    match videos !! Z.to_nat (j - Z.of_nat k) with
    | Some v => [CbDownloadMp3 (id v) j; CbDownloadMp4 (id v) j]
    | None => []
    end
  else [].
Proof.
  unfold actions_on.
  induction videos as [|v rest IH]; intros k j.
  - simpl. by destruct (Z.of_nat k <=? j)%Z.
  - cbn [search_rows concat fmap list_fmap app data].
    specialize (IH (S k) j).
    destruct (Z.eq_dec j (Z.of_nat k)) as [->|Hne].
    + rewrite !filter_cons_True by (simpl; apply Z.eqb_refl).
      rewrite IH.
      destruct (Z.leb_spec (Z.of_nat (S k)) (Z.of_nat k)) as [?|_]; [lia|].
      destruct (Z.leb_spec (Z.of_nat k) (Z.of_nat k)) as [_|?]; [|lia].
      by rewrite Z.sub_diag.
    + rewrite !filter_cons_False
        by (simpl; intros Heq; apply Z.eqb_eq in Heq; congruence).
      rewrite IH.
      destruct (Z.leb_spec (Z.of_nat (S k)) j) as [Hle|Hgt];
        destruct (Z.leb_spec (Z.of_nat k) j) as [Hle'|Hgt']; try lia; [|done].
      replace (Z.to_nat (j - Z.of_nat k)) with (S (Z.to_nat (j - Z.of_nat (S k)))) by lia.
      done.
Qed.

Lemma actions_on_search_keyboard q videos (j : Z) :
  actions_on j (search_keyboard q videos) =
  if (0 <=? j)%Z then
    match videos !! Z.to_nat j with
    | Some v => [CbDownloadMp3 (id v) j; CbDownloadMp4 (id v) j]
    | None => []
    end
  else [].
Proof.
  pose proof (actions_on_search_rows videos 0 j) as Hrows.
  unfold actions_on, search_keyboard in *.
  rewrite concat_app, fmap_app, list.filter_app, Hrows. simpl.
  rewrite !filter_cons_False by (simpl; congruence).
  rewrite filter_nil, app_nil_r.
  by rewrite Z.sub_0_r.
Qed.

(** C6. A fresh search asks the service for 8 videos and nothing else, the
    search from a lyrics result for 3: the numbers are written in the two
    handlers, which take no limit. What either stores for the user, if it
    stores, is a list within its number. For a fresh search that finds
    videos (the database update and the first reply answering), the handler
    ends by editing its message to the results with the keyboard of the
    videos found, on which candidate [j] has exactly the two actions
    download_mp3 and download_mp4 when [j] is an index of the list, and none
    otherwise: as many candidates as videos. *)
Theorem candidate_limits (w : world) (user_id : Z) (query : string) :
  let found := YouTube.search_videos query 8 (ydl (collaborators w) query 8) in
  let after_search := (handle_search user_id query w).2 in
  let after_lyrics := (handle_lyrics_to_download user_id query w).2 in
  Forall (searches_with 8) (calls_since w after_search)
  ∧ Forall (searches_with 3) (calls_since w after_lyrics)
  ∧ (user_sessions after_search = user_sessions w ∨
     ∃ videos, user_sessions after_search = <[user_id := SearchSession videos query]> (user_sessions w)
               ∧ (length videos ≤ 8)%nat)
  ∧ (user_sessions after_lyrics = user_sessions w ∨
     ∃ videos, user_sessions after_lyrics = <[user_id := SearchSession videos query]> (user_sessions w)
               ∧ (length videos ≤ 3)%nat)
  ∧ (length found ≤ 8)%nat
  ∧ (fails (collaborators w) (Sqlite "update_user_activity") = false →
     fails (collaborators w) (ReplyText (TxtSearching (escape_markdown query)) None) = false →
     found ≠ [] →
     ∃ ev, call_of ev = EditText (TxtSearchResults (escape_markdown query))
                                 (Some (search_keyboard query found)) ∧
           calls_since w after_search =
           [Ok (Sqlite "update_user_activity");
            Ok (ReplyText (TxtSearching (escape_markdown query)) None);
            Ok (SearchVideos query 8); ev])
  ∧ (∀ j : Z,
       actions_on j (search_keyboard query found) =
       if (0 <=? j)%Z then
         match found !! Z.to_nat j with
         | Some v => [CbDownloadMp3 (id v) j; CbDownloadMp4 (id v) j]
         | None => []
         end
       else []).
Proof.
  intros found after_search after_lyrics.
  assert (length found ≤ 8)%nat as Hfound.
  { pose proof (search_videos_bounded 8 query (ydl (collaborators w) query 8)).
    subst found. lia. }
  split; [apply emits_calls_since, handle_search_asks_8|].
  split; [apply emits_calls_since, handle_lyrics_to_download_asks_3|].
  split.
  { destruct (handle_search_sessions user_id query w) as [H|[_ H]]; [by left|].
    right. eexists. split; [exact H|done]. }
  split.
  { destruct (handle_lyrics_to_download_sessions user_id query w) as [H|H]; [by left|].
    right. eexists. split; [exact H|].
    pose proof (search_videos_bounded 3 query (ydl (collaborators w) query 3)). lia. }
  split; [done|].
  split; [|intros j; apply actions_on_search_keyboard].
  intros Hdb Hreply Hsome. subst after_search.
  rewrite (handle_search_searches _ _ _ Hdb Hreply).
  fold found. destruct found as [|v rest]; [done|].
  unfold calls_since.
  match goal with
  | |- context [perform ?what ?c ?w0] =>
      destruct (perform_cases what c w0) as [->| ->]
  end;
    cbn; eexists; (split; [|rewrite <- !app_assoc; apply drop_app_length]); done.
Qed.


(** *** Fetching and delivering *)

#[local] Arguments downloaded_path : simpl never.

(** The run of [handle_mp3_download] on a candidate whose fetch fails. *)
Lemma handle_mp3_download_fetch_fails u vid i v w :
  resolve_candidate (user_sessions w) u i = Selected v →
  downloaded_path (audio_file (collaborators w) (url v) (temp_dir w)) = None →
  fails (collaborators w)
        (EditText (TxtProcessing mp3 (escape_markdown (PyStr.slice_to 50 (title v)))) None)
    = false →
  let failure := Wrapped "MP3 processing failed" (Exception "Failed to download audio") in
  handle_mp3_download u vid i w =
  perform "edit_text" (EditText (TxtDownloadFailed failure) None)
    (logged (Ok (LogError failure))
       (logged (Ok (DownloadAudio (url v) (temp_dir w)))
          (logged (Ok (EditText (TxtProcessing mp3
                                   (escape_markdown (PyStr.slice_to 50 (title v)))) None))
             w))).
Proof.
  intros Hres Hpath Hedit failure.
  unfold handle_mp3_download, bind, read. rewrite Hres.
  rewrite (perform_returns _ _ _ Hedit).
  unfold try_except, process_mp3_download, try_except, bind, read, ask, raise, log_error.
  cbn. by rewrite Hpath.
Qed.

(** C8. When the fetch of a selected candidate fails (the notice that the
    download is being processed having been shown), [handle_mp3_download]
    logs the failure and edits its message to the failure notice, and the
    sessions and the database are what they were, so that the same index
    resolves to the same candidate again. And whatever the input and
    however they end, the two download handlers leave every session entry
    as it was: a selection reads the stored list and neither changes nor
    removes it. *)
Theorem failed_fetch_keeps_session (w : world) (user_id : Z) (video_id : string)
    (i : Z) (v : video) :
  resolve_candidate (user_sessions w) user_id i = Selected v →
  downloaded_path (audio_file (collaborators w) (url v) (temp_dir w)) = None →
  fails (collaborators w)
        (EditText (TxtProcessing mp3 (escape_markdown (PyStr.slice_to 50 (title v)))) None)
    = false →
  let w' := (handle_mp3_download user_id video_id i w).2 in
  let failure := Wrapped "MP3 processing failed" (Exception "Failed to download audio") in
  (∃ ev, call_of ev = EditText (TxtDownloadFailed failure) None ∧
         calls_since w w' =
         [Ok (EditText (TxtProcessing mp3
                          (escape_markdown (PyStr.slice_to 50 (title v)))) None);
          Ok (DownloadAudio (url v) (temp_dir w));
          Ok (LogError failure);
          ev])
  ∧ user_sessions w' = user_sessions w
  ∧ db w' = db w
  ∧ resolve_candidate (user_sessions w') user_id i = Selected v
  ∧ (∀ fmt w0 u vid j,
       let w1 := (handle_download fmt u vid j w0).2 in
       user_sessions w1 = user_sessions w0 ∧
       resolve_candidate (user_sessions w1) u j = resolve_candidate (user_sessions w0) u j).
Proof.
  intros Hres Hpath Hedit w' failure.
  assert (user_sessions w' = user_sessions w) as Hsame.
  { apply (preserves_handle_download user_sessions mp3), sessions_apart. }
  split; [|split; [done|split; [|split]]].
  - subst w'. rewrite (handle_mp3_download_fetch_fails _ _ _ _ _ Hres Hpath Hedit).
    unfold calls_since.
    match goal with
    | |- context [perform ?what ?c ?w0] =>
        destruct (perform_cases what c w0) as [->| ->]
    end;
      cbn; eexists; (split; [|rewrite <- !app_assoc; apply drop_app_length]); done.
  - subst w'. rewrite (handle_mp3_download_fetch_fails _ _ _ _ _ Hres Hpath Hedit).
    match goal with
    | |- context [perform ?what ?c ?w0] =>
        destruct (perform_cases what c w0) as [->| ->]
    end; done.
  - by rewrite Hsame.
  - intros fmt w0 u vid j w1.
    assert (user_sessions w1 = user_sessions w0) as ->; [|done].
    apply (preserves_handle_download user_sessions fmt), sessions_apart.
Qed.


Ltac each_event tac :=
  repeat first [apply Forall_nil_2 | apply Forall_cons_2; [solve [tac]|]].

Ltac promo_event :=
  first [ right; by eexists
        | left; cbn; first [done | apply Z.eqb_refl] ].

Ltac promo_run events :=
  exists events;
  split; [done|];
  split; [by rewrite <- ?app_assoc|];
  split; [done|];
  split; [done|];
  split; [first [done | by destruct (Db.get_current_promo _)]|];
  split; [each_event promo_event | each_event done].

(** [send_promotional_content] returns, whatever its calls do. *)
Lemma send_promotional_content_run u w :
  ∃ events,
    (send_promotional_content u w).1 = Returned tt
    ∧ trace (send_promotional_content u w).2 = (trace w ++ events)%list
    ∧ db (send_promotional_content u w).2 = db w
    ∧ collaborators (send_promotional_content u w).2 = collaborators w
    ∧ photos_sent events = promo_delivered u w
    ∧ Forall (promo_or_log u) events
    ∧ Forall (fun ev => is_failure_notice (call_of ev) = false) events.
Proof.
  unfold promo_delivered, send_promotional_content, sqlite_read, sqlite, try_except, bind,
    perform, log_error, ask, ret.
  cbn.
  destruct (fails (collaborators w) (Sqlite "get_current_promo")) eqn:Hdb; cbn.
  { promo_run [Failed (Sqlite "get_current_promo");
               Ok (LogError (External "get_current_promo"))]. }
  destruct (Db.get_current_promo (db w)) as [p|]; cbn.
  2: { promo_run [Ok (Sqlite "get_current_promo")]. }
  destruct (fails (collaborators w) (SendMessage u TxtSeparator)) eqn:Hsep; cbn.
  { promo_run [Ok (Sqlite "get_current_promo"); Failed (SendMessage u TxtSeparator);
               Ok (LogError (External "send_message"))]. }
  destruct (fails (collaborators w) (SendPhoto u (Db.file_id p) (Db.caption p)))
    eqn:Hphoto; cbn.
  { promo_run [Ok (Sqlite "get_current_promo"); Ok (SendMessage u TxtSeparator);
               Failed (SendPhoto u (Db.file_id p) (Db.caption p));
               Ok (LogError (External "send_photo"))]. }
  promo_run [Ok (Sqlite "get_current_promo"); Ok (SendMessage u TxtSeparator);
             Ok (SendPhoto u (Db.file_id p) (Db.caption p))].
Qed.


#[local] Arguments send_promotional_content : simpl never.

Lemma get_current_promo_add_download u t fmt eff ts d :
  Db.get_current_promo (Db.add_download u t fmt eff ts d) = Db.get_current_promo d.
Proof. reflexivity. Qed.

(** The delivery, up to the promo. *)
Lemma process_mp3_download_delivers w u v link path chan :
  channel v = Some chan →
  downloaded_path (audio_file (collaborators w) link (temp_dir w)) = Some path →
  (∀ c, is_promo_call u c = false → fails (collaborators w) c = false) →
  ∃ w1,
    process_mp3_download u v link w =
      match send_promotional_content u w1 with
      | (Returned _, w2) => (Returned tt, logged (Ok (CreateTaskAutoDelete 30)) w2)
      | (Raised e, w2) => (Raised (Wrapped "MP3 processing failed" e), w2)
      end
    ∧ trace w1 = (trace w ++ delivery_calls u v link path chan w)%list
    ∧ db w1 = Db.add_download u (title v) "mp3" None (current_timestamp (collaborators w)) (db w)
    ∧ collaborators w1 = collaborators w.
Proof.
  intros Hchan Hpath Hq.
  unfold process_mp3_download, delivery_calls, sqlite_write, sqlite,
    try_except, bind, read, ask, perform, raise, ret, escape_markdown_value.
  rewrite Hchan; cbn; rewrite Hpath; cbn.
  repeat (match goal with
          | |- context [fails (collaborators w) ?c] => rewrite (Hq c) by reflexivity
          end; cbn).
  destruct (file_exists (collaborators w) path); cbn;
    repeat (match goal with
            | |- context [fails (collaborators w) ?c] => rewrite (Hq c) by reflexivity
            end; cbn);
    match goal with
    | |- context [send_promotional_content u ?w1] => exists w1
    end;
    (split; [by destruct (send_promotional_content u _) as [[[]|e] w2]|]);
    cbn; rewrite <- ?app_assoc; done.
Qed.

(** C3. Take a run of [process_mp3_download] in which the fetch gives a
    file and no call fails other than, possibly, those of the promo (the
    read of the current promo, the separator, the photo). Then the handler
    returns; the downloads table is, at the end, what it was with one row
    appended, for this user and title with the format mp3; the calls are
    those of the delivery, then those of the promo, then the scheduling of
    the deletion of the status message; the promo photo reaches the user
    once if a promo is current and its three calls return, and not at all
    otherwise; a failing promo call leaves a line in the log and no failure
    notice to the user. *)
Theorem delivery_then_promo (w : world) (user_id : Z) (v : video)
    (link path channel_name : string) :
  channel v = Some channel_name →
  downloaded_path (audio_file (collaborators w) link (temp_dir w)) = Some path →
  (∀ c, fails (collaborators w) c = true → is_promo_call user_id c = true) →
  let run := process_mp3_download user_id v link w in
  let record :=
    {| Db.download_id := Db.downloads_seq (db w) + 1; Db.user_id := user_id;
       Db.song_title := title v; Db.format := "mp3"; Db.effect := None;
       Db.downloaded_at := current_timestamp (collaborators w) |} in
  run.1 = Returned tt
  ∧ Db.downloads (db run.2) = (Db.downloads (db w) ++ [record])%list
  ∧ user_sessions run.2 = user_sessions w
  ∧ ∃ promo_events,
      calls_since w run.2 =
        (delivery_calls user_id v link path channel_name w ++ promo_events
         ++ [Ok (CreateTaskAutoDelete 30)])%list
      ∧ photos_sent (delivery_calls user_id v link path channel_name w) = []
      ∧ photos_sent promo_events = promo_delivered user_id w
      ∧ Forall (promo_or_log user_id) promo_events
      ∧ Forall (fun ev => is_failure_notice (call_of ev) = false) (calls_since w run.2).
Proof.
  intros Hchan Hpath Hquiet run record.
  assert (∀ c, is_promo_call user_id c = false → fails (collaborators w) c = false) as Hq.
  { intros c Hc. destruct (fails (collaborators w) c) eqn:Hf; [|done].
    apply Hquiet in Hf. congruence. }
  destruct (process_mp3_download_delivers w user_id v link path channel_name Hchan Hpath Hq)
    as (w1 & Hrun & Htrace1 & Hdb1 & Henv1).
  destruct (send_promotional_content_run user_id w1)
    as (events & Hret & Htrace & Hdb & Henv & Hsent & Hlog & Hnotice).
  subst run. rewrite Hrun.
  destruct (send_promotional_content user_id w1) as [r w2].
  cbn in Hret, Htrace, Hdb, Henv. subst r. cbn.
  split; [done|].
  split; [by rewrite Hdb, Hdb1|].
  split.
  { change (user_sessions w2) with (user_sessions (logged (Ok (CreateTaskAutoDelete 30)) w2)).
    replace (logged (Ok (CreateTaskAutoDelete 30)) w2)
      with (process_mp3_download user_id v link w).2 by (by rewrite Hrun).
    apply preserves_process_mp3_download, sessions_apart. }
  assert (calls_since w (logged (Ok (CreateTaskAutoDelete 30)) w2) =
          (delivery_calls user_id v link path channel_name w ++ events
           ++ [Ok (CreateTaskAutoDelete 30)])%list) as Hcalls.
  { unfold calls_since. cbn [trace logged]. rewrite Htrace, Htrace1, <- !app_assoc.
    apply drop_app_length. }
  exists events.
  split; [done|].
  split; [unfold delivery_calls; by destruct (file_exists _ _)|].
  split.
  { rewrite Hsent. unfold promo_delivered. by rewrite Henv1, Hdb1. }
  split; [done|].
  rewrite Hcalls. apply Forall_app. split.
  - unfold delivery_calls. destruct (file_exists _ _); each_event done.
  - apply Forall_app. split; [done|each_event done].
Qed.


(** *** The access gate *)

Lemma access_gate_admin u w :
  u ∈ admin_user_ids w → access_gate u w = (Returned true, w).
Proof.
  intros Hadmin. unfold access_gate, is_admin, bind, read.
  by rewrite bool_decide_eq_true_2.
Qed.

(** The gate of a user who is not an admin, the database answering. *)
Lemma access_gate_other u w :
  u ∉ admin_user_ids w →
  fails (collaborators w) (Sqlite "get_setting") = false →
  (access_gate u w).1 = Returned true ↔
  match forced_channel w with
  | None => True
  | Some chat => passes_membership_check w chat u
  end.
Proof.
  intros Hother Hdb.
  unfold access_gate, is_admin, check_channel_membership, send_channel_join_message,
    forced_channel, passes_membership_check, sqlite_read, sqlite, try_except, bind, read,
    perform, log_error, ask, ret.
  rewrite bool_decide_eq_false_2 by done. cbn. rewrite Hdb. cbn.
  destruct (Db.get_setting "forced_channel" (db w)) as [chat|] eqn:Hset; cbn; [|done].
  destruct (String.eqb chat "") eqn:Hchat; cbn; [done|].
  destruct (fails (collaborators w) (GetChatMember chat u)); cbn; [by split; [left|]|].
  case_bool_decide as Hstatus; cbn; [by split; [right|]|].
  rewrite Hdb. cbn. rewrite Hset, Hchat. cbn.
  match goal with
  | |- context [fails (collaborators w) (ReplyText ?t ?m)] =>
      destruct (fails (collaborators w) (ReplyText t m))
  end; cbn; (split; [discriminate|intros [?|?]; done]).
Qed.

Lemma access_gate_database_fails u w :
  u ∉ admin_user_ids w →
  fails (collaborators w) (Sqlite "get_setting") = true →
  (access_gate u w).1 = Raised (External "get_setting").
Proof.
  intros Hother Hdb.
  unfold access_gate, is_admin, check_channel_membership, sqlite_read, sqlite, bind, read,
    perform.
  rewrite bool_decide_eq_false_2 by done. cbn. by rewrite Hdb.
Qed.

Lemma preserves_access_gate {X} (f : world → X) u : apart f → preserves f (access_gate u).
Proof.
  intros Hf.
  unfold access_gate, is_admin, check_channel_membership, send_channel_join_message,
    sqlite_read.
  preserved.
Qed.

Lemma access_gate_searches_nothing u :
  emits (fun ev => search_limit ev = None) (access_gate u).
Proof.
  unfold access_gate, is_admin, check_channel_membership, send_channel_join_message,
    sqlite_read, log_error.
  emitted done.
Qed.

Lemma search_limits_none events :
  Forall (fun ev => search_limit ev = None) events → search_limits events = [].
Proof.
  induction 1 as [|ev events Hev _ IH]; [done|].
  unfold search_limits in *. cbn. by rewrite Hev.
Qed.

(** C4. The gate lets a user through exactly when the user is an admin, or
    (the database answering the read of the setting) no forced channel is
    configured, or the user passes the membership check of the forced
    channel, which a user does whose status is member, administrator or
    creator, and also every user for whom the check itself raises. A user
    the gate does not let through has a message handled without a search
    and without a write to the sessions. *)
Theorem access_gate_admits (w : world) (user_id : Z) :
  ((access_gate user_id w).1 = Returned true ↔
     user_id ∈ admin_user_ids w
     ∨ (fails (collaborators w) (Sqlite "get_setting") = false ∧
        (forced_channel w = None
         ∨ ∃ chat, forced_channel w = Some chat
                   ∧ (fails (collaborators w) (GetChatMember chat user_id) = true
                      ∨ member_status (collaborators w) chat user_id ∈ member_statuses))))
  ∧ ((access_gate user_id w).1 ≠ Returned true →
     ∀ message,
       user_sessions (handle_text_message user_id message w).2 = user_sessions w
       ∧ search_limits (calls_since w (handle_text_message user_id message w).2) = []).
Proof.
  split.
  - destruct (decide (user_id ∈ admin_user_ids w)) as [Hadmin|Hother].
    { rewrite (access_gate_admin _ _ Hadmin). split; [by left|done]. }
    destruct (fails (collaborators w) (Sqlite "get_setting")) eqn:Hdb.
    { rewrite (access_gate_database_fails _ _ Hother Hdb).
      split; [done|]. intros [?|[? _]]; done. }
    rewrite (access_gate_other _ _ Hother Hdb).
    unfold passes_membership_check.
    destruct (forced_channel w) as [chat|].
    + split.
      * intros Hpass. right. split; [done|]. right. by exists chat.
      * intros [?|[_ [?|(chat' & [= <-] & Hpass)]]]; done.
    + split; [|done]. intros _. right. split; [done|by left].
  - intros Hout message.
    pose proof (preserves_access_gate user_sessions user_id sessions_apart w) as Hsessions.
    pose proof (emits_calls_since _ _ w (access_gate_searches_nothing user_id)) as Hcalls.
    unfold handle_text_message, bind.
    destruct (access_gate user_id w) as [[[]|e] w']; cbn in *; [done| |].
    all: split; [done|by apply search_limits_none].
Qed.


(** *** The promo *)

#[local] Arguments Db.add_promo : simpl never.
#[local] Arguments Db.delete_all_promos : simpl never.
#[local] Arguments PyStr.join : simpl never.

(** C7. When an admin replies /addpromo to a photo with a caption to show
    (and the two statements reach the database), the command deletes all
    promos and then inserts one, in this order; the table then has the new
    row alone, and [get_current_promo] returns the new record, whatever rows
    there were before and whatever their creation times, the one read from
    the clock included. *)
Theorem replace_promo_then_current (w : world) (user_id : Z) (args : list string)
    (replied_msg : replied_message) (photo_file_id : string) :
  let promo_caption :=
    match args with
    | [] => default "" (message_caption replied_msg)
    | _ => PyStr.join " " args
    end in
  let p := {| Db.file_id := photo_file_id; Db.caption := promo_caption;
              Db.created_at := now (collaborators w) |} in
  let w' := (addpromo_command user_id args (Some replied_msg) w).2 in
  user_id ∈ admin_user_ids w →
  list.last (photo replied_msg) = Some photo_file_id →
  promo_caption ≠ "" →
  fails (collaborators w) (Sqlite "delete_all_promos") = false →
  fails (collaborators w) (Sqlite "add_promo") = false →
  db w' = Db.add_promo p (Db.delete_all_promos (db w)).2
  ∧ Db.promos (db w') = [{| Db.promo_id := Db.promos_seq (db w) + 1; Db.promo := p |}]
  ∧ Db.get_current_promo (db w') = Some p
  ∧ (∃ ev, call_of ev = ReplyText (TxtPromoAdded promo_caption) None ∧
           calls_since w w' =
           [Ok (Sqlite "delete_all_promos"); Ok (Sqlite "add_promo"); ev])
  ∧ (∀ d q, Db.get_current_promo (Db.add_promo q (Db.delete_all_promos d).2) = Some q).
Proof.
  intros promo_caption p w' Hadmin Hphoto Hcaption Hdelete Hadd.
  assert (db w' = Db.add_promo p (Db.delete_all_promos (db w)).2
          ∧ ∃ ev, call_of ev = ReplyText (TxtPromoAdded promo_caption) None ∧
                  calls_since w w' =
                  [Ok (Sqlite "delete_all_promos"); Ok (Sqlite "add_promo"); ev])
    as [Hdb Hcalls].
  { subst w'.
    unfold addpromo_command, is_admin, sqlite_write, sqlite, bind, read.
    rewrite bool_decide_eq_true_2 by done. rewrite Hphoto.
    fold promo_caption. apply String.eqb_neq in Hcaption. rewrite Hcaption.
    rewrite (perform_returns _ _ _ Hdelete). cbn.
    destruct (Db.delete_all_promos (db w)) as [count d] eqn:Hdeleted. cbn.
    rewrite perform_returns by done. cbn.
    unfold calls_since.
    match goal with
    | |- context [perform ?what ?c ?w0] =>
        destruct (perform_cases what c w0) as [->| ->]
    end;
      cbn; (split; [done|]);
      eexists; (split; [|rewrite <- !app_assoc; apply drop_app_length]); done. }
  split; [done|].
  split; [by rewrite Hdb|].
  split; [rewrite Hdb; apply replace_promo_current|].
  split; [done|].
  intros d q. apply replace_promo_current.
Qed.

(** *** Sessions of other users *)

Lemma lookup_apart (other : Z) : apart (λ w, user_sessions w !! other).
Proof. by split. Qed.

Lemma preserves_set_session_other u other entry :
  other ≠ u → preserves (λ w, user_sessions w !! other) (set_session u entry).
Proof. intros Hne w. by apply set_session_other. Qed.

Lemma preserves_handle_url_download {X} (f : world → X) fmt u :
  apart f → preserves f (handle_url_download fmt u).
Proof.
  intros Hf.
  destruct fmt; simpl; unfold handle_url_mp3_download, handle_url_mp4_download;
    preserved;
    first [by apply preserves_process_mp3_download | by apply preserves_process_mp4_download].
Qed.

Lemma handle_search_other u other q :
  other ≠ u → preserves (λ w, user_sessions w !! other) (handle_search u q).
Proof.
  intros Hne. pose proof (lookup_apart other) as Hf.
  unfold handle_search, sqlite_write, youtube_search_videos.
  preserved; by apply preserves_set_session_other.
Qed.

Lemma handle_youtube_url_other u other link :
  other ≠ u → preserves (λ w, user_sessions w !! other) (handle_youtube_url u link).
Proof.
  intros Hne. pose proof (lookup_apart other) as Hf.
  unfold handle_youtube_url, sqlite_write, log_error.
  preserved; by apply preserves_set_session_other.
Qed.

(** X14. What a user does reaches the session of no other user: after a
    text message, a /search, a search from a lyrics result, a download from
    a result button or from a link button of one user, the entry of every
    other user is what it was, present or absent. *)
Theorem other_sessions_untouched (user_id other : Z) (w : world) :
  other ≠ user_id →
  (∀ message,
     user_sessions (handle_text_message user_id message w).2 !! other
     = user_sessions w !! other)
  ∧ (∀ args,
       user_sessions (search_command user_id args w).2 !! other
       = user_sessions w !! other)
  ∧ (∀ song_info,
       user_sessions (handle_lyrics_to_download user_id song_info w).2 !! other
       = user_sessions w !! other)
  ∧ (∀ fmt video_id i,
       user_sessions (handle_download fmt user_id video_id i w).2 !! other
       = user_sessions w !! other)
  ∧ (∀ fmt,
       user_sessions (handle_url_download fmt user_id w).2 !! other
       = user_sessions w !! other).
Proof.
  intros Hne. pose proof (lookup_apart other) as Hf.
  split; [|split; [|split; [|split]]].
  - intros message. revert w.
    change (preserves (λ w, user_sessions w !! other) (handle_text_message user_id message)).
    unfold handle_text_message.
    apply preserves_bind; [by apply preserves_access_gate|].
    intros [|]; [|apply preserves_ret]. cbv zeta.
    destruct (PyStr.startswith _ _); [apply preserves_ret|].
    destruct (is_youtube_url _);
      [by apply handle_youtube_url_other|by apply handle_search_other].
  - intros args. revert w.
    change (preserves (λ w, user_sessions w !! other) (search_command user_id args)).
    unfold search_command.
    apply preserves_bind; [by apply preserves_access_gate|].
    intros [|]; [|apply preserves_ret].
    destruct args; [by apply preserves_perform|by apply handle_search_other].
  - intros song_info. revert w.
    change (preserves (λ w, user_sessions w !! other)
              (handle_lyrics_to_download user_id song_info)).
    unfold handle_lyrics_to_download, youtube_search_videos, log_error.
    preserved; by apply preserves_set_session_other.
  - intros fmt video_id i.
    by apply (preserves_handle_download (λ w, user_sessions w !! other)).
  - intros fmt.
    by apply (preserves_handle_url_download (λ w, user_sessions w !! other)).
Qed.

(** *** Links *)

Lemma handle_youtube_url_searches_nothing u link :
  emits (λ ev, search_limit ev = None) (handle_youtube_url u link).
Proof.
  unfold handle_youtube_url, sqlite_write, log_error.
  emitted done.
Qed.

(** [handle_youtube_url] writes to the sessions only the target of the
    link, and only when the target has a channel to show. *)
Lemma handle_youtube_url_sessions u link w :
  user_sessions (handle_youtube_url u link w).2 = user_sessions w ∨
  ∃ v, video_info (collaborators w) link = Some v ∧ channel v ≠ None ∧
       user_sessions (handle_youtube_url u link w).2
       = <[u := UrlSession v link]> (user_sessions w).
Proof.
  unfold handle_youtube_url, sqlite_write, sqlite, log_error, try_except, bind,
    ask, perform, set_session, update, escape_markdown_value, ret, raise.
  cbn.
  destruct (fails (collaborators w) (Sqlite "update_user_activity")); cbn; [by left|].
  destruct (fails (collaborators w) (ReplyText TxtProcessingUrl None)); cbn; [by left|].
  destruct (video_info (collaborators w) link) as [v|] eqn:Hinfo; cbn.
  - destruct (channel v) as [chan|] eqn:Hchan; cbn.
    + right. exists v. split; [done|]. split; [congruence|].
      repeat (destruct (fails (collaborators w) _); cbn); done.
    + left. repeat (destruct (fails (collaborators w) _); cbn); done.
  - left. repeat (destruct (fails (collaborators w) _); cbn); done.
Qed.

(** X15. A message whose text, stripped, holds a YouTube link is never
    searched for: no call of the run is a search, whatever the gate and the
    collaborators do. If the run writes to the sessions, what it writes is
    the entry of the sender, with the target of the link, which has a
    channel, and the stripped text as the address to fetch. *)
Theorem link_message_is_not_searched (w : world) (user_id : Z) (message : string) :
  let link := PyStr.strip message in
  let w' := (handle_text_message user_id message w).2 in
  is_youtube_url link = true →
  search_limits (calls_since w w') = []
  ∧ (user_sessions w' = user_sessions w
     ∨ ∃ v, video_info (collaborators w) link = Some v ∧ channel v ≠ None
            ∧ user_sessions w' = <[user_id := UrlSession v link]> (user_sessions w)).
Proof.
  intros link w' Hlink. subst w'. split.
  - apply search_limits_none, emits_calls_since.
    unfold handle_text_message.
    apply emits_bind; [apply access_gate_searches_nothing|].
    intros [|]; [|apply emits_ret]. cbv zeta. fold link.
    destruct (PyStr.startswith "/" link); [apply emits_ret|].
    rewrite Hlink. apply handle_youtube_url_searches_nothing.
  - pose proof (preserves_access_gate user_sessions user_id sessions_apart w) as Hsessions.
    pose proof (preserves_access_gate collaborators user_id collaborators_apart w) as Henv.
    unfold handle_text_message, bind.
    destruct (access_gate user_id w) as [[[]|e] w1]; cbn [fst snd] in *;
      [|by left|by left].
    fold link. destruct (PyStr.startswith "/" link); [by left|].
    rewrite Hlink.
    destruct (handle_youtube_url_sessions user_id link w1) as [H|(v & Hinfo & Hchan & H)].
    + left. congruence.
    + right. exists v. rewrite <- Henv, <- Hsessions. done.
Qed.

(** *** The delivery of a video *)

Ltac mp4_run :=
  eexists _, _;
  split; [reflexivity|];
  split; [cbn [trace logged]; rewrite <- ?app_assoc; reflexivity|];
  split; [reflexivity|];
  cbn [app]; each_event done.

(** [process_mp4_download] raises, whatever its calls do. *)
Lemma process_mp4_download_run u v link w :
  ∃ e events,
    (process_mp4_download u v link w).1 = Raised (Wrapped "MP4 processing failed" e)
    ∧ trace (process_mp4_download u v link w).2 = (trace w ++ events)%list
    ∧ db (process_mp4_download u v link w).2 = db w
    ∧ Forall (λ ev, is_remove (call_of ev) = false ∧ photo_sent ev = None) events.
Proof.
  unfold process_mp4_download, try_except, bind, read, ask, perform, raise, ret,
    escape_markdown_value.
  cbn.
  destruct (downloaded_path _) as [path|]; cbn; [|mp4_run].
  destruct (fails (collaborators w) (GetSize path)); cbn; [mp4_run|].
  destruct (channel v) as [chan|]; cbn; [|mp4_run].
  destruct (fails (collaborators w) (EditText (TxtUploading mp4) None)); cbn; [mp4_run|].
  destruct (fails (collaborators w) (OpenFile path)); cbn; [mp4_run|].
  destruct (fails (collaborators w) (SendVideo _ _ _)); cbn; mp4_run.
Qed.

(** X16. [process_mp4_download] never returns: every run ends in the
    exception MP4 processing failed, records no download, removes no file
    and sends no promo. This holds for the run in which nothing fails, too:
    the video is sent, and then the title is read from the file the with
    statement bound to the name of the video, which raises TypeError. So a
    user who selects a candidate as MP4 and is sent the video is then told
    that the download failed, and the table of downloads stays as it was. *)
Theorem mp4_delivery_ends_in_failure (w : world) (user_id : Z) (v : video) (link : string) :
  let run := process_mp4_download user_id v link w in
  (∃ e, run.1 = Raised (Wrapped "MP4 processing failed" e))
  ∧ db run.2 = db w
  ∧ Forall (λ ev, is_remove (call_of ev) = false ∧ photo_sent ev = None)
           (calls_since w run.2)
  ∧ (∀ path channel_name video_id i,
       resolve_candidate (user_sessions w) user_id i = Selected v →
       downloaded_path (video_file (collaborators w) (url v) (temp_dir w)) = Some path →
       channel v = Some channel_name →
       (∀ c, fails (collaborators w) c = false) →
       let failure := Wrapped "MP4 processing failed" TypeError in
       let safe_title := escape_markdown (PyStr.slice_to 50 (title v)) in
       let w' := (handle_mp4_download user_id video_id i w).2 in
       calls_since w w' =
         [Ok (EditText (TxtProcessing mp4 safe_title) None);
          Ok (DownloadVideo (url v) (temp_dir w));
          Ok (GetSize path);
          Ok (EditText (TxtUploading mp4) None);
          Ok (OpenFile path);
          Ok (SendVideo user_id path
                (TxtCaption mp4 safe_title (escape_markdown channel_name)
                            (file_size (collaborators w) path)));
          Ok (LogError failure);
          Ok (EditText (TxtDownloadFailed failure) None)]
       ∧ db w' = db w).
Proof.
  intros run.
  destruct (process_mp4_download_run user_id v link w) as (e & events & Hraised & Htrace & Hdb & Hevents).
  split; [by exists e|].
  split; [done|].
  split.
  { unfold calls_since. subst run. by rewrite Htrace, drop_app_length. }
  intros path channel_name video_id i Hres Hpath Hchan Hquiet failure safe_title w'.
  subst w'.
  unfold handle_mp4_download, process_mp4_download, try_except, bind, read, ask, perform,
    raise, ret, log_error, escape_markdown_value, calls_since.
  rewrite Hres, Hchan. cbn.
  repeat (first [ rewrite Hpath
                | match goal with
                  | |- context [fails (collaborators w) ?c] => rewrite (Hquiet c)
                  end ]; cbn).
  split; [|done].
  rewrite <- !app_assoc. apply drop_app_length.
Qed.

(** *** Downloads from a link *)

(** A handler that reads a field, asks a first question and goes on makes
    that call first. *)
Lemma first_call_then {A B X} (P : event → Prop) (f : world → X) (c : X → call)
    (answer : X → env → A) (k : X → A → M B) (h : exception → M B) :
  (∀ x a, emits P (k x a)) → (∀ e, emits P (h e)) →
  ∀ w, ∃ new,
    trace (try_except (x <- read f;; a <- ask (c x) (answer x);; k x a) h w).2
    = (trace w ++ Ok (c (f w)) :: new)%list
    ∧ Forall P new.
Proof.
  intros Hk Hh w.
  destruct (emits_try_except P (k (f w) (answer (f w) (collaborators w))) h
              (Hk _ _) Hh (logged (Ok (c (f w))) w)) as (new & Htrace & Hnew).
  exists new. split; [|done].
  change (try_except (x <- read f;; a <- ask (c x) (answer x);; k x a) h w)
    with (try_except (k (f w) (answer (f w) (collaborators w))) h
            (logged (Ok (c (f w))) w)).
  rewrite Htrace. cbn [trace logged]. by rewrite <- app_assoc.
Qed.

Lemma download_targets_none events :
  Forall (λ ev, download_target (call_of ev) = None) events → download_targets events = [].
Proof.
  induction 1 as [|ev events Hev _ IH]; [done|].
  unfold download_targets in *. cbn. by rewrite Hev.
Qed.

Lemma download_targets_cons ev events :
  download_targets (ev :: events) =
  match download_target (call_of ev) with
  | Some target => target :: download_targets events
  | None => download_targets events
  end.
Proof. unfold download_targets. cbn. by destruct (download_target (call_of ev)). Qed.

Lemma process_download_calls fmt u v link w :
  ∃ new,
    trace (process_download fmt u v link w).2
    = (trace w ++ Ok (download_call fmt link (temp_dir w)) :: new)%list
    ∧ Forall (λ ev, download_target (call_of ev) = None) new.
Proof.
  destruct fmt; simpl; unfold process_mp3_download, process_mp4_download.
  - apply (first_call_then _ temp_dir (λ dir, DownloadAudio link dir)
             (λ dir e, audio_file e link dir)).
    + intros dir file.
      unfold sqlite_write, send_promotional_content, sqlite_read, log_error.
      emitted done.
    + intros e. apply emits_raise.
  - apply (first_call_then _ temp_dir (λ dir, DownloadVideo link dir)
             (λ dir e, video_file e link dir)).
    + intros dir file. emitted done.
    + intros e. apply emits_raise.
Qed.

Lemma handle_url_download_unfold fmt u w :
  handle_url_download fmt u w =
  match user_sessions w !! u with
  | None => perform "edit_message_text" (EditText TxtSessionExpiredUrl None) w
  | Some (SearchSession _ _) => (Raised (KeyError "url_video"), w)
  | Some (UrlSession v link) =>
      let notice := EditText (TxtProcessing fmt (escape_markdown (PyStr.slice_to 50 (title v))))
                             None in
      (perform "edit_message_text" notice;;
       try_except (process_download fmt u v link)
         (fun e => log_error e;;
                   perform "edit_text" (EditText (TxtDownloadFailed e) None)))%handler w
  end.
Proof.
  destruct fmt; simpl; unfold handle_url_mp3_download, handle_url_mp4_download, bind, read;
    destruct (user_sessions w !! u) as [[videos q|v link]|]; done.
Qed.

(** X17. The two buttons under a link. With no entry for the user the
    handler answers that the session expired and asks for the link again;
    with the candidates of a search stored, the lookup of the key url_video
    raises KeyError, which the handler does not catch, nothing having been
    done. With the target of a link stored, and the notice shown, the
    handler fetches one address, the text the user sent, not the address
    built for the video; without the notice it fetches nothing. *)
Theorem link_download_outcomes (fmt : media) (w : world) (user_id : Z) :
  (user_sessions w !! user_id = None →
     rejected_with TxtSessionExpiredUrl (handle_url_download fmt user_id) w)
  ∧ (∀ videos q,
       user_sessions w !! user_id = Some (SearchSession videos q) →
       aborted_with (KeyError "url_video") (handle_url_download fmt user_id) w)
  ∧ (∀ v link,
       user_sessions w !! user_id = Some (UrlSession v link) →
       let notice :=
         EditText (TxtProcessing fmt (escape_markdown (PyStr.slice_to 50 (title v)))) None in
       let calls := calls_since w (handle_url_download fmt user_id w).2 in
       (fails (collaborators w) notice = false →
          (∃ rest, calls = Ok notice :: Ok (download_call fmt link (temp_dir w)) :: rest)
          ∧ download_targets calls = [link])
       ∧ (fails (collaborators w) notice = true → calls = [Failed notice])).
Proof.
  split; [|split].
  - intros Hnone. unfold rejected_with.
    rewrite handle_url_download_unfold, Hnone. apply perform_rejects.
  - intros videos q Hentry. unfold aborted_with.
    by rewrite handle_url_download_unfold, Hentry.
  - intros v link Hentry notice calls. subst calls.
    rewrite handle_url_download_unfold, Hentry. cbv zeta. fold notice.
    split.
    + intros Hnotice.
      rewrite (bind_returned _ _ _ _ _ (perform_returns "edit_message_text" _ _ Hnotice)).
      set (w1 := logged (Ok notice) w).
      destruct (process_download_calls fmt user_id v link w1) as (new & Htrace & Hnew).
      unfold try_except.
      destruct (process_download fmt user_id v link w1) as [[[]|e] w2] eqn:Hrun;
        cbn [snd] in Htrace; cbn [fst snd].
      * split.
        -- exists new. unfold calls_since. rewrite Htrace. subst w1. cbn [trace logged].
           rewrite <- app_assoc. apply drop_app_length.
        -- unfold calls_since. rewrite Htrace. subst w1. cbn [trace logged temp_dir].
           rewrite <- app_assoc, drop_app_length.
           cbn [app].
           rewrite !download_targets_cons, (download_targets_none new Hnew).
           by destruct fmt.
      * assert (emits (λ ev, download_target (call_of ev) = None)
                  (log_error e;; perform "edit_text" (EditText (TxtDownloadFailed e) None))%handler)
          as Hhandler by (unfold log_error; emitted done).
        destruct (Hhandler w2) as (new' & Htrace' & Hnew').
        split.
        -- exists (new ++ new')%list. unfold calls_since.
           rewrite Htrace', Htrace. subst w1. cbn [trace logged].
           rewrite <- !app_assoc. apply drop_app_length.
        -- unfold calls_since. rewrite Htrace', Htrace. subst w1. cbn [trace logged temp_dir].
           rewrite <- !app_assoc, drop_app_length.
           assert (download_targets (new ++ new') = []) as Hnone
             by (apply download_targets_none, Forall_app; done).
           cbn [app].
           rewrite !download_targets_cons, Hnone.
           by destruct fmt.
    + intros Hnotice.
      rewrite (bind_raised _ _ _ _ _ (perform_raises "edit_message_text" _ _ Hnotice)).
      unfold calls_since. cbn [snd trace logged]. apply drop_app_length.
Qed.

(** *** Indices below zero *)

(** X18. The selection tests the index against the length of the list
    only from above. An index from 0 up to the length selects the candidate
    of that position; an index below zero, down to minus the length, selects
    the candidate counted from the end of the list, as Python does; an index
    further below raises IndexError, which the handler does not catch,
    nothing having been done. *)
Theorem selection_counts_from_the_end (fmt : media) (w : world) (user_id : Z)
    (video_id : string) (i : Z) (videos : list video) (q : string) :
  user_sessions w !! user_id = Some (SearchSession videos q) →
  let n := Z.of_nat (length videos) in
  ((0 ≤ i < n)%Z →
     ∃ v, videos !! Z.to_nat i = Some v
          ∧ resolve_candidate (user_sessions w) user_id i = Selected v)
  ∧ ((- n ≤ i < 0)%Z →
       ∃ v, videos !! Z.to_nat (n + i) = Some v
            ∧ resolve_candidate (user_sessions w) user_id i = Selected v)
  ∧ ((i < - n)%Z →
       resolve_candidate (user_sessions w) user_id i = Aborted IndexError
       ∧ aborted_with IndexError (handle_download fmt user_id video_id i) w).
Proof.
  intros Hentry n.
  assert (∀ j, resolve_candidate (user_sessions w) user_id j =
               if (n <=? j)%Z then InvalidSelection
               else match py_index videos j with
                    | Returned v => Selected v
                    | Raised e => Aborted e
                    end) as Hresolve.
  { intros j. unfold resolve_candidate. by rewrite Hentry. }
  split; [|split].
  - intros [Hlow Hhigh].
    destruct (lookup_lt_is_Some_2 videos (Z.to_nat i)) as [v Hv]; [lia|].
    exists v. split; [done|].
    rewrite <- (Z2Nat.id i) by done.
    by apply (resolve_in_range _ _ _ _ _ _ Hentry).
  - intros [Hlow Hhigh].
    destruct (lookup_lt_is_Some_2 videos (Z.to_nat (n + i))) as [v Hv]; [lia|].
    exists v. split; [done|].
    rewrite Hresolve.
    destruct (Z.leb_spec n i) as [?|_]; [lia|].
    unfold py_index. fold n.
    destruct (Z.ltb_spec i 0) as [_|?]; [|lia].
    destruct (Z.ltb_spec (i + n) 0) as [?|_]; [lia|].
    replace (i + n)%Z with (n + i)%Z by lia. by rewrite Hv.
  - intros Hbelow.
    assert (resolve_candidate (user_sessions w) user_id i = Aborted IndexError) as Hres.
    { rewrite Hresolve.
      destruct (Z.leb_spec n i) as [?|_]; [lia|].
      unfold py_index. fold n.
      destruct (Z.ltb_spec i 0) as [_|?]; [|lia].
      destruct (Z.ltb_spec (i + n) 0) as [_|?]; [done|lia]. }
    split; [done|].
    unfold aborted_with. by rewrite handle_download_unfold, Hres.
Qed.

(** *** Commands of the admins *)

(** X19. /delpromo of an admin, the database answering. With a promo in
    the table, the command empties the table and says so: no promo is
    current afterwards and no download is followed by one, and the users,
    the downloads and the settings are what they were. With an empty table
    it answers that there is no promo and changes nothing. *)
Theorem delpromo_command_clears (w : world) (user_id : Z) :
  let w' := (delpromo_command user_id w).2 in
  user_id ∈ admin_user_ids w →
  fails (collaborators w) (Sqlite "get_current_promo") = false →
  fails (collaborators w) (Sqlite "delete_all_promos") = false →
  (Db.promos (db w) ≠ [] →
     Db.promos (db w') = []
     ∧ Db.get_current_promo (db w') = None
     ∧ (∀ u, promo_delivered u w' = [])
     ∧ Db.users (db w') = Db.users (db w)
     ∧ Db.downloads (db w') = Db.downloads (db w)
     ∧ Db.bot_settings (db w') = Db.bot_settings (db w)
     ∧ ∃ ev, call_of ev = ReplyText TxtPromoRemoved None
             ∧ calls_since w w' =
               [Ok (Sqlite "get_current_promo"); Ok (Sqlite "delete_all_promos"); ev])
  ∧ (Db.promos (db w) = [] →
       db w' = db w
       ∧ ∃ ev, call_of ev = ReplyText TxtNoPromo None
               ∧ calls_since w w' = [Ok (Sqlite "get_current_promo"); ev]).
Proof.
  intros w' Hadmin Hread Hdelete. subst w'.
  unfold delpromo_command, is_admin, sqlite_read, sqlite, bind, read.
  rewrite bool_decide_eq_true_2 by done.
  rewrite (perform_returns _ _ _ Hread). cbn.
  destruct (Db.get_current_promo (db w)) as [p|] eqn:Hcurrent.
  - split.
    2: { intros Hnone. unfold Db.get_current_promo in Hcurrent. by rewrite Hnone in Hcurrent. }
    intros _. rewrite perform_returns by done.
    unfold Db.delete_all_promos, calls_since, promo_delivered, Db.get_current_promo. cbn.
    match goal with
    | |- context [perform ?what ?c ?w0] =>
        destruct (perform_cases what c w0) as [->| ->]
    end;
      cbn; repeat (split; [done|]);
      eexists; (split; [|rewrite <- !app_assoc; apply drop_app_length]); done.
  - split.
    { intros Hsome. unfold Db.get_current_promo in Hcurrent.
      by destruct (Db.promos (db w)). }
    intros _. unfold calls_since.
    match goal with
    | |- context [perform ?what ?c ?w0] =>
        destruct (perform_cases what c w0) as [->| ->]
    end;
      cbn; (split; [done|]);
      eexists; (split; [|rewrite <- !app_assoc; apply drop_app_length]); done.
Qed.

(** X20. A user who is not an admin changes nothing with /addpromo,
    /delpromo or /users, whatever the arguments and the message replied to:
    the one call of the command is its refusal, and the database is not
    opened. *)
Theorem admin_commands_refuse_others (w : world) (user_id : Z) :
  user_id ∉ admin_user_ids w →
  (∀ args reply_to_message,
     refused_with TxtAdminOnly (addpromo_command user_id args reply_to_message) w)
  ∧ refused_with TxtAdminOnly (delpromo_command user_id) w
  ∧ refused_with TxtNoPermission (users_command user_id) w.
Proof.
  intros Hother.
  assert (∀ t, refused_with t (perform "reply_text" (ReplyText t None)) w) as Hrefuse.
  { intros t. destruct (perform_cases "reply_text" (ReplyText t None) w) as [H|H];
      [by left|right; eauto]. }
  split; [|split]; [intros args reply_to_message| |];
    unfold refused_with, addpromo_command, delpromo_command, users_command, is_admin,
      bind, read;
    rewrite bool_decide_eq_false_2 by done; apply Hrefuse.
Qed.

(** *** A candidate without a channel *)

(** X21. A candidate whose channel is None, as a search result has it when
    yt-dlp holds no uploader, is fetched and then not delivered: escaping
    the channel raises AttributeError after the size of the file was read.
    The file is neither sent nor removed, and no download is recorded. *)
Theorem delivery_without_channel (w : world) (user_id : Z) (v : video)
    (link path : string) :
  channel v = None →
  downloaded_path (audio_file (collaborators w) link (temp_dir w)) = Some path →
  fails (collaborators w) (GetSize path) = false →
  let run := process_mp3_download user_id v link w in
  run.1 = Raised (Wrapped "MP3 processing failed" AttributeError)
  ∧ calls_since w run.2 = [Ok (DownloadAudio link (temp_dir w)); Ok (GetSize path)]
  ∧ db run.2 = db w.
Proof.
  intros Hchan Hpath Hsize run. subst run.
  unfold process_mp3_download, try_except, bind, read, ask, raise, perform,
    escape_markdown_value, calls_since.
  cbn. rewrite Hpath. cbn. rewrite Hsize. cbn. rewrite Hchan. cbn.
  split; [done|]. split; [|done].
  rewrite <- !app_assoc. apply drop_app_length.
Qed.

End Runs.


(* ===================================================================== *)
(** ** The properties at concrete inputs *)
(* ===================================================================== *)

Section Instances.
Import Py Bot Observe Examples.

(** [selection_failures] at three worlds: no entry, an index past the one
    candidate, a link entry. *)
Lemma selection_failures_witness :
  rejected_with TxtSessionExpired (handle_mp3_download 42 "kJQP7kiw5Fk" 0) fresh_bot
  ∧ rejected_with TxtInvalidSelection (handle_mp4_download 42 "kJQP7kiw5Fk" 1) after_search
  ∧ aborted_with (KeyError "search_results") (handle_mp3_download 42 "kJQP7kiw5Fk" 0) after_link.
Proof.
  split; [|split].
  - apply (selection_failures mp3 fresh_bot 42 "kJQP7kiw5Fk" 0). reflexivity.
  - apply (proj1 (proj2 (selection_failures mp4 after_search 42 "kJQP7kiw5Fk" 1))
             [despacito] "despacito"); [reflexivity|simpl; lia].
  - apply (proj2 (proj2 (selection_failures mp3 after_link 42 "kJQP7kiw5Fk" 0))
             despacito "https://youtu.be/kJQP7kiw5Fk"). reflexivity.
Defined.

(** C1, as stated, fails twice. With a link entry stored, the handler does
    not answer that the selection is invalid: it raises. With the index -1
    and one stored candidate, it neither answers so nor stays idle: Python
    counts -1 from the end of the list, and the download starts. *)
Lemma selection_counterexample :
  ¬ rejected_with TxtInvalidSelection (handle_mp3_download 42 "kJQP7kiw5Fk" 0) after_link
  ∧ ¬ rejected_with TxtInvalidSelection (handle_mp3_download 42 "kJQP7kiw5Fk" (-1)) after_search
  ∧ ¬ no_download_started (handle_mp3_download 42 "kJQP7kiw5Fk" (-1)) after_search.
Proof.
  split; [|split].
  - intros [H|[e H]];
      apply (f_equal (fun r => length (trace r.2))) in H; vm_compute in H; discriminate.
  - intros [H|[e H]];
      apply (f_equal (fun r => length (trace r.2))) in H; vm_compute in H; discriminate.
  - unfold no_download_started. vm_compute. discriminate.
Qed.


(** [session_last_write_wins]: user 42 holds one candidate, searches again
    and finds the video of [one_entry_run]. *)
Lemma session_last_write_wins_witness :
  resolve_candidate
    (user_sessions
       (handle_search 42 "despacito"
          (with_env quiet (handle_search 42 "shape of you" fresh_bot).2)).2)
    42 0
  = Selected despacito.
Proof.
  apply (session_last_write_wins fresh_bot 42
           (SearchSession [] "a") (UrlSession despacito "b")
           quiet "shape of you" "despacito" despacito []);
    reflexivity.
Defined.

(** [delivery_then_promo]: the delivery to user 42 succeeds, a promo is
    current, and Telegram refuses its photo. *)
Lemma delivery_then_promo_witness :
  (process_mp3_download 42 despacito (url despacito)
     (with_env photo_refused stocked_bot)).1 = Returned tt
  ∧ Db.downloads (db (process_mp3_download 42 despacito (url despacito)
                        (with_env photo_refused stocked_bot)).2)
    = [{| Db.download_id := 1; Db.user_id := 42;
          Db.song_title := "Luis Fonsi - Despacito ft. Daddy Yankee";
          Db.format := "mp3"; Db.effect := None;
          Db.downloaded_at := "2024-05-01 10:00:00" |}].
Proof.
  pose proof (delivery_then_promo (with_env photo_refused stocked_bot) 42 despacito
                (url despacito) "temp/Despacito.m4a" "LuisFonsiVEVO") as H.
  cbv zeta in H.
  destruct H as (Hreturned & Hrecord & _).
  - reflexivity.
  - reflexivity.
  - intros c Hc. destruct c; try discriminate Hc. exact Hc.
  - split; [exact Hreturned|]. rewrite Hrecord. reflexivity.
Defined.

(** [access_gate_admits]: a forced channel is set and user 42 has left it;
    the primary admin passes all the same. *)
Lemma access_gate_admits_witness :
  (access_gate 42 (with_env not_a_member stocked_bot)).1 ≠ Returned true
  ∧ (access_gate 7176592290 (with_env not_a_member stocked_bot)).1 = Returned true.
Proof.
  split.
  - intros H.
    apply (proj1 (access_gate_admits (with_env not_a_member stocked_bot) 42)) in H.
    destruct H as [H|[_ [H|(chat & Hchat & [H|H])]]].
    + apply list_elem_of_singleton in H. discriminate H.
    + discriminate H.
    + discriminate H.
    + injection Hchat as <-.
      apply (bool_decide_eq_false_1 ("left" ∈ member_statuses)); [reflexivity|exact H].
  - apply (proj1 (access_gate_admits (with_env not_a_member stocked_bot) 7176592290)).
    left. by apply list_elem_of_singleton.
Defined.

(** [empty_search_leaves_session]: user 42 holds one candidate and searches
    for something YouTube does not find. *)
Lemma empty_search_leaves_session_witness :
  user_sessions (handle_search 42 "zzzz" (with_env nothing_found after_search)).2
  = user_sessions (with_env nothing_found after_search).
Proof.
  apply (empty_search_leaves_session (with_env nothing_found after_search) 42 "zzzz").
  reflexivity.
Defined.

(** [candidate_limits]: a search that finds one video renders it with its
    two actions. *)
Lemma candidate_limits_witness :
  actions_on 0 (search_keyboard "despacito" [despacito])
  = [CbDownloadMp3 "kJQP7kiw5Fk" 0; CbDownloadMp4 "kJQP7kiw5Fk" 0].
Proof.
  pose proof (candidate_limits fresh_bot 42 "despacito") as H.
  cbv zeta in H.
  destruct H as (_ & _ & _ & _ & _ & _ & H).
  exact (H 0%Z).
Defined.

(** [replace_promo_then_current]: the primary admin replaces a promo whose
    creation time lies after the clock. *)
Lemma replace_promo_then_current_witness :
  Db.get_current_promo
    (db (addpromo_command 7176592290 ["Summer"; "sale"] (Some banner) stocked_bot).2)
  = Some {| Db.file_id := "AgACAgUAAxkBAAIC-large"; Db.caption := "Summer sale";
            Db.created_at := "2024-05-01T10:00:00.000000" |}.
Proof.
  pose proof (replace_promo_then_current stocked_bot 7176592290 ["Summer"; "sale"]
                banner "AgACAgUAAxkBAAIC-large") as H.
  cbv zeta in H.
  destruct H as (_ & _ & H & _).
  - by apply list_elem_of_singleton.
  - reflexivity.
  - discriminate.
  - reflexivity.
  - reflexivity.
  - exact H.
Defined.

(** [failed_fetch_keeps_session]: user 42 selects the one candidate and the
    download gives no file. *)
Lemma failed_fetch_keeps_session_witness :
  user_sessions (handle_mp3_download 42 "kJQP7kiw5Fk" 0
                   (with_env fetch_fails after_search)).2
  = user_sessions (with_env fetch_fails after_search)
  ∧ resolve_candidate
      (user_sessions (handle_mp3_download 42 "kJQP7kiw5Fk" 0
                        (with_env fetch_fails after_search)).2) 42 0
    = Selected despacito.
Proof.
  pose proof (failed_fetch_keeps_session (with_env fetch_fails after_search) 42
                "kJQP7kiw5Fk" 0 despacito) as H.
  cbv zeta in H.
  destruct H as (_ & Hsessions & _ & Hagain & _).
  - reflexivity.
  - reflexivity.
  - reflexivity.
  - split; [exact Hsessions|exact Hagain].
Defined.

End Instances.

(* ===================================================================== *)
(** ** More of database.py *)
(* ===================================================================== *)

Section Settings.
Import Db.

(** X1. A setting written is the setting read, a later write of the key
    replaces it, a deleted key reads as absent, and neither a write nor a
    delete touches another key. *)
Theorem setting_round_trip (key key' value value' : string) (d : Database) :
  get_setting key' (set_setting key value d)
    = (if decide (key = key') then Some value else get_setting key' d)
  ∧ get_setting key' (delete_bot_setting key d)
    = (if decide (key = key') then None else get_setting key' d)
  ∧ get_setting key (set_setting key value' (set_setting key value d)) = Some value'
  ∧ bot_settings (set_setting key value' (set_setting key value d))
    = bot_settings (set_setting key value' d)
  ∧ bot_settings (delete_bot_setting key (set_setting key value d))
    = bot_settings (delete_bot_setting key d).
Proof.
  unfold get_setting, set_setting, delete_bot_setting; simpl.
  split; [apply lookup_insert|].
  split; [apply lookup_delete|].
  split; [apply lookup_insert_eq|].
  split; [apply insert_insert_eq|apply delete_insert_eq].
Qed.

End Settings.

Section Users.
Import Db.

Lemma elem_of_get_all_users uid d :
  uid ∈ get_all_users d ↔ ∃ r, users d !! uid = Some r ∧ active r.
Proof.
  unfold get_all_users. rewrite list_elem_of_fmap. split.
  - intros ([k r] & -> & Hin). apply elem_of_map_to_list in Hin.
    apply map_lookup_filter_Some in Hin as [Hr Hactive]. by exists r.
  - intros (r & Hr & Hactive). exists (uid, r). split; [done|].
    apply elem_of_map_to_list, map_lookup_filter_Some. done.
Qed.

(** X2. [add_user] stores for the id a row that is active and joined at
    the time of the call, whatever row the id had before (a known user who
    is added again is made active and given a new join time); the total
    count grows by one exactly when the id is new; the rows of the other
    ids, the downloads, the settings and the promos stay. *)
Theorem add_user_registers (uid : Z) (uname fname lname : option string)
    (now ts : string) (d : Database) :
  let d' := add_user uid uname fname lname now ts d in
  users d' !! uid = Some {| username := uname; first_name := fname; last_name := lname;
                            joined_at := ts; last_active := now; is_active := Some 1%Z |}
  ∧ uid ∈ get_all_users d'
  ∧ (get_user_count d').1 = (match users d !! uid with
                             | Some _ => (get_user_count d).1
                             | None => S (get_user_count d).1
                             end)
  ∧ (∀ other, other ≠ uid → users d' !! other = users d !! other)
  ∧ downloads d' = downloads d ∧ bot_settings d' = bot_settings d ∧ promos d' = promos d.
Proof.
  intros d'. subst d'. unfold add_user, get_user_count; simpl.
  split; [apply lookup_insert_eq|].
  split.
  { apply elem_of_get_all_users. eexists. split; [apply lookup_insert_eq|done]. }
  split.
  { destruct (users d !! uid) as [r|] eqn:Hr.
    - apply map_size_insert_Some. by rewrite Hr.
    - by apply map_size_insert_None. }
  split; [|done].
  intros other Hne. by apply lookup_insert_ne.
Qed.


End Users.

Section Promos.
Import Db.

(** The order of [created_at]: the bytes of the two texts, compared from
    the left. *)
Lemma string_leb_trans (a b c : string) :
  String.leb a b = true → String.leb b c = true → String.leb a c = true.
Proof.
  unfold String.leb. revert b c.
  induction a as [|x a IH]; intros [|y b] [|z c]; simpl; try done.
  unfold Ascii.compare.
  destruct (N.compare_spec (N_of_ascii x) (N_of_ascii y)) as [Hxy|Hxy|Hxy];
    destruct (N.compare_spec (N_of_ascii y) (N_of_ascii z)) as [Hyz|Hyz|Hyz];
    destruct (N.compare_spec (N_of_ascii x) (N_of_ascii z)) as [Hxz|Hxz|Hxz];
    try done; try lia.
  apply IH.
Qed.

Lemma string_ltb_leb (a b : string) : String.ltb a b = true → String.leb a b = true.
Proof. unfold String.ltb, String.leb. by destruct (String.compare a b). Qed.

Lemma string_not_ltb_leb (a b : string) : String.ltb a b = false → String.leb b a = true.
Proof.
  unfold String.ltb, String.leb. rewrite (String.compare_antisym a b).
  by destruct (String.compare b a).
Qed.

Lemma string_leb_refl (a : string) : String.leb a a = true.
Proof. destruct (String.leb_total a a); done. Qed.

(** The row [latest] picks is one of the rows, and none was created after
    it. *)
Lemma latest_is_maximal rows : ∀ best,
  latest best rows ∈ best :: rows
  ∧ ∀ r, r ∈ best :: rows →
         String.leb (created_at (promo r)) (created_at (promo (latest best rows))) = true.
Proof.
  induction rows as [|x rows IH]; intros best; simpl.
  - split; [by left|]. intros r Hr. apply list_elem_of_singleton in Hr as ->.
    apply string_leb_refl.
  - destruct (String.ltb (created_at (promo best)) (created_at (promo x))) eqn:Hlt.
    + destruct (IH x) as [Hin Hmax]. split.
      * apply elem_of_cons. right. done.
      * intros r Hr. apply elem_of_cons in Hr as [->|Hr]; [|by apply Hmax].
        eapply string_leb_trans; [by apply string_ltb_leb|].
        apply Hmax. by left.
    + destruct (IH best) as [Hin Hmax]. split.
      * apply elem_of_cons in Hin as [Hin|Hin]; [rewrite Hin; by left|].
        apply elem_of_cons. right. apply elem_of_cons. by right.
      * intros r Hr. apply elem_of_cons in Hr as [->|Hr]; [apply Hmax; by left|].
        apply elem_of_cons in Hr as [->|Hr].
        -- eapply string_leb_trans; [by apply string_not_ltb_leb|]. apply Hmax. by left.
        -- apply Hmax. apply elem_of_cons. by right.
Qed.

(** X4. [get_current_promo] gives nothing exactly when the table is empty;
    what it gives is the record of one of the rows, and no row of the table
    has a creation time after it in the order of the texts. *)
Theorem get_current_promo_is_latest (d : Database) :
  (get_current_promo d = None ↔ promos d = [])
  ∧ ∀ p, get_current_promo d = Some p →
         (∃ r, r ∈ promos d ∧ promo r = p)
         ∧ ∀ r, r ∈ promos d → String.leb (created_at (promo r)) (created_at p) = true.
Proof.
  unfold get_current_promo. destruct (promos d) as [|best rows]; [by split|].
  split; [by split|].
  intros p [= <-]. destruct (latest_is_maximal rows best) as [Hin Hmax].
  split; [by eexists|done].
Qed.

Lemma filter_keeps_all {A} (P : A → Prop) `{∀ x, Decision (P x)} (l : list A) :
  Forall P l → filter P l = l.
Proof.
  induction 1 as [|x l Hx _ IH]; [done|].
  rewrite filter_cons_True by done. by rewrite IH.
Qed.

Lemma NoDup_fmap_filter {A B} (f : A → B) (P : A → Prop) `{∀ x, Decision (P x)}
    (l : list A) :
  NoDup (f <$> l) → NoDup (f <$> filter P l).
Proof.
  induction l as [|x l IH]; [done|]. simpl.
  intros [Hx Hl]%list.NoDup_cons.
  destruct (decide (P x)) as [HP|HP].
  - rewrite filter_cons_True by done. simpl. apply list.NoDup_cons. split; [|by apply IH].
    intros (y & Hy & Hin)%list_elem_of_fmap. apply list_elem_of_filter in Hin as [_ Hin].
    apply Hx. rewrite Hy. by apply list_elem_of_fmap_2.
  - rewrite filter_cons_False by done. by apply IH.
Qed.

(** The rows with distinct ids, less the rows with the id of one of them,
    are one row fewer. *)
Lemma without_promo_length rows r :
  NoDup (promo_id <$> rows) → r ∈ rows →
  S (length (without_promo (promo_id r) rows)) = length rows.
Proof.
  unfold without_promo.
  induction rows as [|x rows IH]; intros Hnodup Hin; [by apply not_elem_of_nil in Hin|].
  simpl in Hnodup. apply list.NoDup_cons in Hnodup as [Hx Hnodup].
  apply elem_of_cons in Hin as [->|Hin].
  - rewrite filter_cons_False by (intros H; by apply H). simpl. f_equal.
    assert (filter (fun r => promo_id r ≠ promo_id x) rows = rows) as ->; [|done].
    apply filter_keeps_all, list.Forall_forall. intros y Hy Heq.
    apply Hx. rewrite <- Heq. by apply (list_elem_of_fmap_2 promo_id).
  - rewrite filter_cons_True.
    + simpl. f_equal. by apply IH.
    + intros Heq. apply Hx. rewrite Heq. by apply (list_elem_of_fmap_2 promo_id).
Qed.

Lemma delete_latest_promo_shape d :
  (delete_latest_promo d).2 = d
  ∨ ∃ target,
      (delete_latest_promo d).2 =
      {| users := users d; downloads := downloads d; downloads_seq := downloads_seq d;
         bot_settings := bot_settings d;
         promos := without_promo target (promos d); promos_seq := promos_seq d |}.
Proof.
  unfold delete_latest_promo. destruct (promos d) as [|r rest] eqn:Hrows; [by left|].
  right. exists (promo_id (latest r rest)). done.
Qed.

(** X5. The ids of the promos and of the downloads are distinct and within
    the counter of their table in the fresh database, and every operation of
    the class keeps them so. *)
Theorem well_formed_kept :
  well_formed init_database
  ∧ ∀ d, well_formed d →
      (∀ uid uname fname lname now ts, well_formed (add_user uid uname fname lname now ts d))
      ∧ (∀ uid now, well_formed (update_user_activity uid now d))
      ∧ (∀ uid title fmt eff ts, well_formed (add_download uid title fmt eff ts d))
      ∧ (∀ key value, well_formed (set_setting key value d))
      ∧ (∀ key, well_formed (delete_bot_setting key d))
      ∧ (∀ p, well_formed (add_promo p d))
      ∧ well_formed (delete_latest_promo d).2
      ∧ well_formed (delete_all_promos d).2.
Proof.
  split.
  { repeat split; simpl; by constructor. }
  intros d (Hp & Hpb & Hd & Hdb).
  assert (∀ {A} (f : A → Z) (rows : list A) (seq : Z) (x : A),
            NoDup (f <$> rows) → Forall (fun r => (f r <= seq)%Z) rows →
            f x = (seq + 1)%Z →
            NoDup (f <$> (rows ++ [x])%list)
            ∧ Forall (fun r => (f r <= seq + 1)%Z) (rows ++ [x])%list)
    as Happend.
  { intros A f rows seq x Hnodup Hbound Hx. split.
    - rewrite fmap_app. apply list.NoDup_app. split; [done|]. split; [|apply list.NoDup_singleton].
      intros i Hi Hi'. apply list_elem_of_singleton in Hi'. subst i.
      apply list_elem_of_fmap in Hi as (r & Hr & Hin).
      rewrite list.Forall_forall in Hbound. specialize (Hbound r Hin). lia.
    - apply Forall_app. split; [|apply Forall_singleton; lia].
      eapply list.Forall_impl; [exact Hbound|]. intros r Hr. simpl in Hr. lia. }
  split; [done|]. split; [done|].
  split.
  { intros uid title fmt eff ts.
    destruct (Happend _ download_id (downloads d) (downloads_seq d)
                {| download_id := downloads_seq d + 1; user_id := uid; song_title := title;
                   format := fmt; effect := eff; downloaded_at := ts |} Hd Hdb eq_refl).
    by repeat split. }
  split; [done|]. split; [done|].
  split.
  { intros p.
    destruct (Happend _ promo_id (promos d) (promos_seq d)
                {| promo_id := promos_seq d + 1; promo := p |} Hp Hpb eq_refl).
    by repeat split. }
  split.
  { destruct (delete_latest_promo_shape d) as [->|[target ->]]; [done|].
    repeat split; simpl; try done.
    - unfold without_promo. by apply NoDup_fmap_filter.
    - unfold without_promo. apply list.Forall_forall.
      intros x [_ Hx]%list_elem_of_filter. rewrite list.Forall_forall in Hpb. by apply Hpb. }
  repeat split; simpl; try done; by constructor.
Qed.

(** X6. [delete_latest_promo] on an empty table answers False and changes
    nothing. On a table whose ids are distinct it answers True and removes
    one row and no other: the row whose record [get_current_promo] gave. *)
Theorem delete_latest_promo_removes_current (d : Database) :
  (promos d = [] → delete_latest_promo d = (false, d))
  ∧ (NoDup (promo_id <$> promos d) → promos d ≠ [] →
     ∃ r, r ∈ promos d
          ∧ get_current_promo d = Some (promo r)
          ∧ (delete_latest_promo d).1 = true
          ∧ (r ∉ promos (delete_latest_promo d).2)
          ∧ (∀ x, x ∈ promos (delete_latest_promo d).2 ↔ x ∈ promos d ∧ x ≠ r)
          ∧ S (length (promos (delete_latest_promo d).2)) = length (promos d)
          ∧ users (delete_latest_promo d).2 = users d
          ∧ downloads (delete_latest_promo d).2 = downloads d
          ∧ bot_settings (delete_latest_promo d).2 = bot_settings d).
Proof.
  unfold delete_latest_promo, get_current_promo. split.
  { by intros ->. }
  intros Hnodup Hsome. destruct (promos d) as [|best rows] eqn:Hrows; [done|]. simpl.
  destruct (latest_is_maximal rows best) as [Hin _].
  set (r := latest best rows) in *.
  assert (∀ x, x ∈ best :: rows → promo_id x = promo_id r → x = r) as Hid.
  { intros x Hx Heq.
    apply list_elem_of_lookup in Hx as [i Hi]. apply list_elem_of_lookup in Hin as [j Hj].
    assert (i = j) as ->; [|congruence].
    eapply NoDup_lookup; [exact Hnodup| |];
      rewrite list_lookup_fmap; [by rewrite Hi|by rewrite Hj, Heq]. }
  exists r. split; [done|]. split; [done|]. split; [done|].
  split.
  { unfold without_promo. rewrite list_elem_of_filter. intros [Hne _]. by apply Hne. }
  split.
  { intros x. unfold without_promo. rewrite list_elem_of_filter. split.
    - intros [Hne Hx]. split; [done|]. intros ->. by apply Hne.
    - intros [Hx Hne]. split; [|done]. intros Heq. apply Hne. by apply Hid. }
  split; [by apply without_promo_length|done].
Qed.

End Promos.

Section Statistics.
Import Db.

(** The count the dict holds for a key is the number of the rows with the
    key; a key of no row is not in the dict. *)
Lemma count_by_lookup {A} (key : A → option string) (rows : list A) (k : string) :
  count_by key rows !! k =
  match length (filter (fun r => key r = Some k) rows) with
  | O => None
  | n => Some n
  end.
Proof.
  induction rows as [|r rows IH]; simpl; [done|].
  destruct (key r) as [k'|] eqn:Hkey.
  - destruct (decide (k' = k)) as [->|Hne].
    + rewrite lookup_insert_eq, filter_cons_True by done. simpl.
      rewrite IH. by destruct (length _).
    + rewrite lookup_insert_ne, filter_cons_False by congruence. done.
  - rewrite filter_cons_False by congruence. done.
Qed.

Lemma count_by_default {A} (key : A → option string) (rows : list A) (k : string) :
  default 0%nat (count_by key rows !! k) = length (filter (fun r => key r = Some k) rows).
Proof. rewrite count_by_lookup. by destruct (length _). Qed.

(** X7. [get_download_stats] after [add_download]: the total is one more;
    the count the dict of the formats gives for the format of the download
    is one more (read with the default 0, as [stats_command] reads mp3) and
    the count of every other format is what it was; the same holds of the
    effects for a download that has one, while a download without effect
    changes no count of the effects; and the count of today is one more
    exactly when the time stored with the row has the date of today. *)
Theorem download_stats_after_add (date : string → option string) (date_now : option string)
    (uid : Z) (title fmt : string) (eff : option string) (ts : string) (d : Database) :
  let before := get_download_stats date date_now d in
  let after := get_download_stats date date_now (add_download uid title fmt eff ts d) in
  total after = S (total before)
  ∧ (∀ f, default 0%nat (formats after !! f)
          = (default 0%nat (formats before !! f) + if decide (fmt = f) then 1 else 0)%nat)
  ∧ (∀ e, default 0%nat (effects after !! e)
          = (default 0%nat (effects before !! e) + if decide (eff = Some e) then 1 else 0)%nat)
  ∧ today after
    = (today before + if decide (is_Some (date ts) ∧ date ts = date_now) then 1 else 0)%nat
  ∧ (∀ f, default 0%nat (formats before !! f)
          = length (filter (fun r => format r = f) (downloads d)))
  ∧ (today before ≤ total before)%nat.
Proof.
  intros before after. subst before after. unfold get_download_stats, add_download; simpl.
  split; [rewrite length_app; simpl; lia|].
  split.
  { intros f. rewrite !count_by_default, list.filter_app, length_app. f_equal.
    simpl. case_decide as Heq.
    - subst f. by rewrite filter_cons_True.
    - rewrite filter_cons_False; [done|]. simpl. congruence. }
  split.
  { intros e. rewrite !count_by_default, list.filter_app, length_app. f_equal.
    simpl. case_decide as Heq.
    - by rewrite filter_cons_True.
    - by rewrite filter_cons_False. }
  split.
  { rewrite list.filter_app, length_app. f_equal.
    case_decide as Heq.
    - by rewrite filter_cons_True.
    - by rewrite filter_cons_False. }
  split.
  { intros f. rewrite count_by_default. f_equal.
    apply list_filter_iff. intros r. split; congruence. }
  apply length_filter.
Qed.

End Statistics.

(* ===================================================================== *)
(** ** More of youtube_service.py *)
(* ===================================================================== *)

Section Downloads.
Import Py YouTube.

Lemma take_drop (n : nat) (p : string) : OsPath.take n p ++ OsPath.drop n p = p.
Proof.
  revert p. induction n as [|n IH]; intros [|c rest]; simpl; try done.
  change (String c (OsPath.take n rest ++ OsPath.drop n rest) = String c rest).
  f_equal. apply IH.
Qed.

(** The root [splitext] gives is the path less an end. *)
Lemma splitext_root_prefix (p : string) : ∃ ext, p = OsPath.splitext_root p ++ ext.
Proof.
  unfold OsPath.splitext_root.
  assert (∃ ext, p = p ++ ext) as Hsame.
  { exists "". clear. induction p as [|c p IH]; [done|].
    change (String c p = String c (p ++ "")). congruence. }
  destruct (OsPath.rfind "/" p <? OsPath.rfind "." p)%Z; [|done].
  destruct (OsPath.has_non_dot _); [|done].
  eexists. symmetry. apply take_drop.
Qed.

(** [first_existing] gives a path that exists, before which no path of the
    list exists; it gives nothing when none exists. *)
Lemma first_existing_some file_exists paths f :
  first_existing file_exists paths = Some f ↔
  ∃ before after, paths = (before ++ f :: after)%list
                  ∧ file_exists f = true
                  ∧ Forall (fun p => file_exists p = false) before.
Proof.
  induction paths as [|p paths IH]; simpl.
  - split; [done|]. intros (before & after & Heq & _). by destruct before.
  - destruct (file_exists p) eqn:Hp.
    + split.
      * intros [= ->]. exists [], paths. by repeat split.
      * intros ([|q before] & after & Heq & Hf & Hbefore).
        -- by injection Heq as ->.
        -- injection Heq as -> _. apply Forall_cons_1 in Hbefore as [Hq _]. congruence.
    + rewrite IH. split.
      * intros (before & after & -> & Hf & Hbefore).
        exists (p :: before), after. repeat split; [done|]. by apply Forall_cons_2.
      * intros ([|q before] & after & Heq & Hf & Hbefore).
        -- injection Heq as -> _. congruence.
        -- injection Heq as -> ->. apply Forall_cons_1 in Hbefore as [_ Hbefore].
           by exists before, after.
Qed.

Lemma first_existing_none file_exists paths :
  first_existing file_exists paths = None ↔ Forall (fun p => file_exists p = false) paths.
Proof.
  induction paths as [|p paths IH]; simpl; [by split|].
  destruct (file_exists p) eqn:Hp.
  - split; [done|]. intros [Hq _]%Forall_cons_1. congruence.
  - rewrite IH. split; [by apply Forall_cons_2|by intros [_ ?]%Forall_cons_1].
Qed.

(** X8. [download_audio] returns only a path that exists: the name yt-dlp
    prepared, or else the root of that name with the first of the
    extensions .m4a, .mp4, .webm, .mp3 for which a file exists; so every
    path it returns begins with that root. It returns None exactly when the
    try block raised, when there is no info, or when none of these five
    paths exists. *)
Theorem download_audio_returns_existing (run : outcome (option string))
    (file_exists : string → bool) :
  (∀ f, download_audio run file_exists = Some f →
        file_exists f = true
        ∧ ∃ filename,
            run = Returned (Some filename)
            ∧ (∃ before after,
                 audio_candidates filename = (before ++ f :: after)%list
                 ∧ Forall (fun p => file_exists p = false) before)
            ∧ (∃ tail, f = OsPath.splitext_root filename ++ tail))
  ∧ (download_audio run file_exists = None ↔
     (∃ e, run = Raised e) ∨ run = Returned None
     ∨ ∃ filename, run = Returned (Some filename)
                   ∧ Forall (fun p => file_exists p = false) (audio_candidates filename))
  ∧ (∀ filename, file_exists filename = true →
       download_audio (Returned (Some filename)) file_exists = Some filename).
Proof.
  split; [|split].
  - intros f Hf. destruct run as [[filename|]|e]; unfold download_audio in Hf; try done.
    apply first_existing_some in Hf as (before & after & Hcands & Hexists & Hbefore).
    split; [done|]. exists filename. split; [done|]. split; [by eauto|].
    assert (f ∈ audio_candidates filename) as Hin.
    { rewrite Hcands. apply elem_of_app. right. by left. }
    unfold audio_candidates in Hin. apply elem_of_cons in Hin as [->|Hin].
    + apply splitext_root_prefix.
    + apply list_elem_of_In, in_map_iff in Hin as (ext & <- & _). by eexists.
  - destruct run as [[filename|]|e]; unfold download_audio.
    + rewrite first_existing_none. split.
      * intros Hnone. right. right. by exists filename.
      * intros [[e [=]]|[[=]|(? & [= <-] & Hnone)]]. done.
    + split; [by intros _; right; left|done].
    + split; [by intros _; left; eexists|done].
  - intros filename Hexists. simpl. by rewrite Hexists.
Qed.


End Downloads.

Section SearchResults.
Import Py YouTube.

Lemma entry_step_listed max_results entry videos videos' stop :
  entry_step max_results entry videos = Returned (videos', stop) →
  Forall listed_video videos → Forall listed_video videos'.
Proof.
  unfold entry_step. intros H Hvideos.
  destruct entry as [d|]; [|by injection H as <- <-].
  destruct (is_nonempty_dict (Some d)); [|by injection H as <- <-].
  destruct (get d "id" (Some "")) as [vid|] eqn:Hid; [|by injection H as <- <-].
  destruct (get d "title" (Some "Unknown Title")) as [t|] eqn:Htitle.
  - destruct (nonempty (Some vid) && negb (String.eqb t "Unknown Title")) eqn:Htest;
      [|by injection H as <- <-].
    injection H as <- <-. apply Forall_app. split; [done|].
    apply Forall_singleton. apply andb_prop in Htest as [Hvid Ht].
    unfold listed_video; simpl. repeat split.
    + intros ->. done.
    + intros ->. done.
  - destruct (nonempty (Some vid)); [done|by injection H as <- <-].
Qed.

Lemma for_entries_listed max_results entries : ∀ videos result,
  for_entries max_results entries videos = Returned result →
  Forall listed_video videos → Forall listed_video result.
Proof.
  induction entries as [|entry rest IH]; intros videos result Hrun Hvideos; simpl in Hrun.
  - by injection Hrun as <-.
  - destruct (entry_step max_results entry videos) as [[videos' stop]|e] eqn:Hstep;
      [|done].
    pose proof (entry_step_listed _ _ _ _ _ Hstep Hvideos) as Hvideos'.
    destruct stop; [by injection Hrun as <-|by eapply IH].
Qed.

(** X10. Every video [search_videos] returns, the fallback included, has an
    id that is not empty and a title other than Unknown Title, and its url
    and thumbnail are the two addresses made of its id: an entry without id
    or without title is left out, never listed with a default. *)
Theorem search_videos_lists_usable_videos (query : string) (max_results : Z)
    (run : ydl_run) :
  Forall listed_video (search_videos query max_results run).
Proof.
  unfold search_videos.
  destruct (search_videos_try max_results run) as [videos|e] eqn:Htry.
  - assert (∀ entries, for_entries max_results entries [] = Returned videos →
                       Forall listed_video videos) as Hloop.
    { intros entries Hrun. by eapply for_entries_listed. }
    unfold search_videos_try in Htry.
    destruct run as [| |search_results]; [done|by injection Htry as <-|].
    destruct (truthy search_results); [|by injection Htry as <-].
    destruct search_results as [| |entries meta];
      [by injection Htry as <-|by injection Htry as <-|].
    destruct entries as [[|l]|].
    + destruct (bool_decide _); [by eapply Hloop|done].
    + destruct l; by eapply Hloop.
    + by eapply Hloop.
  - destruct (wants_fallback query); [|done].
    apply Forall_singleton. by repeat split.
Qed.

End SearchResults.

(* ===================================================================== *)
(** ** Properties of the admin commands *)
(* ===================================================================== *)

Section Admins.
Import Py Bot Observe Admin.
Local Open Scope handler_scope.

Lemma admins_apart : apart admin_user_ids.
Proof. by split. Qed.

Lemma primary_apart : apart primary_admin_id.
Proof. by split. Qed.

Lemma update_env_file_keeps {X} (f : world → X) : apart f → preserves f update_env_file.
Proof.
  intros Hf. unfold update_env_file.
  apply preserves_try_except.
  - apply preserves_bind; [by apply preserves_ask|].
    intros [|]; [|apply preserves_ret].
    apply preserves_bind; [by apply preserves_perform|].
    intros _. by apply preserves_perform.
  - intros e. by apply preserves_log_error.
Qed.

(** The admin list after /addadmin. *)
Lemma addadmin_command_admins int u args w :
  admin_user_ids (addadmin_command int u args w).2 =
  if bool_decide (u = primary_admin_id w) then
    match args with
    | [] => admin_user_ids w
    | arg :: _ =>
        match int arg with
        | None => admin_user_ids w
        | Some new_admin_id =>
            if bool_decide (new_admin_id ∈ admin_user_ids w) then admin_user_ids w
            else (admin_user_ids w ++ [new_admin_id])%list
        end
    end
  else admin_user_ids w.
Proof.
  unfold addadmin_command, is_primary_admin, bind, read, update. cbn.
  destruct (bool_decide (u = primary_admin_id w)); [|done].
  destruct args as [|arg rest]; [done|].
  destruct (int arg) as [new_admin_id|]; [|done].
  destruct (bool_decide (new_admin_id ∈ admin_user_ids w)); [done|].
  pose proof (update_env_file_keeps admin_user_ids admins_apart
                (with_admins (admin_user_ids w ++ [new_admin_id]) w)) as Hkept.
  by destruct (update_env_file _) as [[[]|e] w2].
Qed.

(** The admin list after /deladmin. *)
Lemma deladmin_command_admins int u args w :
  admin_user_ids (deladmin_command int u args w).2 =
  if bool_decide (u = primary_admin_id w) then
    match args with
    | [] => admin_user_ids w
    | arg :: _ =>
        match int arg with
        | None => admin_user_ids w
        | Some admin_id =>
            if bool_decide (admin_id = primary_admin_id w) then admin_user_ids w
            else remove_first admin_id (admin_user_ids w)
        end
    end
  else admin_user_ids w.
Proof.
  unfold deladmin_command, is_primary_admin, bind, read, update. cbn.
  destruct (bool_decide (u = primary_admin_id w)); [|done].
  destruct args as [|arg rest]; [done|].
  destruct (int arg) as [admin_id|]; [|done].
  destruct (bool_decide (admin_id = primary_admin_id w)); [done|].
  case_bool_decide as Hin.
  - pose proof (update_env_file_keeps admin_user_ids admins_apart
                  (with_admins (remove_first admin_id (admin_user_ids w)) w)) as Hkept.
    by destruct (update_env_file _) as [[[]|e] w2].
  - cbn. clear -Hin. induction (admin_user_ids w) as [|y l IH]; [done|].
    simpl. case_bool_decide as Hy.
    + subst y. exfalso. apply Hin. by left.
    + f_equal. apply IH. intros H. apply Hin. by right.
Qed.

Lemma addadmin_command_primary int u args w :
  primary_admin_id (addadmin_command int u args w).2 = primary_admin_id w.
Proof.
  unfold addadmin_command, is_primary_admin, bind, read, update. cbn.
  destruct (bool_decide (u = primary_admin_id w)); [|done].
  destruct args as [|arg rest]; [done|].
  destruct (int arg) as [new_admin_id|]; [|done].
  destruct (bool_decide (new_admin_id ∈ admin_user_ids w)); [done|].
  pose proof (update_env_file_keeps primary_admin_id primary_apart
                (with_admins (admin_user_ids w ++ [new_admin_id]) w)) as Hkept.
  by destruct (update_env_file _) as [[[]|e] w2].
Qed.

Lemma deladmin_command_primary int u args w :
  primary_admin_id (deladmin_command int u args w).2 = primary_admin_id w.
Proof.
  unfold deladmin_command, is_primary_admin, bind, read, update. cbn.
  destruct (bool_decide (u = primary_admin_id w)); [|done].
  destruct args as [|arg rest]; [done|].
  destruct (int arg) as [admin_id|]; [|done].
  destruct (bool_decide (admin_id = primary_admin_id w)); [done|].
  destruct (bool_decide (admin_id ∈ admin_user_ids w)); [|done].
  pose proof (update_env_file_keeps primary_admin_id primary_apart
                (with_admins (remove_first admin_id (admin_user_ids w)) w)) as Hkept.
  by destruct (update_env_file _) as [[[]|e] w2].
Qed.

Lemma elem_of_remove_first_ne (x y : Z) (l : list Z) :
  x ≠ y → x ∈ l → x ∈ remove_first y l.
Proof.
  intros Hne. induction l as [|z l IH]; [done|].
  intros Hin. simpl. apply elem_of_cons in Hin as [->|Hin].
  - rewrite bool_decide_eq_false_2 by done. by left.
  - case_bool_decide; [done|]. right. by apply IH.
Qed.

Lemma remove_first_app_new (x : Z) (l : list Z) :
  x ∉ l → remove_first x (l ++ [x]) = l.
Proof.
  induction l as [|z l IH]; intros Hnot; simpl.
  - by rewrite bool_decide_eq_true_2.
  - apply not_elem_of_cons in Hnot as [Hne Hnot].
    rewrite bool_decide_eq_false_2 by done. by rewrite IH.
Qed.

Lemma remove_first_NoDup (x : Z) (l : list Z) : NoDup l → x ∉ remove_first x l.
Proof.
  induction 1 as [|z l Hz Hl IH]; simpl; [apply not_elem_of_nil|].
  case_bool_decide as Hx; [by subst z|].
  apply not_elem_of_cons. split; [done|apply IH].
Qed.

(** X22. The primary admin is an admin from the start, and stays one: it
    is in the list [__init__] builds whatever the environment holds, and no
    /addadmin and no /deladmin, by whomever and with whatever argument,
    takes it out of the list or changes who it is. Sent by anyone else, the
    two commands leave the list as it is. *)
Theorem primary_admin_stays (int : string → option Z) (w : world) (user_id : Z)
    (args : list string) (configured : list Z) :
  let added := (addadmin_command int user_id args w).2 in
  let removed := (deladmin_command int user_id args w).2 in
  primary_admin_id w ∈ init_admins (primary_admin_id w) configured
  ∧ primary_admin_id added = primary_admin_id w
  ∧ primary_admin_id removed = primary_admin_id w
  ∧ (primary_admin_id w ∈ admin_user_ids w →
     primary_admin_id w ∈ admin_user_ids added
     ∧ primary_admin_id w ∈ admin_user_ids removed)
  ∧ (user_id ≠ primary_admin_id w →
     admin_user_ids added = admin_user_ids w
     ∧ admin_user_ids removed = admin_user_ids w).
Proof.
  intros added removed. subst added removed.
  split.
  { unfold init_admins. case_bool_decide; [done|].
    apply elem_of_app. right. by apply list_elem_of_singleton. }
  split; [apply addadmin_command_primary|].
  split; [apply deladmin_command_primary|].
  rewrite addadmin_command_admins, deladmin_command_admins.
  split.
  - intros Hprimary. split.
    + destruct (bool_decide _); [|done].
      destruct args as [|arg rest]; [done|].
      destruct (int arg) as [new_admin_id|]; [|done].
      destruct (bool_decide _); [done|].
      apply elem_of_app. by left.
    + destruct (bool_decide _); [|done].
      destruct args as [|arg rest]; [done|].
      destruct (int arg) as [admin_id|]; [|done].
      case_bool_decide as Hne; [done|].
      apply elem_of_remove_first_ne; [congruence|done].
  - intros Hother. by rewrite !bool_decide_eq_false_2.
Qed.

(** X23. An id the primary admin adds with /addadmin, not an admin
    before, is the last of the list afterwards and passes the gate as an
    admin, with no membership check; /deladmin of the same id then gives
    back the list that was there before. A list without repetition stays
    so under /addadmin, and from such a list /deladmin takes the id out
    altogether. *)
Theorem addadmin_deladmin_round_trip (int : string → option Z) (w : world)
    (arg : string) (rest rest' : list string) (new_admin_id : Z) :
  int arg = Some new_admin_id →
  new_admin_id ∉ admin_user_ids w →
  new_admin_id ≠ primary_admin_id w →
  let primary := primary_admin_id w in
  let added := (addadmin_command int primary (arg :: rest) w).2 in
  let removed := (deladmin_command int primary (arg :: rest') added).2 in
  admin_user_ids added = (admin_user_ids w ++ [new_admin_id])%list
  ∧ access_gate new_admin_id added = (Returned true, added)
  ∧ admin_user_ids removed = admin_user_ids w
  ∧ (NoDup (admin_user_ids w) → NoDup (admin_user_ids added))
  ∧ (∀ w0, NoDup (admin_user_ids w0) → new_admin_id ≠ primary_admin_id w0 →
       new_admin_id ∉
         admin_user_ids (deladmin_command int (primary_admin_id w0) (arg :: rest') w0).2).
Proof.
  intros Hint Hnew Hne primary added removed.
  assert (admin_user_ids added = (admin_user_ids w ++ [new_admin_id])%list) as Hadded.
  { subst added. rewrite addadmin_command_admins, Hint.
    rewrite bool_decide_eq_true_2 by done. by rewrite bool_decide_eq_false_2. }
  split; [done|].
  split.
  { apply access_gate_admin. rewrite Hadded. apply elem_of_app. right.
    by apply list_elem_of_singleton. }
  split.
  { subst removed. rewrite deladmin_command_admins, Hint.
    assert (primary_admin_id added = primary) as -> by apply addadmin_command_primary.
    rewrite bool_decide_eq_true_2 by done.
    rewrite bool_decide_eq_false_2 by done.
    rewrite Hadded. by apply remove_first_app_new. }
  split.
  { intros Hnodup. rewrite Hadded. apply list.NoDup_app. split; [done|].
    split; [|apply list.NoDup_singleton].
    intros x Hx Hx'. apply list_elem_of_singleton in Hx'. by subst x. }
  intros w0 Hnodup Hne0. rewrite deladmin_command_admins, Hint.
  rewrite bool_decide_eq_true_2 by done.
  rewrite bool_decide_eq_false_2 by done.
  by apply remove_first_NoDup.
Qed.

(** *** The forced channel *)

#[local] Arguments String.eqb : simpl never.

Lemma channel_username_nonempty (arg : string) :
  (if PyStr.startswith "@" arg then arg else "@" ++ arg) ≠ "".
Proof.
  destruct (PyStr.startswith "@" arg) eqn:Hat.
  - by destruct arg.
  - by rewrite append_cons.
Qed.

(** X24. /setchannel of an admin (the database answering) stores the
    argument, with an at sign before it if it has none, as the forced
    channel. From then on a user who is not an admin passes the gate exactly
    when the membership check of that channel lets the user through; the
    users, the downloads and the promos are what they were. Sent by a user
    who is not an admin, the command does not touch the database. *)
Theorem setchannel_closes_gate (w : world) (admin user_id : Z) (arg : string)
    (rest : list string) :
  let chat := if PyStr.startswith "@" arg then arg else "@" ++ arg in
  let w' := (setchannel_command admin (arg :: rest) w).2 in
  admin ∈ admin_user_ids w →
  fails (collaborators w) (Sqlite "set_setting") = false →
  fails (collaborators w) (Sqlite "get_setting") = false →
  user_id ∉ admin_user_ids w →
  db w' = Db.set_setting "forced_channel" chat (db w)
  ∧ forced_channel w' = Some chat
  ∧ ((access_gate user_id w').1 = Returned true ↔
     fails (collaborators w) (GetChatMember chat user_id) = true
     ∨ member_status (collaborators w) chat user_id ∈ member_statuses)
  ∧ (setchannel_command user_id (arg :: rest) w = (Returned NoPermission, w)).
Proof.
  intros chat w' Hadmin Hset Hget Hother.
  assert (w' = with_db (Db.set_setting "forced_channel" chat (db w))
                 (logged (Ok (Sqlite "set_setting")) w)) as Hw'.
  { subst w'. unfold setchannel_command, is_admin, sqlite_write, sqlite, bind, read.
    rewrite bool_decide_eq_true_2 by done.
    by rewrite (perform_returns _ _ _ Hset). }
  assert (forced_channel w' = Some chat) as Hforced.
  { rewrite Hw'. unfold forced_channel, Db.get_setting, Db.set_setting. cbn.
    rewrite lookup_insert_eq.
    pose proof (channel_username_nonempty arg) as Hne. fold chat in Hne.
    apply String.eqb_neq in Hne. by rewrite Hne. }
  split; [by rewrite Hw'|].
  split; [done|].
  split.
  - assert (user_id ∉ admin_user_ids w') as Hother' by (by rewrite Hw').
    assert (fails (collaborators w') (Sqlite "get_setting") = false) as Hget'
      by (by rewrite Hw').
    rewrite (access_gate_other _ _ Hother' Hget'), Hforced.
    unfold passes_membership_check. by rewrite Hw'.
  - unfold setchannel_command, is_admin, bind, read.
    by rewrite bool_decide_eq_false_2.
Qed.

(** X25. /clearchannel of an admin (the database answering) removes the
    forced channel and no other setting, and the gate then lets every user
    through. Sent by a user who is not an admin, the command does not touch
    the database. *)
Theorem clearchannel_opens_gate (w : world) (admin user_id : Z) :
  let w' := (clearchannel_command admin w).2 in
  admin ∈ admin_user_ids w →
  fails (collaborators w) (Sqlite "delete_bot_setting") = false →
  fails (collaborators w) (Sqlite "get_setting") = false →
  forced_channel w' = None
  ∧ (∀ key, key ≠ "forced_channel" →
       Db.get_setting key (db w') = Db.get_setting key (db w))
  ∧ (access_gate user_id w').1 = Returned true
  ∧ (user_id ∉ admin_user_ids w →
     clearchannel_command user_id w = (Returned NoPermission, w)).
Proof.
  intros w' Hadmin Hdelete Hget.
  assert (w' = with_db (Db.delete_bot_setting "forced_channel" (db w))
                 (logged (Ok (Sqlite "delete_bot_setting")) w)) as Hw'.
  { subst w'. unfold clearchannel_command, is_admin, sqlite_write, sqlite, bind, read.
    rewrite bool_decide_eq_true_2 by done.
    by rewrite (perform_returns _ _ _ Hdelete). }
  assert (forced_channel w' = None) as Hforced.
  { rewrite Hw'. unfold forced_channel, Db.get_setting, Db.delete_bot_setting. cbn.
    by rewrite lookup_delete_eq. }
  split; [done|].
  split.
  { intros key Hkey. rewrite Hw'. unfold Db.get_setting, Db.delete_bot_setting. cbn.
    by rewrite lookup_delete_ne. }
  split.
  - destruct (decide (user_id ∈ admin_user_ids w')) as [Hin|Hout].
    + by rewrite (access_gate_admin _ _ Hin).
    + assert (fails (collaborators w') (Sqlite "get_setting") = false) as Hget'
        by (by rewrite Hw').
      apply (access_gate_other _ _ Hout Hget'). by rewrite Hforced.
  - intros Hother. unfold clearchannel_command, is_admin, bind, read.
    by rewrite bool_decide_eq_false_2.
Qed.

(** *** The broadcast *)

Lemma broadcast_loop_counts delivers edits users : ∀ sent failed sent' failed',
  broadcast_loop delivers edits users sent failed = Returned (sent', failed') →
  sent' = (sent + length (filter (λ u, delivers u = true) users))%nat
  ∧ failed' = (failed + length (filter (λ u, delivers u = false) users))%nat.
Proof.
  induction users as [|u rest IH]; intros sent failed sent' failed' Hrun; simpl in Hrun.
  - injection Hrun as <- <-. simpl. lia.
  - assert (broadcast_loop delivers edits rest
              (if delivers u then S sent else sent)
              (if delivers u then failed else S failed) = Returned (sent', failed')) as Hrest.
    { destruct (_ =? 0)%nat; [|done]. by destruct (edits _). }
    apply IH in Hrest as [-> ->].
    destruct (delivers u) eqn:Hu.
    + rewrite filter_cons_True by done. rewrite filter_cons_False by (by rewrite Hu).
      simpl. lia.
    + rewrite filter_cons_False by (by rewrite Hu). rewrite filter_cons_True by done.
      simpl. lia.
Qed.

Lemma broadcast_loop_total delivers edits users : ∀ sent failed sent' failed',
  broadcast_loop delivers edits users sent failed = Returned (sent', failed') →
  (sent' + failed' = sent + failed + length users)%nat.
Proof.
  induction users as [|u rest IH]; intros sent failed sent' failed' Hrun; simpl in Hrun.
  - injection Hrun as <- <-. simpl. lia.
  - assert (broadcast_loop delivers edits rest
              (if delivers u then S sent else sent)
              (if delivers u then failed else S failed) = Returned (sent', failed')) as Hrest.
    { destruct (_ =? 0)%nat; [|done]. by destruct (edits _). }
    apply IH in Hrest. simpl. destruct (delivers u); lia.
Qed.

Lemma broadcast_loop_short delivers edits users : ∀ sent failed,
  (sent + failed + length users < 50)%nat →
  ∃ sent' failed', broadcast_loop delivers edits users sent failed = Returned (sent', failed').
Proof.
  induction users as [|u rest IH]; intros sent failed Hshort;
    cbn [broadcast_loop length] in *.
  - by eexists _, _.
  - set (sent1 := if delivers u then S sent else sent).
    set (failed1 := if delivers u then failed else S failed).
    assert (sent1 + failed1 = S (sent + failed))%nat as Hsum
      by (subst sent1 failed1; destruct (delivers u); lia).
    rewrite Hsum.
    destruct (Nat.eqb_spec (S (sent + failed) mod 50) 0) as [Hzero|_].
    { rewrite Nat.mod_small in Hzero by lia. done. }
    apply IH. lia.
Qed.

Lemma broadcast_loop_edited delivers edits users : ∀ sent failed,
  (∀ n, edits n = true) →
  ∃ sent' failed', broadcast_loop delivers edits users sent failed = Returned (sent', failed').
Proof.
  induction users as [|u rest IH]; intros sent failed Hedits; simpl.
  - by eexists _, _.
  - rewrite Hedits. destruct (_ =? 0)%nat; by apply IH.
Qed.

(** X26. The counts of a broadcast. When the loop over the users ends,
    every user has been tried once: the users sent to and the users failed
    add up to the users there are, the first being those to whom the message
    was delivered. The loop ends, whatever the sends do, when every edit of
    the status message returns, and also when there are fewer than 50 users,
    for then there is no such edit. *)
Theorem broadcast_report_adds_up (delivers : Z → bool) (edits : nat → bool)
    (users : list Z) :
  (∀ sent failed,
     broadcast_loop delivers edits users 0 0 = Returned (sent, failed) →
     (sent + failed = length users)%nat
     ∧ sent = length (filter (λ u, delivers u = true) users))
  ∧ ((∀ n, edits n = true) →
     ∃ sent failed, broadcast_loop delivers edits users 0 0 = Returned (sent, failed))
  ∧ ((length users < 50)%nat →
     ∃ sent failed, broadcast_loop delivers edits users 0 0 = Returned (sent, failed)).
Proof.
  split; [|split].
  - intros sent failed Hrun. split.
    + apply broadcast_loop_total in Hrun. lia.
    + by apply broadcast_loop_counts in Hrun as [-> _].
  - intros Hedits. by apply broadcast_loop_edited.
  - intros Hshort. apply broadcast_loop_short. simpl. lia.
Qed.

(** X28. The users a broadcast goes to are the users /users counts as
    active: [get_all_users] lists each id whose row is active, once, as many
    ids as the second count of [get_user_count]. So, when the loop over them
    ends, the users sent to and the users failed add up to that count. *)
Theorem broadcast_reaches_active_users (d : Db.Database) (delivers : Z → bool)
    (edits : nat → bool) :
  NoDup (Db.get_all_users d)
  ∧ length (Db.get_all_users d) = (Db.get_user_count d).2
  ∧ (∀ uid, uid ∈ Db.get_all_users d ↔
            ∃ r, Db.users d !! uid = Some r ∧ Db.is_active r = Some 1%Z)
  ∧ (∀ sent failed,
       broadcast_loop delivers edits (Db.get_all_users d) 0 0 = Returned (sent, failed) →
       (sent + failed)%nat = (Db.get_user_count d).2).
Proof.
  assert (length (Db.get_all_users d) = (Db.get_user_count d).2) as Hlength.
  { unfold Db.get_all_users, Db.get_user_count. simpl.
    by rewrite length_fmap, length_map_to_list. }
  split; [apply NoDup_fst_map_to_list|].
  split; [done|].
  split; [intros uid; apply elem_of_get_all_users|].
  intros sent failed Hrun. apply broadcast_loop_total in Hrun. lia.
Qed.

(** *** The file .env *)





End Admins.

(* ===================================================================== *)
(** ** The further properties at concrete inputs *)
(* ===================================================================== *)

Section MoreInstances.
Import Py Bot Observe Admin Examples.

(** [add_user_registers]: user 42 joins a fresh database; the row of user 7
    is what it was, absent. *)
Lemma add_user_registers_witness :
  Db.users one_user_db !! 7%Z = Db.users Db.init_database !! 7%Z.
Proof.
  pose proof (add_user_registers 42 (Some "fan") (Some "Ana") None
                "2024-05-01T10:00:00.000000" "2024-05-01 10:00:00" Db.init_database) as H.
  cbv zeta in H.
  destruct H as (_ & _ & _ & H & _).
  apply (H 7%Z). discriminate.
Defined.


(** [get_current_promo_is_latest]: the one promo of the stocked database. *)
Lemma get_current_promo_is_latest_witness :
  ∃ r, r ∈ Db.promos stocked_db ∧ Db.promo r = old_promo.
Proof.
  destruct (get_current_promo_is_latest stocked_db) as [_ H].
  destruct (H old_promo) as [Hrow _].
  - reflexivity.
  - exact Hrow.
Defined.

(** [well_formed_kept]: a promo added to the fresh database. *)
Lemma well_formed_kept_witness :
  Db.well_formed (Db.add_promo old_promo Db.init_database).
Proof.
  destruct well_formed_kept as [Hinit Hkept].
  destruct (Hkept Db.init_database) as (_ & _ & _ & _ & _ & H & _).
  - exact Hinit.
  - exact (H old_promo).
Defined.

(** [delete_latest_promo_removes_current]: the one promo of the stocked
    database is deleted. *)
Lemma delete_latest_promo_removes_current_witness :
  (Db.delete_latest_promo stocked_db).1 = true
  ∧ Db.delete_latest_promo Db.init_database = (false, Db.init_database).
Proof.
  destruct (delete_latest_promo_removes_current stocked_db) as [_ H].
  destruct H as (r & _ & _ & Hanswer & _).
  - vm_compute. apply list.NoDup_singleton.
  - discriminate.
  - split; [exact Hanswer|].
    apply (delete_latest_promo_removes_current Db.init_database). reflexivity.
Defined.

(** [download_audio_returns_existing]: yt-dlp prepared the name with .webm
    and the file lies there as .m4a. *)
Lemma download_audio_returns_existing_witness :
  only_m4a "temp/Despacito.m4a" = true
  ∧ ∃ tail, "temp/Despacito.m4a" = OsPath.splitext_root "temp/Despacito.webm" ++ tail.
Proof.
  destruct (download_audio_returns_existing (Returned (Some "temp/Despacito.webm"))
              only_m4a) as [H _].
  destruct (H "temp/Despacito.m4a") as (Hexists & filename & Hrun & _ & Htail).
  - reflexivity.
  - split; [exact Hexists|].
    injection Hrun as <-. exact Htail.
Defined.


(** [escape_markdown_one_pass]: a title without special characters. *)
Lemma escape_markdown_one_pass_witness :
  escape_markdown "Despacito" = "Despacito".
Proof.
  apply (proj2 (proj2 (escape_markdown_one_pass "Despacito" ""))).
  refine (bool_decide_unpack _ _). vm_compute. exact I.
Defined.

(** [clean_title_label]: a short title without the four characters. *)
Lemma clean_title_label_witness :
  clean_title "Despacito" = "Despacito".
Proof.
  apply (proj2 (proj2 (clean_title_label "Despacito"))).
  - vm_compute. lia.
  - refine (bool_decide_unpack _ _). vm_compute. exact I.
Defined.

(** [is_youtube_url_anywhere]: a link in the middle of a sentence. *)
Lemma is_youtube_url_anywhere_witness :
  is_youtube_url ("Listen: " ++ "https://youtu.be/kJQP7kiw5Fk" ++ " now") = true.
Proof.
  apply (is_youtube_url_anywhere "Listen: " "https://youtu.be/kJQP7kiw5Fk" " now").
  reflexivity.
Defined.

(** [other_sessions_untouched]: user 7 searches; the candidates of user 42
    stay. *)
Lemma other_sessions_untouched_witness :
  user_sessions (handle_text_message 7 "shape of you" after_search).2 !! 42%Z
  = user_sessions after_search !! 42%Z.
Proof.
  destruct (other_sessions_untouched 7 42 after_search) as [H _].
  - discriminate.
  - exact (H "shape of you").
Defined.

(** [link_message_is_not_searched]: user 42 sends a link. *)
Lemma link_message_is_not_searched_witness :
  search_limits
    (calls_since fresh_bot
       (handle_text_message 42 " https://youtu.be/kJQP7kiw5Fk " fresh_bot).2) = [].
Proof.
  apply (link_message_is_not_searched fresh_bot 42 " https://youtu.be/kJQP7kiw5Fk ").
  reflexivity.
Defined.

(** [mp4_delivery_ends_in_failure]: user 42 selects the one candidate as
    MP4 and nothing fails. *)
Lemma mp4_delivery_ends_in_failure_witness :
  db (handle_mp4_download 42 "kJQP7kiw5Fk" 0 after_search).2 = db after_search.
Proof.
  pose proof (mp4_delivery_ends_in_failure after_search 42 despacito (url despacito)) as H.
  cbv zeta in H.
  destruct H as (_ & _ & _ & H).
  destruct (H "temp/Despacito.mp4" "LuisFonsiVEVO" "kJQP7kiw5Fk" 0%Z) as [_ Hdb].
  - reflexivity.
  - reflexivity.
  - reflexivity.
  - intros c. reflexivity.
  - exact Hdb.
Defined.

(** [link_download_outcomes]: user 42 presses the button under a link with
    no entry stored. *)
Lemma link_download_outcomes_witness :
  rejected_with TxtSessionExpiredUrl (handle_url_mp3_download 42) fresh_bot.
Proof.
  apply (link_download_outcomes mp3 fresh_bot 42). reflexivity.
Defined.

(** [selection_counts_from_the_end]: index -1 on the one candidate. *)
Lemma selection_counts_from_the_end_witness :
  ∃ v, resolve_candidate (user_sessions after_search) 42 (-1) = Selected v.
Proof.
  pose proof (selection_counts_from_the_end mp3 after_search 42 "kJQP7kiw5Fk" (-1)
                [despacito] "despacito") as H.
  cbv zeta in H.
  destruct H as (_ & H & _).
  - reflexivity.
  - destruct H as (v & _ & Hv).
    + simpl. lia.
    + exists v. exact Hv.
Defined.

(** [delpromo_command_clears]: the primary admin removes the promo. *)
Lemma delpromo_command_clears_witness :
  Db.promos (db (delpromo_command 7176592290 stocked_bot).2) = [].
Proof.
  pose proof (delpromo_command_clears stocked_bot 7176592290) as H.
  cbv zeta in H.
  destruct H as [H _].
  - by apply list_elem_of_singleton.
  - reflexivity.
  - reflexivity.
  - destruct H as [Hempty _].
    + discriminate.
    + exact Hempty.
Defined.

(** [admin_commands_refuse_others]: user 42 is no admin. *)
Lemma admin_commands_refuse_others_witness :
  refused_with TxtNoPermission (users_command 42) fresh_bot.
Proof.
  apply (admin_commands_refuse_others fresh_bot 42).
  intros H. apply list_elem_of_singleton in H. discriminate H.
Defined.

(** [delivery_without_channel]: the video of an entry without uploader. *)
Lemma delivery_without_channel_witness :
  (process_mp3_download 42 nameless (url nameless) fresh_bot).1
  = Raised (Wrapped "MP3 processing failed" AttributeError).
Proof.
  apply (delivery_without_channel fresh_bot 42 nameless (url nameless)
           "temp/Despacito.m4a"); reflexivity.
Defined.

(** [primary_admin_stays]: the primary admin asks for its own removal. *)
Lemma primary_admin_stays_witness :
  7176592290%Z ∈ admin_user_ids (deladmin_command int_of 7176592290 ["7176592290"] fresh_bot).2.
Proof.
  pose proof (primary_admin_stays int_of fresh_bot 7176592290 ["7176592290"] []) as H.
  cbv zeta in H.
  destruct H as (_ & _ & _ & H & _).
  destruct H as [_ H].
  - by apply list_elem_of_singleton.
  - exact H.
Defined.

(** [addadmin_deladmin_round_trip]: user 42 is made an admin and removed
    again. *)
Lemma addadmin_deladmin_round_trip_witness :
  admin_user_ids
    (deladmin_command int_of 7176592290 ["42"]
       (addadmin_command int_of 7176592290 ["42"] fresh_bot).2).2
  = [7176592290%Z].
Proof.
  pose proof (addadmin_deladmin_round_trip int_of fresh_bot "42" [] [] 42) as H.
  cbv zeta in H.
  destruct H as (_ & _ & H & _).
  - reflexivity.
  - intros H. apply list_elem_of_singleton in H. discriminate H.
  - discriminate.
  - exact H.
Defined.

(** [setchannel_closes_gate]: the primary admin sets the channel without
    the at sign. *)
Lemma setchannel_closes_gate_witness :
  forced_channel (setchannel_command 7176592290 ["ytmusiclab"] fresh_bot).2
  = Some "@ytmusiclab".
Proof.
  pose proof (setchannel_closes_gate fresh_bot 7176592290 42 "ytmusiclab" []) as H.
  cbv zeta in H.
  destruct H as (_ & H & _).
  - by apply list_elem_of_singleton.
  - reflexivity.
  - reflexivity.
  - intros H. apply list_elem_of_singleton in H. discriminate H.
  - exact H.
Defined.

(** [clearchannel_opens_gate]: the primary admin lifts the channel user 42
    has left. *)
Lemma clearchannel_opens_gate_witness :
  (access_gate 42 (clearchannel_command 7176592290
                     (with_env not_a_member stocked_bot)).2).1 = Returned true.
Proof.
  pose proof (clearchannel_opens_gate (with_env not_a_member stocked_bot) 7176592290 42) as H.
  cbv zeta in H.
  destruct H as (_ & _ & H & _).
  - by apply list_elem_of_singleton.
  - reflexivity.
  - reflexivity.
  - exact H.
Defined.

(** [broadcast_report_adds_up]: three users, no edit of the status message
    would return. *)
Lemma broadcast_report_adds_up_witness :
  ∃ sent failed,
    broadcast_loop second_blocked (λ _, false) [1; 2; 3]%Z 0 0 = Returned (sent, failed).
Proof.
  apply (broadcast_report_adds_up second_blocked (λ _, false) [1; 2; 3]%Z).
  simpl. lia.
Defined.

(** [broadcast_reaches_active_users]: the one user of the database is
    sent the message. *)
Lemma broadcast_reaches_active_users_witness :
  (1 + 0)%nat = (Db.get_user_count one_user_db).2.
Proof.
  destruct (broadcast_reaches_active_users one_user_db second_blocked (λ _, false))
    as (_ & _ & _ & H).
  apply (H 1%nat 0%nat). reflexivity.
Defined.

End MoreInstances.
